(** * PpmImagePlugin: a shallow embedding of PIL's PBM/PGM/PPM plugin

    Source: [src/PIL/PpmImagePlugin.py].  Python [bytes] are lists of
    integers in [0, 255] (iterating a [bytes] object yields [int]s, and
    the decoder compares them with 48 and 49), Python [int]s are [Z],
    lengths and sizes handed to the decoder are [nat].  Exceptions are the
    [Raise] arm of [result]; file objects are threaded explicitly. *)

From Stdlib Require Import String Ascii ZArith List Bool Lia.
From Stdlib Require DecimalFacts DecimalPos DecimalN DecimalZ.
Import ListNotations.
Open Scope Z_scope.

(** ** Bytes, exceptions and the error monad *)

Definition bytes := list Z.

(** A [bytes] literal: [bytes_of "P1"] is Python's [b"P1"]. *)
Definition bytes_of (s : string) : bytes :=
  map (fun c => Z.of_nat (nat_of_ascii c)) (list_ascii_of_string s).

Fixpoint bytes_eqb (x y : bytes) : bool :=
  match x, y with
  | [], [] => true
  | a :: x', c :: y' => (a =? c) && bytes_eqb x' y'
  | _, _ => false
  end.

(** The exceptions the plugin raises, with the value each message names. *)
Inductive exn : Type :=
| NotAPpmFile                         (* SyntaxError("not a PPM file") *)
| ReachedEOFInHeader                  (* ValueError("Reached EOF while reading header") *)
| HeaderTokenTooLong (token : bytes)  (* ValueError("Token too long in file header: ...") *)
| InvalidLiteral (token : bytes)      (* ValueError raised by int() *)
| TooManyColors (maxval : Z)          (* ValueError("Too many colors for band: ...") *)
| InvalidToken (token : bytes)        (* ValueError("Invalid token for this mode: ...") *)
| DataTokenTooLong (token : bytes)    (* ValueError("Token too long found in data: ...") *)
| ChannelValueTooLarge (token : Z)    (* ValueError("Channel value too large for this mode: ...") *)
| OverflowError                       (* int.to_bytes on a value that does not fit *)
| IndexError                          (* index out of range, pop from empty list *)
| UnboundLocalError                   (* a local read before any branch assigned it *)
| CannotWriteMode (mode : string).    (* OSError("cannot write mode ... as PPM") *)

Inductive result (A : Type) : Type :=
| Ok (a : A)
| Raise (e : exn).
Arguments Ok {A} a.
Arguments Raise {A} e.

Definition bind {A B} (r : result A) (k : A -> result B) : result B :=
  match r with
  | Ok a => k a
  | Raise e => Raise e
  end.

Notation "x <- r ;; k" := (bind r (fun x => k))
  (at level 61, r at next level, right associativity).
Notation "' p <- r ;; k" := (bind r (fun x => let 'p := x in k))
  (at level 61, p pattern, r at next level, right associativity).

(** ** The Python built-ins the plugin calls *)

Module Py.

(** ASCII whitespace, as [bytes.split()] and [bytes.isspace()] see it:
    space, tab, LF, VT, FF, CR. *)
Definition is_space (c : Z) : bool :=
  (c =? 32) || (c =? 9) || (c =? 10) || (c =? 11) || (c =? 12) || (c =? 13).

Definition is_digit (c : Z) : bool := (48 <=? c) && (c <=? 57).

(** [c in haystack] for a single byte [c]. *)
Definition mem (c : Z) (haystack : bytes) : bool := existsb (Z.eqb c) haystack.

Fixpoint find_aux (c : Z) (l : bytes) (i : Z) : Z :=
  match l with
  | [] => -1
  | x :: r => if x =? c then i else find_aux c r (i + 1)
  end.

(** [block.find(bytes([c]), start)] for [0 <= start]: the lowest index
    not below [start] that holds [c], or -1. *)
Definition find (block : bytes) (c : Z) (start : Z) : Z :=
  find_aux c (skipn (Z.to_nat start) block) start.

(** [block[:i]] and [block[i:]] for [0 <= i]. *)
Definition upto (block : bytes) (i : Z) : bytes := firstn (Z.to_nat i) block.
Definition from (block : bytes) (i : Z) : bytes := skipn (Z.to_nat i) block.

(** [block.split()]: the maximal runs of non-whitespace bytes.  [cur]
    holds the run being read, reversed. *)
Fixpoint split_aux (cur : bytes) (block : bytes) : list bytes :=
  match block with
  | [] => match cur with [] => [] | _ => [rev cur] end
  | c :: r =>
      if is_space c
      then match cur with
           | [] => split_aux [] r
           | _ => rev cur :: split_aux [] r
           end
      else split_aux (c :: cur) r
  end.

Definition split (block : bytes) : list bytes := split_aux [] block.

(** [b"".join(tokens)]. *)
Definition join (tokens : list bytes) : bytes := concat tokens.

(** [block[-1:].isspace()]: false on the empty block. *)
Definition ends_with_space (block : bytes) : bool :=
  match rev block with
  | [] => false
  | c :: _ => is_space c
  end.

(** [tokens.pop()]: the last element and the list without it. *)
Definition pop (tokens : list bytes) : result (bytes * list bytes) :=
  match rev tokens with
  | [] => Raise IndexError
  | t :: r => Ok (t, rev r)
  end.

(** The digits of a decimal literal after its sign: digits, with single
    underscores allowed between two digits. *)
Fixpoint int_digits (acc : Z) (after_digit : bool) (s : bytes) : option Z :=
  match s with
  | [] => if after_digit then Some acc else None
  | c :: r =>
      if is_digit c then int_digits (acc * 10 + (c - 48)) true r
      else if (c =? 95) && after_digit then int_digits acc false r
      else None
  end.

(** [int(token)] for a whitespace-free [bytes] token, base 10. *)
Definition int (token : bytes) : result Z :=
  let parsed :=
    match token with
    | 43 :: r => int_digits 0 false r
    | 45 :: r => option_map Z.opp (int_digits 0 false r)
    | _ => int_digits 0 false token
    end in
  match parsed with
  | Some v => Ok v
  | None => Raise (InvalidLiteral token)
  end.

(** The [n] low-order bytes of [v], most significant first. *)
Fixpoint big_endian (n : nat) (v : Z) : bytes :=
  match n with
  | O => []
  | S n' => (v / 256 ^ Z.of_nat n') mod 256 :: big_endian n' v
  end.

(** [v.to_bytes(n, "big")]: unsigned, raises when [v] is negative or
    needs more than [n] bytes. *)
Definition to_bytes (v : Z) (n : nat) : result bytes :=
  if (v <? 0) || (256 ^ Z.of_nat n <=? v) then Raise OverflowError
  else Ok (big_endian n v).

Fixpoint uint_bytes (d : Decimal.uint) : bytes :=
  match d with
  | Decimal.Nil => []
  | Decimal.D0 r => 48 :: uint_bytes r
  | Decimal.D1 r => 49 :: uint_bytes r
  | Decimal.D2 r => 50 :: uint_bytes r
  | Decimal.D3 r => 51 :: uint_bytes r
  | Decimal.D4 r => 52 :: uint_bytes r
  | Decimal.D5 r => 53 :: uint_bytes r
  | Decimal.D6 r => 54 :: uint_bytes r
  | Decimal.D7 r => 55 :: uint_bytes r
  | Decimal.D8 r => 56 :: uint_bytes r
  | Decimal.D9 r => 57 :: uint_bytes r
  end.

(** ["%d" % v], encoded as ASCII. *)
Definition format_d (v : Z) : bytes :=
  match Z.to_int v with
  | Decimal.Pos d => uint_bytes d
  | Decimal.Neg d => 45 :: uint_bytes d
  end.

End Py.

(** ** Module-level tables and [_accept] *)

Definition b_whitespace : bytes := [32; 9; 10; 11; 12; 13].

Definition MODES_table : list (bytes * string) :=
  [ (bytes_of "P1", "1"%string);
    (bytes_of "P2", "L"%string);
    (bytes_of "P3", "RGB"%string);
    (bytes_of "P4", "1"%string);
    (bytes_of "P5", "L"%string);
    (bytes_of "P6", "RGB"%string);
    (bytes_of "P0CMYK", "CMYK"%string);
    (bytes_of "PyP", "P"%string);
    (bytes_of "PyRGBA", "RGBA"%string);
    (bytes_of "PyCMYK", "CMYK"%string) ].

(** [MODES[magic]], [None] standing for [KeyError]. *)
Definition MODES (magic : bytes) : option string :=
  option_map snd (List.find (fun kv => bytes_eqb (fst kv) magic) MODES_table).

(** [prefix[0:1] == b"P" and prefix[1] in b"0123456y"]: the right operand
    is evaluated only when the left one holds, and [prefix[1]] raises
    [IndexError] on a prefix shorter than two bytes. *)
Definition _accept (prefix : bytes) : result bool :=
  if bytes_eqb (firstn 1 prefix) (bytes_of "P") then
    match nth_error prefix 1 with
    | Some c => Ok (Py.mem c (bytes_of "0123456y"))
    | None => Raise IndexError
    end
  else Ok false.

(** ** The file object of [PpmImageFile]

    [pos] is what [fp.tell()] reports, [rest] the bytes not yet read. *)

Record file : Type := mkfile { pos : nat; rest : bytes }.

(** [fp.read(1)]: [None] stands for the empty [bytes] read at end of file. *)
Definition read1 (fp : file) : option Z * file :=
  match rest fp with
  | [] => (None, fp)
  | c :: r => (Some c, mkfile (S (pos fp)) r)
  end.

Module PpmImageFile.

(** The [for _ in range(6)] loop of [_read_magic]. *)
Fixpoint _read_magic_loop (n : nat) (magic : bytes) (fp : file) : bytes * file :=
  match n with
  | O => (magic, fp)
  | S n' =>
      match read1 fp with
      | (None, fp') => (magic, fp')
      | (Some c, fp') =>
          if Py.mem c b_whitespace then (magic, fp')
          else _read_magic_loop n' (magic ++ [c]) fp'
      end
  end.

Definition _read_magic (fp : file) : bytes * file := _read_magic_loop 6 [] fp.

(** [while self.fp.read(1) not in b"\r\n": pass].  The empty read at end
    of file is a substring of [b"\r\n"], so the loop also stops there. *)
Fixpoint skip_line (p : nat) (r : bytes) : file :=
  match r with
  | [] => mkfile p []
  | c :: r' =>
      if Py.mem c [13; 10] then mkfile (S p) r'
      else skip_line (S p) r'
  end.

(** The [while len(token) <= 10] loop of [_read_token].  Every iteration
    that does not leave the loop reads at least one byte, so
    [S (length (rest fp))] iterations are enough ([_read_token_loop_fuel]). *)
Fixpoint _read_token_loop (fuel : nat) (token : bytes) (fp : file) : bytes * file :=
  match fuel with
  | O => (token, fp)
  | S fuel' =>
      if (length token <=? 10)%nat then
        match read1 fp with
        | (None, fp') => (token, fp')
        | (Some c, fp') =>
            if Py.mem c b_whitespace then
              match token with
              | [] => _read_token_loop fuel' token fp'
              | _ => (token, fp')
              end
            else if c =? 35 then
              _read_token_loop fuel' token (skip_line (pos fp') (rest fp'))
            else _read_token_loop fuel' (token ++ [c]) fp'
        end
      else (token, fp)
  end.

Definition _read_token (fp : file) : result (bytes * file) :=
  let '(token, fp') := _read_token_loop (S (length (rest fp))) [] fp in
  match token with
  | [] => Raise ReachedEOFInHeader
  | _ =>
      if (10 <? length token)%nat then Raise (HeaderTokenTooLong token)
      else Ok (token, fp')
  end.

(** What [_open] leaves on the image: [self.mode], [self._size],
    [self.custom_mimetype] and the single entry of [self.tile],
    [(decoder_name, (0, 0, xsize, ysize), offset, (rawmode, 0, 1))]. *)
Record opened : Type := mkopened {
  mode : string;
  xsize : Z;
  ysize : Z;
  custom_mimetype : option string;
  decoder_name : string;
  offset : nat;
  rawmode : string
}.

Definition mimetype_of (magic_number : bytes) : option string :=
  if bytes_eqb magic_number (bytes_of "P1") || bytes_eqb magic_number (bytes_of "P4")
  then Some "image/x-portable-bitmap"%string
  else if bytes_eqb magic_number (bytes_of "P2") || bytes_eqb magic_number (bytes_of "P5")
  then Some "image/x-portable-graymap"%string
  else if bytes_eqb magic_number (bytes_of "P3") || bytes_eqb magic_number (bytes_of "P6")
  then Some "image/x-portable-pixmap"%string
  else None.

Definition decoder_of (magic_number : bytes) : string :=
  if bytes_eqb magic_number (bytes_of "P1") || bytes_eqb magic_number (bytes_of "P2")
     || bytes_eqb magic_number (bytes_of "P3")
  then "ppm_plain"%string else "raw"%string.

(** The [ix == 2] arm of the header loop: [(self.mode, rawmode)] from the
    table's mode and the max-value token. *)
Definition _open_maxval (mode : string) (maxval : Z) : result (string * string) :=
  if 255 <? maxval then
    if negb (String.eqb mode "L") then Raise (TooManyColors maxval)
    else if maxval <? 2 ^ 16 then Ok ("I"%string, "I;16B"%string)
    else Ok ("I"%string, "I;32B"%string)
  else Ok (mode, mode).

Definition _open (fp : file) : result opened :=
  let '(magic_number, fp) := _read_magic fp in
  match MODES magic_number with
  | None => Raise NotAPpmFile
  | Some mode =>
      let finish (self_mode rawmode : string) (xsize ysize : Z) (fp : file) :=
        mkopened self_mode xsize ysize (mimetype_of magic_number)
                 (decoder_of magic_number) (pos fp) rawmode in
      '(token, fp) <- _read_token fp ;;
      xsize <- Py.int token ;;
      '(token, fp) <- _read_token fp ;;
      ysize <- Py.int token ;;
      if String.eqb mode "1" then Ok (finish "1"%string "1;I"%string xsize ysize fp)
      else
        '(token, fp) <- _read_token fp ;;
        maxval <- Py.int token ;;
        '(self_mode, rawmode) <- _open_maxval mode maxval ;;
        Ok (finish self_mode rawmode xsize ysize fp)
  end.

End PpmImageFile.

(** ** The plain-text decoder *)

(** One pass of a [while] loop: go round again with a new state, leave the
    loop with the value the method returns, or raise. *)
Inductive outcome (S : Type) : Type :=
| Next (s : S)
| Done (decoded_data : bytes)
| Fail (e : exn).
Arguments Next {S} s.
Arguments Done {S} decoded_data.
Arguments Fail {S} e.

Module PpmPlainDecoder.

(** [self.fd] is the list of blocks that the successive calls of
    [self.fd.read(ImageFile.SAFEBLOCK)] will return; once it is used up
    every read returns the empty block. *)
Definition _read_block (fd : list bytes) : bytes * list bytes :=
  match fd with
  | [] => ([], [])
  | block :: fd' => (block, fd')
  end.

Definition _find_comment_end (block : bytes) (start : Z) : Z :=
  let a := Py.find block 10 start in
  let b := Py.find block 13 start in
  if 0 <? a * b then Z.min a b else Z.max a b.

(** The [while True] loop of [_ignore_comments].  Each pass that goes
    round again deletes at least the [#] it found, so [S (length block)]
    passes are enough ([_ignore_comments_loop_fuel]). *)
Fixpoint _ignore_comments_loop (fuel : nat) (block : bytes) : bytes * bool :=
  match fuel with
  | O => (block, false)
  | S fuel' =>
      let comment_start := Py.find block 35 0 in
      if comment_start =? -1 then (block, false)
      else
        let comment_end := _find_comment_end block comment_start in
        if negb (comment_end =? -1) then
          _ignore_comments_loop fuel'
            (Py.upto block comment_start ++ Py.from block (comment_end + 1))
        else (Py.upto block comment_start, true)
  end.

Definition _ignore_comments (block : bytes) : bytes * bool :=
  _ignore_comments_loop (S (length block)) block.

(** The inner loop [while block and comment_spans] of both decoders,
    entered with [comment_spans] set: it ends on an empty block or at the
    first block in which [_find_comment_end] finds a line end, and reads
    a new block otherwise.  ([_decode_bitonal] clears [comment_spans]
    where [_decode_blocks] says [break]; both then overwrite the flag
    with the one [_ignore_comments] returns.) *)
Fixpoint skip_open_comment (fd : list bytes) (block : bytes) : bytes * list bytes :=
  match block with
  | [] => (block, fd)
  | _ :: _ =>
      let comment_end := _find_comment_end block 0 in
      if negb (comment_end =? -1) then (Py.from block (comment_end + 1), fd)
      else
        match fd with
        | [] => ([], [])
        | block' :: fd' => skip_open_comment fd' block'
        end
  end.

(** [bytes.maketrans(b"01", b"\xFF\x00")], applied to one byte. *)
Definition invert (c : Z) : Z :=
  if c =? 48 then 255 else if c =? 49 then 0 else c.

Record bitonal_state : Type := mkbitonal {
  bt_decoded_data : bytes;
  bt_comment_spans : bool;
  bt_fd : list bytes
}.

(** One pass of [while len(decoded_data) != total_bytes] in
    [_decode_bitonal]. *)
Definition _decode_bitonal_body (total_bytes : nat) (st : bitonal_state)
  : outcome bitonal_state :=
  let decoded_data := bt_decoded_data st in
  if (length decoded_data =? total_bytes)%nat then Done decoded_data
  else
    let '(block, fd) := _read_block (bt_fd st) in
    match block with
    | [] => Done decoded_data
    | _ :: _ =>
        let '(block, fd) :=
          if bt_comment_spans st then skip_open_comment fd block else (block, fd) in
        let '(block, comment_spans) := _ignore_comments block in
        let tokens := Py.join (Py.split block) in
        match List.find (fun token => negb ((token =? 48) || (token =? 49))) tokens with
        | Some token => Fail (InvalidToken [token])
        | None =>
            Next (mkbitonal (firstn total_bytes (decoded_data ++ tokens))
                            comment_spans fd)
        end
    end.

Fixpoint _decode_bitonal_loop (fuel : nat) (total_bytes : nat) (st : bitonal_state)
  : option (result bytes) :=
  match fuel with
  | O => None
  | S fuel' =>
      match _decode_bitonal_body total_bytes st with
      | Next st' => _decode_bitonal_loop fuel' total_bytes st'
      | Done decoded_data => Some (Ok (map invert decoded_data))
      | Fail e => Some (Raise e)
      end
  end.

(** [_decode_bitonal], for a decoder whose [state] holds [xsize] and
    [ysize] and whose [fd] will deliver the blocks [fd].  [None] would be
    a loop that is still running after [S (length fd)] passes; there is
    none ([_decode_bitonal_total]). *)
Definition _decode_bitonal (xsize ysize : nat) (fd : list bytes)
  : option (result bytes) :=
  _decode_bitonal_loop (S (length fd)) (xsize * ysize) (mkbitonal [] false fd).

Record blocks_state : Type := mkblocks {
  decoded_data : bytes;
  comment_spans : bool;
  half_token : option bytes;   (* [None] is Python's [False] *)
  fd : list bytes
}.

(** Truth value of [half_token]: [False] and the empty [bytes] are false. *)
Definition truthy (half_token : option bytes) : bool :=
  match half_token with
  | Some (_ :: _) => true
  | _ => false
  end.

Definition stitch (half_token : option bytes) (block : bytes) : bytes :=
  match half_token with
  | Some t => t ++ block
  | None => block
  end.

(** The body of [for token in tokens] up to and including
    [decoded_data += token.to_bytes(bytes_per_sample, "big")]. *)
Definition decode_token (maxval : Z) (bytes_per_sample : nat)
           (decoded_data token : bytes) : result bytes :=
  if (10 <? length token)%nat then Raise (DataTokenTooLong (firstn 11 token))
  else
    value <- Py.int token ;;
    if maxval <? value then Raise (ChannelValueTooLarge value)
    else
      packed <- Py.to_bytes value bytes_per_sample ;;
      Ok (decoded_data ++ packed).

(** [for token in tokens: ...; if len(decoded_data) == total_bytes: break]. *)
Fixpoint decode_tokens (maxval : Z) (bytes_per_sample total_bytes : nat)
         (decoded_data : bytes) (tokens : list bytes) : result bytes :=
  match tokens with
  | [] => Ok decoded_data
  | token :: tokens' =>
      decoded_data <- decode_token maxval bytes_per_sample decoded_data token ;;
      if (length decoded_data =? total_bytes)%nat then Ok decoded_data
      else decode_tokens maxval bytes_per_sample total_bytes decoded_data tokens'
  end.

Definition maxval_of (depth : Z) : Z := 2 ^ (if depth =? 32 then 31 else depth) - 1.
Definition bytes_per_sample_of (depth : Z) : nat := Z.to_nat (depth / 8).
Definition total_bytes_of (xsize ysize channels : nat) (depth : Z) : nat :=
  (xsize * ysize * channels * bytes_per_sample_of depth)%nat.

(** One pass of [while len(decoded_data) != total_bytes] in
    [_decode_blocks]. *)
Definition _decode_blocks_body (xsize ysize channels : nat) (depth : Z)
           (st : blocks_state) : outcome blocks_state :=
  let maxval := maxval_of depth in
  let bytes_per_sample := bytes_per_sample_of depth in
  let total_bytes := total_bytes_of xsize ysize channels depth in
  if (length (decoded_data st) =? total_bytes)%nat then Done (decoded_data st)
  else
    let '(block, fd) := _read_block (fd st) in
    let flushed :=
      match block with
      | [] => if truthy (half_token st) then Some [32] else None
      | _ :: _ => Some block
      end in
    match flushed with
    | None => Done (decoded_data st)
    | Some block =>
        let '(block, fd) :=
          if comment_spans st then skip_open_comment fd block else (block, fd) in
        let '(block, comment_spans) := _ignore_comments block in
        let block :=
          if truthy (half_token st) then stitch (half_token st) block else block in
        let tokens := Py.split block in
        let popped :=
          match block with
          | _ :: _ =>
              if negb (Py.ends_with_space block) then
                '(last, tokens) <- Py.pop tokens ;;
                if (10 <? length last)%nat
                then Raise (DataTokenTooLong (firstn 11 last))
                else Ok (Some last, tokens)
              else Ok (half_token st, tokens)
          | [] => Ok (half_token st, tokens)
          end in
        match popped with
        | Raise e => Fail e
        | Ok (half_token, tokens) =>
            match decode_tokens maxval bytes_per_sample total_bytes
                                (decoded_data st) tokens with
            | Raise e => Fail e
            | Ok decoded_data => Next (mkblocks decoded_data comment_spans half_token fd)
            end
        end
    end.

Fixpoint _decode_blocks_loop (fuel : nat) (xsize ysize channels : nat) (depth : Z)
         (st : blocks_state) : option (result bytes) :=
  match fuel with
  | O => None
  | S fuel' =>
      match _decode_blocks_body xsize ysize channels depth st with
      | Next st' => _decode_blocks_loop fuel' xsize ysize channels depth st'
      | Done decoded_data => Some (Ok decoded_data)
      | Fail e => Some (Raise e)
      end
  end.

(** [_decode_blocks(channels, depth)].  A pass that goes round again reads
    a block, clears [comment_spans] or appends a sample, which bounds the
    number of passes; [None] would be a loop still running after that
    many, and there is none ([_decode_blocks_total]). *)
Definition _decode_blocks (xsize ysize channels : nat) (depth : Z) (fd : list bytes)
  : option (result bytes) :=
  _decode_blocks_loop
    (2 * (length fd + total_bytes_of xsize ysize channels depth) + 2)
    xsize ysize channels depth (mkblocks [] false None fd).

(** The [channels] and [depth] with which [decode] calls [_decode_blocks]
    for a mode other than "1"; [None] where no branch of [decode] assigns
    [decoded_data]. *)
Definition blocks_args (mode rawmode : string) : option (nat * Z) :=
  if String.eqb mode "L" then Some (1%nat, 8)
  else if String.eqb mode "I" then
    if String.eqb rawmode "I;16B" then Some (1%nat, 16)
    else if String.eqb rawmode "I;32B" then Some (1%nat, 32)
    else None
  else if String.eqb mode "RGB" then Some (3%nat, 8)
  else None.

(** [decode]: the bytes and the raw mode handed to [set_as_raw]. *)
Definition decode (mode rawmode : string) (xsize ysize : nat) (fd : list bytes)
  : option (result (bytes * string)) :=
  let tag (rawmode : string) := option_map (fun r => d <- r ;; Ok (d, rawmode)) in
  if String.eqb mode "1" then tag "1;8"%string (_decode_bitonal xsize ysize fd)
  else
    match blocks_args mode rawmode with
    | Some (channels, depth) => tag rawmode (_decode_blocks xsize ysize channels depth fd)
    | None => Some (Raise UnboundLocalError)
    end.

(** The width in bytes of the samples [decode] emits for a mode other
    than "1". *)
Definition sample_width (mode rawmode : string) : option nat :=
  option_map (fun args => bytes_per_sample_of (snd args)) (blocks_args mode rawmode).

End PpmPlainDecoder.

(** ** The writer *)

(** What [_save] reads of [im]: [im.mode], [im.size] and the upper bound
    [im.getextrema()[1]]. *)
Record image : Type := mkimage {
  im_mode : string;
  im_size : Z * Z;
  im_extrema_max : Z
}.

(** [_save(im, fp, filename)].  [fp] is the bytes written so far; the
    result pairs the bytes written when [_save] returns or raises with
    the raw mode of the tile handed to [ImageFile._save],
    [("raw", (0, 0) + im.size, 0, (rawmode, 0, 1))]. *)
Definition _save (im : image) (fp : bytes) : bytes * result string :=
  let chosen : result (string * bytes) :=
    if String.eqb (im_mode im) "1" then Ok ("1;I"%string, bytes_of "P4")
    else if String.eqb (im_mode im) "L" then Ok ("L"%string, bytes_of "P5")
    else if String.eqb (im_mode im) "I" then
      if im_extrema_max im <? 2 ^ 16 then Ok ("I;16B"%string, bytes_of "P5")
      else Ok ("I;32B"%string, bytes_of "P5")
    else if String.eqb (im_mode im) "RGB" then Ok ("RGB"%string, bytes_of "P6")
    else if String.eqb (im_mode im) "RGBA" then Ok ("RGB"%string, bytes_of "P6")
    else Raise (CannotWriteMode (im_mode im)) in
  match chosen with
  | Raise e => (fp, Raise e)
  | Ok (rawmode, head) =>
      let fp :=
        fp ++ head ++ [10] ++ Py.format_d (fst (im_size im)) ++ [32]
           ++ Py.format_d (snd (im_size im)) ++ [10] in
      let fp := if bytes_eqb head (bytes_of "P6") then fp ++ bytes_of "255" ++ [10] else fp in
      let fp :=
        if bytes_eqb head (bytes_of "P5") then
          if String.eqb rawmode "L" then fp ++ bytes_of "255" ++ [10]
          else if String.eqb rawmode "I;16B" then fp ++ bytes_of "65535" ++ [10]
          else if String.eqb rawmode "I;32B" then fp ++ bytes_of "2147483648" ++ [10]
          else fp
        else fp in
      (fp, Ok rawmode)
  end.

(** ** Reading a file in blocks *)

(** Modelled from the spec: the host's block reads ([ImageFile.SAFEBLOCK]
    and the loader that positions [fd] at the tile's offset are not in
    this file).  Section 4.5 has the decoder read "the source in bounded
    blocks (a fixed block size, not the whole file)": the pixel data cut
    into consecutive blocks of [block_size] bytes, the last one shorter. *)
Fixpoint blocks_of_aux (fuel block_size : nat) (data : bytes) : list bytes :=
  match fuel, data with
  | S fuel', _ :: _ => firstn block_size data :: blocks_of_aux fuel' block_size (skipn block_size data)
  | _, _ => []
  end.

Definition blocks_of (block_size : nat) (data : bytes) : list bytes :=
  blocks_of_aux (length data) block_size data.

(** The max-value token as [_open] reads it: the third header token of a
    file whose magic number is not a bitmap's. *)
Definition header_maxval (fp : file) : result Z :=
  let '(_, fp) := PpmImageFile._read_magic fp in
  '(_, fp) <- PpmImageFile._read_token fp ;;
  '(_, fp) <- PpmImageFile._read_token fp ;;
  '(token, _) <- PpmImageFile._read_token fp ;;
  Py.int token.

(** The states a [while] loop passes through from [s0]. *)
Inductive reaches {S : Type} (body : S -> outcome S) (s0 : S) : S -> Prop :=
| reaches_start : reaches body s0 s0
| reaches_next (s s' : S) :
    reaches body s0 s -> body s = Next s' -> reaches body s0 s'.

(** ** The vocabulary of the properties *)

(** A byte that [_read_token] appends to the token: neither whitespace
    nor the [#] that opens a comment. *)
Definition is_plain (c : Z) : bool := negb (Py.mem c b_whitespace) && negb (c =? 35).

(** A run of bytes without whitespace. *)
Definition no_space (t : bytes) : bool := forallb (fun c => negb (Py.mem c b_whitespace)) t.

(** A header token as [_read_token] returns it: one to ten plain bytes. *)
Definition is_token (t : bytes) : bool :=
  forallb is_plain t && (1 <=? length t)%nat && (length t <=? 10)%nat.

(** After the magic number: the separator is consumed with a magic number
    of fewer than six bytes and left unread after one of six. *)
Definition after_magic (magic : bytes) (ws : Z) (r : bytes) : file :=
  if (length magic <? 6)%nat then mkfile (length magic + 1) r
  else mkfile (length magic) (ws :: r).

(** A well-formed header: magic number, width, height and max-value
    tokens, each followed by one whitespace byte, then the pixel data. *)
Definition header_of (magic : bytes) (ws0 : Z) (xtok : bytes) (ws1 : Z) (ytok : bytes)
           (ws2 : Z) (mtok : bytes) (ws3 : Z) : bytes :=
  magic ++ ws0 :: xtok ++ ws1 :: ytok ++ ws2 :: mtok ++ [ws3].

(** [decoded_data] holds whole samples, no more than the image has. *)
Definition whole_samples (xsize ysize channels : nat) (depth : Z) (d : bytes) : Prop :=
  exists k, length d = (k * PpmPlainDecoder.bytes_per_sample_of depth)%nat
            /\ (k <= xsize * ysize * channels)%nat.

(** The two bytes a bitmap token may be: ASCII 0 and 1. *)
Definition is_bit (c : Z) : bool := (c =? 48) || (c =? 49).

Definition not_space (c : Z) : bool := negb (Py.is_space c).

(** What holds of the [decoded_data] of a bitmap all along: only 0s and
    1s, and no more of them than expected. *)
Definition bits_within (total : nat) (d : bytes) : Prop :=
  forallb is_bit d = true /\ (length d <= total)%nat.

(** A block that holds no [#]; the first byte of a block that is neither
    whitespace nor 0 nor 1; the digits of a stream of blocks. *)
Definition comment_free (block : bytes) : Prop := block <> [] /\ ~ In 35 block.
Definition first_bad (block : bytes) : option Z :=
  List.find (fun c => negb (is_bit c)) (filter not_space block).
Definition bits_of (fd : list bytes) : bytes := filter not_space (concat fd).

(** A block that is not empty and holds no [#], and one that moreover
    holds only 0s, 1s and whitespace, as booleans. *)
Definition plain_block (block : bytes) : bool :=
  match block with
  | [] => false
  | _ :: _ => negb (Py.mem 35 block)
  end.

Definition bit_block (block : bytes) : bool :=
  plain_block block && forallb is_bit (filter not_space block).

(** A pending [half_token] is a token: not empty, without whitespace. *)
Definition proper_half (half : option bytes) : Prop :=
  match half with
  | None => True
  | Some t => t <> [] /\ no_space t = true
  end.

(** What decreases at every pass of the loop of [_decode_blocks]. *)
Definition passes_left (total : nat) (st : PpmPlainDecoder.blocks_state) : nat :=
  2 * (length (PpmPlainDecoder.fd st)
       + (total - length (PpmPlainDecoder.decoded_data st)))
  + (if PpmPlainDecoder.comment_spans st then 1 else 0).

(** The value of a run of decimal digits read after the value [acc]. *)
Definition digits_value (acc : Z) (digits : bytes) : Z :=
  fold_left (fun a c => a * 10 + (c - 48)) digits acc.

(** The value of the bytes of a sample, most significant first. *)
Definition from_big_endian (packed : bytes) : Z :=
  fold_left (fun a c => a * 256 + c) packed 0.

(** A byte that ends a comment: LF or CR. *)
Definition is_line_end (c : Z) : bool := (c =? 10) || (c =? 13).

(** The lowest index from [i] on, counting the head of [l] as [i], that
    holds a line end, or -1. *)
Fixpoint line_end_aux (l : bytes) (i : Z) : Z :=
  match l with
  | [] => -1
  | c :: r => if is_line_end c then i else line_end_aux r (i + 1)
  end.

Definition first_line_end (block : bytes) (start : Z) : Z :=
  line_end_aux (skipn (Z.to_nat start) block) start.

(** The bytes of a block outside its comments, each comment running from
    a [#] through the next line end, and whether the block ends inside a
    comment; [in_comment] says whether it starts inside one. *)
Fixpoint outside_comments (in_comment : bool) (block : bytes) : bytes * bool :=
  match block with
  | [] => ([], in_comment)
  | c :: r =>
      if in_comment then
        if is_line_end c then outside_comments false r else outside_comments true r
      else if c =? 35 then outside_comments true r
      else let '(kept, open) := outside_comments false r in (c :: kept, open)
  end.

(** A block cut outside comments and tokens: not empty, every comment
    closed, and whitespace at the end of what is left of it, if anything
    is left. *)
Definition aligned_block (block : bytes) : bool :=
  match block with
  | [] => false
  | _ :: _ =>
      let '(kept, open) := outside_comments false block in
      negb open && match kept with [] => true | _ :: _ => Py.ends_with_space kept end
  end.

(** The tokens of a block outside its comments. *)
Definition tokens_of (block : bytes) : list bytes :=
  Py.split (fst (outside_comments false block)).

(** A block that is not empty and closes every comment it opens, and the
    bytes of it that are neither in a comment nor whitespace. *)
Definition closed_block (block : bytes) : bool :=
  match block with
  | [] => false
  | _ :: _ => negb (snd (outside_comments false block))
  end.

Definition digits_of (block : bytes) : bytes :=
  filter not_space (fst (outside_comments false block)).

(** What is left of a block ends with whitespace, if anything is left. *)
Definition ends_clean (kept : bytes) : Prop := kept = [] \/ Py.ends_with_space kept = true.

(** Samples as plain-text pixel data: each value in decimal, followed by
    a space. *)
Definition plain_text (samples : list Z) : bytes :=
  concat (map (fun v => Py.format_d v ++ [32]) samples).


(** A data token that the [for] loop of [_decode_blocks] accepts at a
    depth, with its value: at most ten bytes, a decimal literal, from 0
    to the maximum of the depth. *)
Definition accepted (depth : Z) (token : bytes) (v : Z) : Prop :=
  (length token <= 10)%nat /\ Py.int token = Ok v
  /\ 0 <= v <= PpmPlainDecoder.maxval_of depth.

(** Samples packed most significant byte first, [depth // 8] bytes each. *)
Definition packed (depth : Z) (values : list Z) : bytes :=
  concat (map (Py.big_endian (PpmPlainDecoder.bytes_per_sample_of depth)) values).

(** The part of a block before a token that the end of the block cuts,
    or after the first token of a block: nothing, or bytes cut outside
    comments and tokens. *)
Definition aligned_or_empty (part : bytes) : bool :=
  match part with
  | [] => true
  | _ :: _ => aligned_block part
  end.

(** The first byte of a block, outside comments and whitespace, that is
    neither 0 nor 1. *)
Definition first_other (block : bytes) : option Z :=
  List.find (fun c => negb (is_bit c)) (digits_of block).

(** * Properties *)

(** ** Format recognition *)

(** C10: [_accept] raises [IndexError] on the one-byte prefix [b"P"];
    on every prefix of two bytes or more, and on every prefix that does
    not start with [b"P"], it returns a boolean. *)
Theorem _accept_partial_on_short_prefix :
  _accept (bytes_of "P") = Raise IndexError
  /\ (forall prefix, (2 <= length prefix)%nat -> exists r, _accept prefix = Ok r)
  /\ (forall prefix, firstn 1 prefix <> bytes_of "P" -> _accept prefix = Ok false).
Proof.
  split; [reflexivity|split].
  - intros [|c [|d prefix]] H; simpl in H; try lia.
    unfold _accept. simpl firstn. simpl nth_error.
    destruct (bytes_eqb [c] (bytes_of "P")); eauto.
  - intros prefix H. unfold _accept.
    destruct (bytes_eqb (firstn 1 prefix) (bytes_of "P")) eqn:E; [|reflexivity].
    exfalso. apply H.
    destruct prefix as [|c prefix]; simpl in E; [discriminate|].
    apply andb_prop in E. destruct E as [E _].
    apply Z.eqb_eq in E. subst c. reflexivity.
Qed.

Lemma _accept_partial_on_short_prefix_witness :
  (exists r, _accept (bytes_of "P6") = Ok r) /\ _accept (bytes_of "GIF8") = Ok false.
Proof.
  split.
  - apply (proj1 (proj2 _accept_partial_on_short_prefix)). simpl. lia.
  - apply (proj2 (proj2 _accept_partial_on_short_prefix)). discriminate.
Defined.

(** ** The writer *)

(** C9: an RGBA image is written as RGB: the header is that of a P6 file
    and the raw encoder is asked for the raw mode RGB, as for an RGB
    image; for a mode other than 1, L, I, RGB and RGBA [_save] raises and
    [fp] holds what it held before the call. *)
Theorem _save_rgba_as_rgb_and_rejects_other_modes :
  (forall w h ex fp,
      _save (mkimage "RGBA" (w, h) ex) fp
      = (fp ++ bytes_of "P6" ++ [10] ++ Py.format_d w ++ [32] ++ Py.format_d h ++ [10]
            ++ bytes_of "255" ++ [10],
         Ok "RGB"%string))
  /\ (forall size ex fp,
         _save (mkimage "RGBA" size ex) fp = _save (mkimage "RGB" size ex) fp)
  /\ (forall mode size ex fp,
         ~ In mode ["1"; "L"; "I"; "RGB"; "RGBA"]%string ->
         _save (mkimage mode size ex) fp = (fp, Raise (CannotWriteMode mode))).
Proof.
  split; [|split].
  - intros. unfold _save. simpl. f_equal.
    repeat (rewrite <- app_assoc; simpl). reflexivity.
  - intros. reflexivity.
  - intros mode size ex fp H. unfold _save. simpl im_mode.
    repeat match goal with
    | |- context [String.eqb mode ?s] =>
        destruct (String.eqb_spec mode s) as [->|_];
        [exfalso; apply H; simpl; tauto|]
    end.
    reflexivity.
Qed.

Lemma _save_rgba_as_rgb_and_rejects_other_modes_witness :
  _save (mkimage "CMYK" (2, 2) 255) [] = ([], Raise (CannotWriteMode "CMYK")).
Proof.
  apply (proj2 (proj2 _save_rgba_as_rgb_and_rejects_other_modes)).
  simpl. intros [H|[H|[H|[H|[H|[]]]]]]; discriminate H.
Defined.

(** ** The header tokenizer *)

Module HeaderFacts.
Import PpmImageFile.

Lemma is_plain_inv c :
  is_plain c = true -> Py.mem c b_whitespace = false /\ (c =? 35) = false.
Proof.
  unfold is_plain. intros H. apply andb_prop in H. destruct H as [H1 H2].
  apply negb_true_iff in H1. apply negb_true_iff in H2. auto.
Qed.

Lemma skip_line_rest r : forall p, (length (rest (skip_line p r)) <= length r)%nat.
Proof.
  induction r as [|c r IH]; intros p; cbn [skip_line]; [simpl; lia|].
  destruct (Py.mem c [13; 10]); simpl; [lia|]. specialize (IH (S p)). lia.
Qed.

(** The fuel of [_read_token_loop] is never used up: any two amounts
    above the number of unread bytes give the same result. *)
Lemma _read_token_loop_fuel n : forall m token fp,
  (length (rest fp) < n)%nat -> (length (rest fp) < m)%nat ->
  _read_token_loop n token fp = _read_token_loop m token fp.
Proof.
  induction n as [|n IH]; intros m token [p r] Hn Hm; [lia|].
  destruct m as [|m]; [lia|]. cbn [_read_token_loop]. cbn [rest] in Hn, Hm.
  destruct (length token <=? 10)%nat; [|reflexivity].
  unfold read1. cbn [rest pos].
  destruct r as [|c r]; [reflexivity|]. cbn [length] in Hn, Hm.
  destruct (Py.mem c b_whitespace).
  - destruct token; [|reflexivity]. apply IH; cbn [rest]; lia.
  - destruct (c =? 35).
    + pose proof (skip_line_rest r (S p)). apply IH; cbn [rest pos]; lia.
    + apply IH; cbn [rest]; lia.
Qed.

Lemma _read_token_loop_plain t : forall fuel token p r,
  forallb is_plain t = true ->
  (length token + length t <= 11)%nat ->
  _read_token_loop (length t + fuel) token (mkfile p (t ++ r))
  = _read_token_loop fuel (token ++ t) (mkfile (p + length t) r).
Proof.
  induction t as [|c t IH]; intros fuel token p r Hp Hlen.
  - cbn [length app Nat.add]. rewrite app_nil_r, Nat.add_0_r. reflexivity.
  - cbn [forallb] in Hp. apply andb_prop in Hp. destruct Hp as [Hc Hp].
    apply is_plain_inv in Hc. destruct Hc as [Hw Hh].
    cbn [length] in Hlen.
    cbn [length Nat.add app _read_token_loop].
    replace (length token <=? 10)%nat with true by (symmetry; apply Nat.leb_le; lia).
    unfold read1. cbn [rest pos]. rewrite Hw, Hh.
    rewrite IH; [|assumption|rewrite length_app; cbn [length]; lia].
    rewrite <- app_assoc. cbn [app]. do 2 f_equal. lia.
Qed.

(** A token of one to ten bytes followed by a whitespace byte is
    returned, and the whitespace byte is consumed with it. *)
Lemma _read_token_ok t ws p r :
  forallb is_plain t = true ->
  (1 <= length t <= 10)%nat ->
  Py.mem ws b_whitespace = true ->
  _read_token (mkfile p (t ++ ws :: r)) = Ok (t, mkfile (p + length t + 1) r).
Proof.
  intros Hp Hlen Hws. unfold _read_token. cbn [rest].
  replace (S (length (t ++ ws :: r))) with (length t + S (S (length r)))%nat
    by (rewrite length_app; cbn [length]; lia).
  rewrite _read_token_loop_plain by (cbn [length]; auto; lia).
  cbn [app _read_token_loop].
  replace (length t <=? 10)%nat with true by (symmetry; apply Nat.leb_le; lia).
  unfold read1. cbn [rest pos]. rewrite Hws.
  destruct t as [|c t]; [cbn [length] in Hlen; lia|].
  replace (10 <? length (c :: t))%nat with false by (symmetry; apply Nat.ltb_ge; lia).
  do 3 f_equal. lia.
Qed.

(** The last token of a file is returned when the file ends. *)
Lemma _read_token_eof t p :
  forallb is_plain t = true ->
  (1 <= length t <= 10)%nat ->
  _read_token (mkfile p t) = Ok (t, mkfile (p + length t) []).
Proof.
  intros Hp Hlen. unfold _read_token. cbn [rest].
  rewrite <- (app_nil_r t) at 2.
  replace (S (length t)) with (length t + 1)%nat by lia.
  rewrite _read_token_loop_plain by (cbn [length]; auto; lia).
  cbn [app _read_token_loop].
  replace (length t <=? 10)%nat with true by (symmetry; apply Nat.leb_le; lia).
  unfold read1. cbn [rest pos].
  destruct t as [|c t]; [cbn [length] in Hlen; lia|].
  replace (10 <? length (c :: t))%nat with false by (symmetry; apply Nat.ltb_ge; lia).
  reflexivity.
Qed.

(** A run of eleven or more token bytes raises, whatever follows. *)
Lemma _read_token_too_long t p r :
  forallb is_plain t = true ->
  (11 <= length t)%nat ->
  _read_token (mkfile p (t ++ r)) = Raise (HeaderTokenTooLong (firstn 11 t)).
Proof.
  intros Hp Hlen. unfold _read_token. cbn [rest].
  assert (H11 : length (firstn 11 t) = 11%nat) by (rewrite length_firstn; lia).
  rewrite <- (firstn_skipn 11 t) in Hp.
  rewrite forallb_app in Hp. apply andb_prop in Hp. destruct Hp as [Hp _].
  rewrite <- (firstn_skipn 11 t) at 1 2.
  rewrite <- app_assoc.
  replace (S (length (firstn 11 t ++ skipn 11 t ++ r)))
    with (length (firstn 11 t) + S (length (skipn 11 t ++ r)))%nat
    by (rewrite !length_app; lia).
  rewrite _read_token_loop_plain by (cbn [length]; auto; lia).
  cbn [app _read_token_loop]. rewrite H11.
  change (11 <=? 10)%nat with false. cbv iota.
  destruct (firstn 11 t) as [|c u] eqn:E; [discriminate H11|].
  rewrite H11. reflexivity.
Qed.

(** [_read_token] skips whitespace before a token. *)
Lemma _read_token_skip_space ws p r :
  Py.mem ws b_whitespace = true ->
  _read_token (mkfile p (ws :: r)) = _read_token (mkfile (S p) r).
Proof.
  intros Hws. unfold _read_token. cbn [rest length _read_token_loop Nat.leb].
  unfold read1. cbn [rest pos]. rewrite Hws. reflexivity.
Qed.

Lemma _read_magic_loop_run t : forall n magic p r,
  no_space t = true ->
  _read_magic_loop (length t + n) magic (mkfile p (t ++ r))
  = _read_magic_loop n (magic ++ t) (mkfile (p + length t) r).
Proof.
  induction t as [|c t IH]; intros n magic p r Ht.
  - cbn [length app Nat.add]. rewrite app_nil_r, Nat.add_0_r. reflexivity.
  - cbn [no_space forallb] in Ht. apply andb_prop in Ht. destruct Ht as [Hc Ht].
    apply negb_true_iff in Hc.
    cbn [length Nat.add app _read_magic_loop]. unfold read1. cbn [rest pos].
    rewrite Hc, IH by exact Ht.
    rewrite <- app_assoc. cbn [app]. do 2 f_equal. lia.
Qed.

Lemma _read_magic_ok magic ws r :
  no_space magic = true -> (length magic <= 6)%nat ->
  Py.mem ws b_whitespace = true ->
  _read_magic (mkfile 0 (magic ++ ws :: r)) = (magic, after_magic magic ws r).
Proof.
  intros Hm Hlen Hws. unfold _read_magic, after_magic.
  replace 6%nat with (length magic + (6 - length magic))%nat at 1 by lia.
  rewrite _read_magic_loop_run by exact Hm. cbn [app Nat.add].
  destruct (Nat.ltb_spec (length magic) 6) as [Hlt|Hge].
  - destruct (6 - length magic)%nat as [|k] eqn:E; [lia|].
    cbn [_read_magic_loop]. unfold read1. cbn [rest pos]. rewrite Hws.
    do 2 f_equal. lia.
  - replace (6 - length magic)%nat with 0%nat by lia. reflexivity.
Qed.

Lemma _read_token_after_magic magic ws t ws' r :
  Py.mem ws b_whitespace = true ->
  forallb is_plain t = true -> (1 <= length t <= 10)%nat ->
  Py.mem ws' b_whitespace = true ->
  _read_token (after_magic magic ws (t ++ ws' :: r))
  = Ok (t, mkfile (length magic + 1 + length t + 1) r).
Proof.
  intros Hws Ht Hlen Hws'. unfold after_magic.
  destruct (length magic <? 6)%nat.
  - apply _read_token_ok; assumption.
  - rewrite _read_token_skip_space by exact Hws.
    rewrite _read_token_ok by assumption. do 3 f_equal. lia.
Qed.

Lemma bytes_eqb_eq x : forall y, bytes_eqb x y = true -> x = y.
Proof.
  induction x as [|a x IH]; intros [|c y] H; simpl in H; try discriminate; [reflexivity|].
  apply andb_prop in H. destruct H as [H1 H2].
  apply Z.eqb_eq in H1. apply IH in H2. congruence.
Qed.

Lemma MODES_inv magic mode : MODES magic = Some mode -> In (magic, mode) MODES_table.
Proof.
  unfold MODES. destruct (List.find _ MODES_table) as [[k v]|] eqn:E; [|discriminate].
  intros H. cbn in H. injection H as ->.
  apply find_some in E. destruct E as [Hin Heq]. cbn [fst] in Heq.
  apply bytes_eqb_eq in Heq. subst k. exact Hin.
Qed.

Lemma MODES_magic magic mode :
  MODES magic = Some mode -> no_space magic = true /\ (length magic <= 6)%nat.
Proof.
  intros H. apply MODES_inv in H. unfold MODES_table in H. cbn [In] in H.
  repeat (destruct H as [H|H]; [injection H as <- <-; split; [reflexivity|cbn; lia]|]).
  contradiction.
Qed.

Lemma is_token_inv t :
  is_token t = true -> forallb is_plain t = true /\ (1 <= length t <= 10)%nat.
Proof.
  unfold is_token. intros H. apply andb_prop in H. destruct H as [H H3].
  apply andb_prop in H. destruct H as [H1 H2].
  apply Nat.leb_le in H2. apply Nat.leb_le in H3. auto.
Qed.

Section OpenHeader.

Variables (magic : bytes) (table_mode : string).
Variables (ws0 ws1 ws2 ws3 : Z) (xtok ytok mtok data : bytes) (x y m : Z).
Hypothesis Hmagic : MODES magic = Some table_mode.
Hypothesis Hws : forallb (fun ws => Py.mem ws b_whitespace) [ws0; ws1; ws2; ws3] = true.
Hypothesis Htok : forallb is_token [xtok; ytok; mtok] = true.
Hypothesis Hx : Py.int xtok = Ok x.
Hypothesis Hy : Py.int ytok = Ok y.
Hypothesis Hm : Py.int mtok = Ok m.

Let contents : bytes := header_of magic ws0 xtok ws1 ytok ws2 mtok ws3 ++ data.

Lemma header_maxval_of_header :
  header_maxval (mkfile 0 contents) = Ok m.
Proof.
  cbn [forallb] in Hws, Htok.
  repeat match goal with H : _ && _ = true |- _ => apply andb_prop in H; destruct H end.
  repeat match goal with H : is_token _ = true |- _ => apply is_token_inv in H; destruct H end.
  destruct (MODES_magic _ _ Hmagic) as [Hns Hlen].
  unfold header_maxval, contents, header_of.
  repeat (rewrite <- app_assoc; cbn [app]).
  rewrite _read_magic_ok by assumption.
  rewrite _read_token_after_magic by assumption. cbn [bind].
  rewrite _read_token_ok by assumption. cbn [bind].
  rewrite _read_token_ok by assumption. cbn [bind].
  exact Hm.
Qed.

(** On such a header whose magic number is not a bitmap's, [_open] is
    decided by the [ix == 2] arm alone. *)
Lemma _open_of_header :
  table_mode <> "1"%string ->
  _open (mkfile 0 contents)
  = ('(self_mode, rawmode) <- _open_maxval table_mode m ;;
     Ok (mkopened self_mode x y (mimetype_of magic) (decoder_of magic)
                  (length (header_of magic ws0 xtok ws1 ytok ws2 mtok ws3)) rawmode)).
Proof.
  intros Hmode.
  cbn [forallb] in Hws, Htok.
  repeat match goal with H : _ && _ = true |- _ => apply andb_prop in H; destruct H end.
  repeat match goal with H : is_token _ = true |- _ => apply is_token_inv in H; destruct H end.
  destruct (MODES_magic _ _ Hmagic) as [Hns Hlen].
  unfold _open, contents, header_of.
  repeat (rewrite <- app_assoc; cbn [app]).
  rewrite _read_magic_ok by assumption. rewrite Hmagic.
  rewrite _read_token_after_magic by assumption. cbn [bind]. rewrite Hx. cbn [bind].
  rewrite _read_token_ok by assumption. cbn [bind]. rewrite Hy. cbn [bind].
  destruct (String.eqb_spec table_mode "1") as [E|_]; [contradiction|].
  rewrite _read_token_ok by assumption. cbn [bind]. rewrite Hm. cbn [bind].
  destruct (_open_maxval table_mode m) as [[self_mode rawmode]|e]; cbn [bind]; [|reflexivity].
  cbn [pos]. do 2 f_equal.
  repeat (rewrite length_app; cbn [length]). lia.
Qed.

End OpenHeader.

End HeaderFacts.

(** ** The mode resolver *)

Import HeaderFacts.

(** C5: for a grayscale header (magic number P2 or P5) the mode, the raw
    mode and with it the width of a sample depend on the max-value alone:
    up to 255 mode L with one byte per sample, from 256 to 65535 raw mode
    I;16B with two bytes, from 65536 on raw mode I;32B with four bytes. *)
Theorem _open_grayscale_sample_width :
  forall magic ws0 ws1 ws2 ws3 xtok ytok mtok data x y m,
    MODES magic = Some "L"%string ->
    forallb (fun ws => Py.mem ws b_whitespace) [ws0; ws1; ws2; ws3] = true ->
    forallb is_token [xtok; ytok; mtok] = true ->
    Py.int xtok = Ok x -> Py.int ytok = Ok y -> Py.int mtok = Ok m ->
    exists o,
      PpmImageFile._open (mkfile 0 (header_of magic ws0 xtok ws1 ytok ws2 mtok ws3 ++ data))
      = Ok o
      /\ PpmImageFile.xsize o = x /\ PpmImageFile.ysize o = y
      /\ (m <= 255 ->
          PpmImageFile.mode o = "L"%string /\ PpmImageFile.rawmode o = "L"%string
          /\ PpmPlainDecoder.sample_width "L" "L" = Some 1%nat)
      /\ (255 < m < 65536 ->
          PpmImageFile.mode o = "I"%string /\ PpmImageFile.rawmode o = "I;16B"%string
          /\ PpmPlainDecoder.sample_width "I" "I;16B" = Some 2%nat)
      /\ (65536 <= m ->
          PpmImageFile.mode o = "I"%string /\ PpmImageFile.rawmode o = "I;32B"%string
          /\ PpmPlainDecoder.sample_width "I" "I;32B" = Some 4%nat).
Proof.
  intros magic ws0 ws1 ws2 ws3 xtok ytok mtok data x y m Hmagic Hws Htok Hx Hy Hm.
  rewrite (_open_of_header magic "L" ws0 ws1 ws2 ws3 xtok ytok mtok data x y m)
    by (assumption || discriminate).
  unfold PpmImageFile._open_maxval. change (2 ^ 16) with 65536.
  destruct (Z.ltb_spec 255 m) as [Hhi|Hlo]; cbn [String.eqb Ascii.eqb Bool.eqb negb].
  - destruct (Z.ltb_spec m 65536) as [H16|H32]; cbn [bind];
      eexists; (split; [reflexivity|]); cbn;
      repeat split; intros; try lia; reflexivity.
  - cbn [bind]. eexists. split; [reflexivity|]. cbn.
    repeat split; intros; try lia; reflexivity.
Qed.

Lemma _open_grayscale_sample_width_witness :
  let pgm (mtok : string) :=
    mkfile 0 (header_of (bytes_of "P2") 10 (bytes_of "1") 32 (bytes_of "1") 10
                        (bytes_of mtok) 10 ++ bytes_of "0 ") in
  (exists o, PpmImageFile._open (pgm "255"%string) = Ok o /\ PpmImageFile.rawmode o = "L"%string)
  /\ (exists o, PpmImageFile._open (pgm "256"%string) = Ok o /\ PpmImageFile.rawmode o = "I;16B"%string)
  /\ (exists o, PpmImageFile._open (pgm "65536"%string) = Ok o /\ PpmImageFile.rawmode o = "I;32B"%string).
Proof.
  cbv zeta. split; [|split].
  - destruct (_open_grayscale_sample_width (bytes_of "P2") 10 32 10 10
                (bytes_of "1") (bytes_of "1") (bytes_of "255") (bytes_of "0 ") 1 1 255)
      as (o & Ho & _ & _ & H8 & _); try reflexivity.
    exists o. split; [exact Ho|]. apply H8. lia.
  - destruct (_open_grayscale_sample_width (bytes_of "P2") 10 32 10 10
                (bytes_of "1") (bytes_of "1") (bytes_of "256") (bytes_of "0 ") 1 1 256)
      as (o & Ho & _ & _ & _ & H16 & _); try reflexivity.
    exists o. split; [exact Ho|]. apply H16. lia.
  - destruct (_open_grayscale_sample_width (bytes_of "P2") 10 32 10 10
                (bytes_of "1") (bytes_of "1") (bytes_of "65536") (bytes_of "0 ") 1 1 65536)
      as (o & Ho & _ & _ & _ & _ & H32); try reflexivity.
    exists o. split; [exact Ho|]. apply H32. lia.
Defined.

(** C8: on a header whose max-value token exceeds 255, [_open] raises
    "Too many colors for band" when the magic number's mode is not L
    (RGB, CMYK, P, RGBA) and succeeds when it is L.  (A bitmap's header
    has no max-value token.) *)
Theorem _open_too_many_colors :
  forall magic table_mode ws0 ws1 ws2 ws3 xtok ytok mtok data x y m,
    MODES magic = Some table_mode ->
    table_mode <> "1"%string ->
    forallb (fun ws => Py.mem ws b_whitespace) [ws0; ws1; ws2; ws3] = true ->
    forallb is_token [xtok; ytok; mtok] = true ->
    Py.int xtok = Ok x -> Py.int ytok = Ok y -> Py.int mtok = Ok m ->
    255 < m ->
    let fp := mkfile 0 (header_of magic ws0 xtok ws1 ytok ws2 mtok ws3 ++ data) in
    header_maxval fp = Ok m
    /\ (table_mode <> "L"%string -> PpmImageFile._open fp = Raise (TooManyColors m))
    /\ (table_mode = "L"%string -> exists o, PpmImageFile._open fp = Ok o).
Proof.
  intros magic table_mode ws0 ws1 ws2 ws3 xtok ytok mtok data x y m
         Hmagic Hbit Hws Htok Hx Hy Hm Hhi fp. subst fp.
  split; [eapply header_maxval_of_header; eassumption|].
  rewrite (_open_of_header magic table_mode ws0 ws1 ws2 ws3 xtok ytok mtok data x y m)
    by assumption.
  unfold PpmImageFile._open_maxval.
  replace (255 <? m) with true by (symmetry; apply Z.ltb_lt; exact Hhi).
  split.
  - intros HL. destruct (String.eqb_spec table_mode "L") as [E|_]; [contradiction|].
    reflexivity.
  - intros ->. cbn [String.eqb Ascii.eqb Bool.eqb negb].
    destruct (m <? 2 ^ 16); cbn [bind]; eexists; reflexivity.
Qed.

Lemma _open_too_many_colors_witness :
  PpmImageFile._open
    (mkfile 0 (header_of (bytes_of "P6") 10 (bytes_of "1") 32 (bytes_of "1") 10
                         (bytes_of "256") 10 ++ bytes_of "0 0 0 "))
  = Raise (TooManyColors 256)
  /\ exists o,
      PpmImageFile._open
        (mkfile 0 (header_of (bytes_of "P5") 10 (bytes_of "1") 32 (bytes_of "1") 10
                             (bytes_of "256") 10 ++ [0; 7]))
      = Ok o.
Proof.
  split.
  - apply (_open_too_many_colors (bytes_of "P6") "RGB" 10 32 10 10
             (bytes_of "1") (bytes_of "1") (bytes_of "256") (bytes_of "0 0 0 ") 1 1 256);
      try reflexivity; discriminate.
  - apply (_open_too_many_colors (bytes_of "P5") "L" 10 32 10 10
             (bytes_of "1") (bytes_of "1") (bytes_of "256") [0; 7] 1 1 256);
      try reflexivity; discriminate.
Defined.

(** ** The plain-text decoder: helper facts *)

Module DecoderFacts.
Import PpmPlainDecoder.

Lemma find_aux_absent c l : forall i, ~ In c l -> Py.find_aux c l i = -1.
Proof.
  induction l as [|x l IH]; intros i H; cbn [Py.find_aux]; [reflexivity|].
  destruct (Z.eqb_spec x c) as [->|_].
  - exfalso. apply H. left. reflexivity.
  - apply IH. intros Hin. apply H. right. exact Hin.
Qed.

(** A block without [#] is returned as it is. *)
Lemma _ignore_comments_plain block :
  ~ In 35 block -> _ignore_comments block = (block, false).
Proof.
  intros H. unfold _ignore_comments. cbn [_ignore_comments_loop].
  unfold Py.find. cbn [Z.to_nat skipn]. rewrite find_aux_absent by exact H.
  reflexivity.
Qed.

(** [c in b_whitespace] and [bytes.isspace] agree on a byte. *)
Lemma mem_whitespace c : Py.mem c b_whitespace = Py.is_space c.
Proof.
  unfold Py.mem, b_whitespace, Py.is_space. cbn [existsb].
  destruct (c =? 32), (c =? 9), (c =? 10), (c =? 11), (c =? 12), (c =? 13); reflexivity.
Qed.

Lemma split_aux_run t : forall cur r,
  no_space t = true ->
  Py.split_aux cur (t ++ r) = Py.split_aux (rev t ++ cur) r.
Proof.
  induction t as [|c t IH]; intros cur r Ht; [reflexivity|].
  cbn [no_space forallb] in Ht. apply andb_prop in Ht. destruct Ht as [Hc Ht].
  apply negb_true_iff in Hc. rewrite mem_whitespace in Hc.
  cbn [app Py.split_aux rev]. rewrite Hc, IH by exact Ht.
  rewrite <- app_assoc. reflexivity.
Qed.

(** A single token, with or without a whitespace byte after it. *)
Lemma split_token t :
  no_space t = true -> t <> [] -> Py.split t = [t].
Proof.
  intros Ht Hne. unfold Py.split. rewrite <- (app_nil_r t) at 1.
  rewrite split_aux_run by exact Ht. rewrite app_nil_r. cbn [Py.split_aux].
  destruct (rev t) eqn:E.
  - apply (f_equal (@rev Z)) in E. rewrite rev_involutive in E. contradiction.
  - rewrite <- E, rev_involutive. reflexivity.
Qed.

Lemma split_token_space t :
  no_space t = true -> t <> [] -> Py.split (t ++ [32]) = [t].
Proof.
  intros Ht Hne. unfold Py.split.
  rewrite split_aux_run by exact Ht. rewrite app_nil_r. cbn [Py.split_aux].
  change (Py.is_space 32) with true. cbv iota.
  destruct (rev t) eqn:E.
  - apply (f_equal (@rev Z)) in E. rewrite rev_involutive in E. contradiction.
  - rewrite <- E, rev_involutive. reflexivity.
Qed.

Lemma big_endian_length n v : length (Py.big_endian n v) = n.
Proof. induction n as [|n IH]; cbn [Py.big_endian length]; congruence. Qed.

Lemma to_bytes_length v n packed : Py.to_bytes v n = Ok packed -> length packed = n.
Proof.
  unfold Py.to_bytes. destruct (_ || _); [discriminate|].
  intros H. injection H as <-. apply big_endian_length.
Qed.

(** What one pass of the [for] loop does to a token. *)
Lemma decode_token_too_long maxval bps d token :
  (11 <= length token)%nat ->
  decode_token maxval bps d token = Raise (DataTokenTooLong (firstn 11 token)).
Proof.
  intros H. unfold decode_token.
  replace (10 <? length token)%nat with true by (symmetry; apply Nat.ltb_lt; lia).
  reflexivity.
Qed.

Lemma decode_token_too_large maxval bps d token v :
  (length token <= 10)%nat -> Py.int token = Ok v -> maxval < v ->
  decode_token maxval bps d token = Raise (ChannelValueTooLarge v).
Proof.
  intros Hlen Hv Hhi. unfold decode_token.
  replace (10 <? length token)%nat with false by (symmetry; apply Nat.ltb_ge; lia).
  rewrite Hv. cbn [bind].
  replace (maxval <? v) with true by (symmetry; apply Z.ltb_lt; lia).
  reflexivity.
Qed.

Lemma decode_token_packed maxval bps d token v :
  (length token <= 10)%nat -> Py.int token = Ok v ->
  0 <= v <= maxval -> maxval < 256 ^ Z.of_nat bps ->
  decode_token maxval bps d token = Ok (d ++ Py.big_endian bps v).
Proof.
  intros Hlen Hv Hrange Hfit. unfold decode_token.
  replace (10 <? length token)%nat with false by (symmetry; apply Nat.ltb_ge; lia).
  rewrite Hv. cbn [bind].
  replace (maxval <? v) with false by (symmetry; apply Z.ltb_ge; lia).
  unfold Py.to_bytes.
  replace (v <? 0) with false by (symmetry; apply Z.ltb_ge; lia).
  replace (256 ^ Z.of_nat bps <=? v) with false by (symmetry; apply Z.leb_gt; lia).
  reflexivity.
Qed.

Lemma decode_token_length maxval bps d token d' :
  decode_token maxval bps d token = Ok d' -> length d' = (length d + bps)%nat.
Proof.
  unfold decode_token. destruct (10 <? length token)%nat; [discriminate|].
  destruct (Py.int token) as [v|e]; cbn [bind]; [|discriminate].
  destruct (maxval <? v); [discriminate|].
  destruct (Py.to_bytes v bps) as [packed|e] eqn:E; cbn [bind]; [|discriminate].
  intros H. injection H as <-. rewrite length_app.
  apply to_bytes_length in E. lia.
Qed.

Lemma depth_maximum_fits depth :
  In depth [8; 16; 32] -> maxval_of depth < 256 ^ Z.of_nat (bytes_per_sample_of depth).
Proof.
  cbn [In]. intros [<-|[<-|[<-|[]]]]; reflexivity.
Qed.

Lemma find_aux_bounds c l : forall i,
  Py.find_aux c l i = -1 \/ i <= Py.find_aux c l i < i + Z.of_nat (length l).
Proof.
  induction l as [|x l IH]; intros i; cbn [Py.find_aux length]; [left; reflexivity|].
  destruct (x =? c); [right; lia|].
  destruct (IH (i + 1)) as [H|H]; [left; exact H|right; lia].
Qed.

(** [find] answers -1 or an index of the block that is not below [start]. *)
Lemma find_bounds block c start :
  0 <= start ->
  Py.find block c start = -1
  \/ start <= Py.find block c start < Z.of_nat (length block).
Proof.
  intros Hstart. unfold Py.find.
  destruct (find_aux_bounds c (skipn (Z.to_nat start) block) start) as [H|H];
    [left; exact H|right].
  rewrite length_skipn in H. lia.
Qed.

Lemma _find_comment_end_bounds block start :
  0 <= start ->
  _find_comment_end block start = -1
  \/ start <= _find_comment_end block start < Z.of_nat (length block).
Proof.
  intros Hstart. unfold _find_comment_end.
  destruct (find_bounds block 10 start Hstart) as [Ha|Ha],
           (find_bounds block 13 start Hstart) as [Hb|Hb];
    destruct (0 <? _); lia.
Qed.

(** The fuel of [_ignore_comments_loop] is never used up: any two amounts
    above the length of the block give the same result. *)
Lemma _ignore_comments_loop_fuel n : forall m block,
  (length block < n)%nat -> (length block < m)%nat ->
  _ignore_comments_loop n block = _ignore_comments_loop m block.
Proof.
  induction n as [|n IH]; intros m block Hn Hm; [lia|].
  destruct m as [|m]; [lia|]. cbn [_ignore_comments_loop].
  destruct (Z.eqb_spec (Py.find block 35 0) (-1)) as [|Hstart]; [reflexivity|].
  destruct (Z.eqb_spec (_find_comment_end block (Py.find block 35 0)) (-1)) as [|Hend];
    [reflexivity|]. cbn [negb].
  destruct (find_bounds block 35 0) as [H|Hs]; [lia|contradiction|].
  destruct (_find_comment_end_bounds block (Py.find block 35 0)) as [H|He];
    [lia|contradiction|].
  assert (Hshort : (length (Py.upto block (Py.find block 35 0)
                            ++ Py.from block (_find_comment_end block (Py.find block 35 0) + 1))
                    < length block)%nat).
  { unfold Py.upto, Py.from. rewrite length_app, length_firstn, length_skipn. lia. }
  apply IH; lia.
Qed.

Section BlocksInvariant.

Variables (xsize ysize channels : nat) (depth : Z).
Let bps := bytes_per_sample_of depth.
Let total := total_bytes_of xsize ysize channels depth.
Let body := _decode_blocks_body xsize ysize channels depth.
Let whole := whole_samples xsize ysize channels depth.

Lemma whole_samples_le d : whole d -> (length d <= total)%nat.
Proof.
  intros (k & Hk & Hle). subst total. unfold total_bytes_of. rewrite Hk.
  apply Nat.mul_le_mono_r. exact Hle.
Qed.

Lemma whole_samples_nil : whole [].
Proof. exists 0%nat. cbn. split; lia. Qed.

Lemma decode_tokens_whole tokens : forall d d',
  whole d -> length d <> total ->
  decode_tokens (maxval_of depth) bps total d tokens = Ok d' -> whole d'.
Proof.
  induction tokens as [|token tokens IH]; intros d d' Hd Hne H; cbn [decode_tokens] in H.
  - injection H as <-. exact Hd.
  - destruct (decode_token (maxval_of depth) bps d token) as [d1|e] eqn:E;
      cbn [bind] in H; [|discriminate].
    apply decode_token_length in E.
    assert (H1 : whole d1).
    { destruct Hd as (k & Hk & Hle). exists (S k). split; [cbn; fold bps; lia|].
      destruct (Nat.eq_dec k (xsize * ysize * channels)) as [->|Hk'];
        [exfalso; apply Hne; rewrite Hk; reflexivity | lia]. }
    destruct (Nat.eqb_spec (length d1) total) as [_|Hne1].
    + injection H as <-. exact H1.
    + eapply IH; eassumption.
Qed.

(** A pass that goes round again started below the expected size and
    ran the [for] loop over some tokens. *)
Lemma _decode_blocks_body_next st st' :
  body st = Next st' ->
  length (decoded_data st) <> total
  /\ exists tokens,
      decode_tokens (maxval_of depth) bps total (decoded_data st) tokens
      = Ok (decoded_data st').
Proof.
  subst body. unfold _decode_blocks_body. fold total. fold bps.
  destruct (Nat.eqb_spec (length (decoded_data st)) total) as [|Hne]; [discriminate|].
  destruct (_read_block (fd st)) as [block fd1].
  match goal with |- context [match ?f with Some _ => _ | None => _ end] =>
    destruct f as [block1|]; [|discriminate] end.
  match goal with |- context [let '(_, _) := ?e in _] => destruct e as [block2 fd2] end.
  destruct (_ignore_comments block2) as [block3 spans].
  match goal with |- context [match ?p with Ok _ => _ | Raise _ => _ end] =>
    destruct p as [[half tokens]|e]; [|discriminate] end.
  destruct (decode_tokens _ _ _ _ tokens) as [d'|e] eqn:E; [|discriminate].
  intros H. injection H as <-. cbn [decoded_data].
  split; [exact Hne|]. exists tokens. exact E.
Qed.

Lemma _decode_blocks_body_done st out : body st = Done out -> out = decoded_data st.
Proof.
  subst body. unfold _decode_blocks_body.
  destruct (length (decoded_data st) =? _)%nat; [intros H; injection H as <-; reflexivity|].
  destruct (_read_block (fd st)) as [block fd1].
  match goal with |- context [match ?f with Some _ => _ | None => _ end] =>
    destruct f as [block1|]; [|intros H; injection H as <-; reflexivity] end.
  match goal with |- context [let '(_, _) := ?e in _] => destruct e as [block2 fd2] end.
  destruct (_ignore_comments block2) as [block3 spans].
  match goal with |- context [match ?p with Ok _ => _ | Raise _ => _ end] =>
    destruct p as [[half tokens]|e]; [|discriminate] end.
  destruct (decode_tokens _ _ _ _ tokens); discriminate.
Qed.

(** At the expected size the loop is left without another read. *)
Lemma _decode_blocks_body_full st :
  length (decoded_data st) = total -> body st = Done (decoded_data st).
Proof.
  intros H. subst body. unfold _decode_blocks_body. fold total.
  rewrite H, Nat.eqb_refl. reflexivity.
Qed.

Lemma _decode_blocks_body_whole st st' :
  whole (decoded_data st) -> body st = Next st' -> whole (decoded_data st').
Proof.
  intros Hd H. apply _decode_blocks_body_next in H. destruct H as (Hne & tokens & E).
  eapply decode_tokens_whole; eassumption.
Qed.

Lemma reaches_whole st0 st :
  whole (decoded_data st0) -> reaches body st0 st -> whole (decoded_data st).
Proof.
  intros H0 H. induction H as [|s s' _ IH Hstep]; [exact H0|].
  eapply _decode_blocks_body_whole; eassumption.
Qed.

Lemma _decode_blocks_loop_whole fuel : forall st out,
  whole (decoded_data st) ->
  _decode_blocks_loop fuel xsize ysize channels depth st = Some (Ok out) -> whole out.
Proof.
  induction fuel as [|fuel IH]; intros st out Hd H; cbn [_decode_blocks_loop] in H;
    [discriminate|].
  fold body in H. destruct (body st) as [st'|d|e] eqn:E.
  - eapply IH; [|exact H]. eapply _decode_blocks_body_whole; eassumption.
  - apply _decode_blocks_body_done in E. injection H as <-. subst d. exact Hd.
  - discriminate.
Qed.

End BlocksInvariant.

(** Once the [for] loop has filled the image, the tokens that follow in
    the block are not looked at. *)
Lemma decode_tokens_stops maxval bps total tokens : forall more d d',
  length d <> total ->
  decode_tokens maxval bps total d tokens = Ok d' -> length d' = total ->
  decode_tokens maxval bps total d (tokens ++ more) = Ok d'.
Proof.
  induction tokens as [|token tokens IH]; intros more d d' Hne H Hfull;
    cbn [decode_tokens app] in *.
  - injection H as <-. contradiction.
  - destruct (decode_token maxval bps d token) as [d1|e]; cbn [bind] in *; [|discriminate].
    destruct (Nat.eqb_spec (length d1) total) as [_|Hne1]; [exact H|].
    apply IH; assumption.
Qed.

Lemma join_split_aux block : forall cur,
  Py.join (Py.split_aux cur block) = rev cur ++ filter not_space block.
Proof.
  unfold Py.join.
  induction block as [|c block IH]; intros cur; cbn [Py.split_aux filter].
  - destruct cur; cbn [concat]; rewrite ?app_nil_r; reflexivity.
  - unfold not_space at 1. destruct (Py.is_space c); cbn [negb].
    + destruct cur; cbn [concat]; rewrite IH; reflexivity.
    + rewrite IH. cbn [rev]. rewrite <- app_assoc. reflexivity.
Qed.

(** [b"".join(block.split())] keeps the bytes that are not whitespace. *)
Lemma join_split block : Py.join (Py.split block) = filter not_space block.
Proof. unfold Py.split. rewrite join_split_aux. reflexivity. Qed.

Lemma skip_open_comment_fd fd : forall block,
  (length (snd (skip_open_comment fd block)) <= length fd)%nat.
Proof.
  induction fd as [|next fd IH]; intros block; destruct block as [|c block];
    cbn [skip_open_comment]; try (cbn; lia);
    destruct (negb _); cbn [snd length]; try lia.
  specialize (IH next). lia.
Qed.

Lemma find_bad_none tokens :
  List.find (fun token => negb ((token =? 48) || (token =? 49))) tokens = None ->
  forallb is_bit tokens = true.
Proof.
  induction tokens as [|c tokens IH]; cbn [List.find forallb]; [reflexivity|].
  unfold is_bit at 1. destruct ((c =? 48) || (c =? 49)); cbn [negb]; [|discriminate].
  exact IH.
Qed.

Lemma forallb_firstn (f : Z -> bool) n : forall l,
  forallb f l = true -> forallb f (firstn n l) = true.
Proof.
  induction n as [|n IH]; intros [|c l] H; cbn [firstn forallb] in *; try reflexivity.
  apply andb_prop in H. destruct H as [-> H]. cbn. apply IH. exact H.
Qed.

Section BitonalInvariant.

Variable total : nat.
Let body := _decode_bitonal_body total.

(** A pass that goes round again has read at least one block, found only
    0s and 1s in it and cut the data at the expected size. *)
Lemma _decode_bitonal_body_next st st' :
  body st = Next st' ->
  exists tokens,
    forallb is_bit tokens = true
    /\ bt_decoded_data st' = firstn total (bt_decoded_data st ++ tokens)
    /\ (length (bt_fd st') < length (bt_fd st))%nat.
Proof.
  subst body. unfold _decode_bitonal_body.
  destruct (length (bt_decoded_data st) =? total)%nat; [discriminate|].
  destruct (bt_fd st) as [|block fd1]; cbn [_read_block]; [discriminate|].
  destruct block as [|c block]; [discriminate|].
  assert (Hfd : (length (snd (if bt_comment_spans st
                               then skip_open_comment fd1 (c :: block)
                               else (c :: block, fd1))) <= length fd1)%nat).
  { destruct (bt_comment_spans st); [apply skip_open_comment_fd|cbn; lia]. }
  destruct (if bt_comment_spans st then _ else _) as [block2 fd2]. cbn [snd] in Hfd.
  destruct (_ignore_comments block2) as [block3 spans].
  destruct (List.find _ _) as [bad|] eqn:E; [discriminate|].
  intros H. injection H as <-. cbn [bt_decoded_data bt_fd length].
  eexists. split; [apply find_bad_none; exact E|]. split; [reflexivity|lia].
Qed.

Lemma _decode_bitonal_body_done st out : body st = Done out -> out = bt_decoded_data st.
Proof.
  subst body. unfold _decode_bitonal_body.
  destruct (length (bt_decoded_data st) =? total)%nat;
    [intros H; injection H as <-; reflexivity|].
  destruct (_read_block (bt_fd st)) as [[|c block] fd1];
    [intros H; injection H as <-; reflexivity|].
  destruct (if bt_comment_spans st then _ else _) as [block2 fd2].
  destruct (_ignore_comments block2) as [block3 spans].
  destruct (List.find _ _); discriminate.
Qed.

Lemma _decode_bitonal_body_full st :
  length (bt_decoded_data st) = total -> body st = Done (bt_decoded_data st).
Proof.
  intros H. subst body. unfold _decode_bitonal_body. rewrite H, Nat.eqb_refl. reflexivity.
Qed.

Lemma _decode_bitonal_body_bits st st' :
  bits_within total (bt_decoded_data st) -> body st = Next st' ->
  bits_within total (bt_decoded_data st').
Proof.
  intros [Hb _] H. apply _decode_bitonal_body_next in H.
  destruct H as (tokens & Ht & -> & _). split.
  - apply forallb_firstn. rewrite forallb_app, Hb, Ht. reflexivity.
  - rewrite length_firstn. lia.
Qed.

Lemma reaches_bits st0 st :
  bits_within total (bt_decoded_data st0) -> reaches body st0 st ->
  bits_within total (bt_decoded_data st).
Proof.
  intros H0 H. induction H as [|s s' _ IH Hstep]; [exact H0|].
  eapply _decode_bitonal_body_bits; eassumption.
Qed.

Lemma _decode_bitonal_loop_bits fuel : forall st out,
  bits_within total (bt_decoded_data st) ->
  _decode_bitonal_loop fuel total st = Some (Ok out) ->
  exists d, out = map invert d /\ bits_within total d.
Proof.
  induction fuel as [|fuel IH]; intros st out Hd H; cbn [_decode_bitonal_loop] in H;
    [discriminate|].
  fold body in H. destruct (body st) as [st'|d|e] eqn:E.
  - eapply IH; [|exact H]. eapply _decode_bitonal_body_bits; eassumption.
  - apply _decode_bitonal_body_done in E. injection H as <-. subst d.
    eexists. split; [reflexivity|exact Hd].
  - discriminate.
Qed.

(** The loop ends: every pass that goes round again uses up a block. *)
Lemma _decode_bitonal_loop_ends fuel : forall st,
  (length (bt_fd st) < fuel)%nat ->
  exists r, _decode_bitonal_loop fuel total st = Some r.
Proof.
  induction fuel as [|fuel IH]; intros st Hfuel; [lia|].
  cbn [_decode_bitonal_loop]. fold body. destruct (body st) as [st'|d|e] eqn:E; eauto.
  apply _decode_bitonal_body_next in E. destruct E as (_ & _ & _ & Hfd).
  apply IH. lia.
Qed.

End BitonalInvariant.

Lemma _decode_bitonal_total xsize ysize fd :
  exists r, _decode_bitonal xsize ysize fd = Some r.
Proof. apply _decode_bitonal_loop_ends. cbn. lia. Qed.

(** *** Bitmap data without comments *)

Lemma firstn_firstn_app (n : nat) (l m : bytes) :
  firstn n (firstn n l ++ m) = firstn n (l ++ m).
Proof.
  destruct (Nat.le_gt_cases n (length l)) as [Hle|Hgt].
  - rewrite !firstn_app. rewrite length_firstn.
    replace (n - Nat.min n (length l))%nat with 0%nat by lia.
    replace (n - length l)%nat with 0%nat by lia.
    cbn [firstn]. rewrite firstn_firstn. replace (Nat.min n n) with n by lia. reflexivity.
  - rewrite (firstn_all2 l) by lia. reflexivity.
Qed.

Lemma firstn_full (n : nat) (l m : bytes) : length l = n -> firstn n (l ++ m) = l.
Proof.
  intros H. rewrite firstn_app. replace (n - length l)%nat with 0%nat by lia.
  cbn [firstn]. rewrite app_nil_r. apply firstn_all2. lia.
Qed.

Lemma _decode_bitonal_body_plain total d block fd :
  length d <> total -> comment_free block ->
  _decode_bitonal_body total (mkbitonal d false (block :: fd))
  = match first_bad block with
    | Some c => Fail (InvalidToken [c])
    | None => Next (mkbitonal (firstn total (d ++ filter not_space block)) false fd)
    end.
Proof.
  intros Hne [Hblock Hplain]. unfold _decode_bitonal_body.
  cbn [bt_decoded_data bt_comment_spans bt_fd _read_block].
  destruct (Nat.eqb_spec (length d) total) as [|_]; [contradiction|].
  destruct block as [|c block]; [contradiction|].
  rewrite _ignore_comments_plain by exact Hplain. rewrite join_split. reflexivity.
Qed.

(** A stream of comment-free blocks that hold only 0s and 1s decodes to
    its first [total] digits, inverted. *)
Lemma _decode_bitonal_loop_valid total fd : forall d fuel,
  (length fd < fuel)%nat -> (length d <= total)%nat ->
  Forall (fun block => comment_free block /\ first_bad block = None) fd ->
  _decode_bitonal_loop fuel total (mkbitonal d false fd)
  = Some (Ok (map invert (firstn total (d ++ bits_of fd)))).
Proof.
  induction fd as [|block fd IH]; intros d fuel Hfuel Hd Hfd;
    (destruct fuel as [|fuel]; [cbn in Hfuel; lia|]); cbn [_decode_bitonal_loop].
  - unfold _decode_bitonal_body. cbn [bt_decoded_data bt_fd _read_block].
    unfold bits_of. cbn [concat filter]. rewrite app_nil_r, firstn_all2 by exact Hd.
    destruct (length d =? total)%nat; reflexivity.
  - inversion Hfd as [|? ? [Hfree Hgood] Hrest]. subst.
    destruct (Nat.eq_dec (length d) total) as [Hfull|Hne].
    + rewrite _decode_bitonal_body_full by exact Hfull. cbn [bt_decoded_data].
      rewrite firstn_full by exact Hfull. reflexivity.
    + rewrite _decode_bitonal_body_plain, Hgood by assumption.
      rewrite IH; [|cbn [length] in Hfuel; lia|rewrite length_firstn; lia|exact Hrest].
      rewrite firstn_firstn_app. unfold bits_of. cbn [concat].
      rewrite filter_app, app_assoc. reflexivity.
Qed.

(** The first byte other than 0, 1 and whitespace in a block that is read
    raises, and the error names it. *)
Lemma _decode_bitonal_loop_bad total fd : forall d fuel block more c,
  (length fd < fuel)%nat ->
  Forall (fun block => comment_free block /\ first_bad block = None) fd ->
  (length (d ++ bits_of fd) < total)%nat ->
  comment_free block -> first_bad block = Some c ->
  _decode_bitonal_loop fuel total (mkbitonal d false (fd ++ block :: more))
  = Some (Raise (InvalidToken [c])).
Proof.
  induction fd as [|good fd IH]; intros d fuel block more c Hfuel Hfd Hshort Hfree Hbad;
    (destruct fuel as [|fuel]; [cbn in Hfuel; lia|]); cbn [_decode_bitonal_loop app].
  - unfold bits_of in Hshort. cbn [concat filter] in Hshort. rewrite app_nil_r in Hshort.
    rewrite _decode_bitonal_body_plain, Hbad by (assumption || lia). reflexivity.
  - inversion Hfd as [|? ? [Hgfree Hgood] Hrest]. subst.
    unfold bits_of in Hshort. cbn [concat] in Hshort.
    rewrite filter_app, app_assoc in Hshort.
    assert (Hlen : (length (d ++ filter not_space good) < total)%nat).
    { rewrite length_app in Hshort. lia. }
    rewrite _decode_bitonal_body_plain, Hgood; [|rewrite length_app in Hlen; lia|assumption].
    rewrite (firstn_all2 (d ++ filter not_space good)) by lia.
    apply IH; try assumption. cbn [length] in Hfuel. lia.
Qed.

Lemma mem_In c l : Py.mem c l = false -> ~ In c l.
Proof.
  unfold Py.mem. intros H Hin.
  assert (E : existsb (Z.eqb c) l = true).
  { apply existsb_exists. exists c. split; [exact Hin|apply Z.eqb_refl]. }
  congruence.
Qed.

Lemma plain_block_free block : plain_block block = true -> comment_free block.
Proof.
  destruct block as [|c block]; cbn [plain_block]; [discriminate|].
  intros H. apply negb_true_iff in H. split; [discriminate|apply mem_In; exact H].
Qed.

Lemma forallb_first_bad block :
  forallb is_bit (filter not_space block) = true -> first_bad block = None.
Proof.
  unfold first_bad. induction (filter not_space block) as [|c l IH];
    cbn [forallb List.find]; [reflexivity|].
  intros H. apply andb_prop in H. destruct H as [-> H]. cbn [negb]. apply IH. exact H.
Qed.

Lemma bit_blocks_valid fd :
  forallb bit_block fd = true ->
  Forall (fun block => comment_free block /\ first_bad block = None) fd.
Proof.
  intros H. apply Forall_forall. intros block Hin.
  rewrite forallb_forall in H. specialize (H block Hin).
  unfold bit_block in H. apply andb_prop in H. destruct H as [H1 H2].
  split; [apply plain_block_free; exact H1|apply forallb_first_bad; exact H2].
Qed.

(** *** Data tokens *)

Lemma is_plain_no_space t : forallb is_plain t = true -> no_space t = true.
Proof.
  unfold no_space. induction t as [|c t IH]; cbn [forallb]; [reflexivity|].
  intros H. apply andb_prop in H. destruct H as [Hc H].
  apply HeaderFacts.is_plain_inv in Hc. destruct Hc as [-> _]. cbn. apply IH. exact H.
Qed.

Lemma is_plain_no_hash t : forallb is_plain t = true -> ~ In 35 t.
Proof.
  induction t as [|c t IH]; cbn [forallb In]; [tauto|].
  intros H. apply andb_prop in H. destruct H as [Hc H].
  apply HeaderFacts.is_plain_inv in Hc. destruct Hc as [_ Hc]. apply Z.eqb_neq in Hc.
  intros [E|Hin]; [congruence|]. exact (IH H Hin).
Qed.

Lemma ends_with_space_token_space t : Py.ends_with_space (t ++ [32]) = true.
Proof. unfold Py.ends_with_space. rewrite rev_app_distr. reflexivity. Qed.

Lemma ends_with_space_token t :
  no_space t = true -> Py.ends_with_space t = false.
Proof.
  intros Ht. unfold Py.ends_with_space. destruct (rev t) as [|c u] eqn:E; [reflexivity|].
  unfold no_space in Ht. rewrite forallb_forall in Ht.
  assert (Hin : In c t) by (apply in_rev; rewrite E; left; reflexivity).
  specialize (Ht c Hin). apply negb_true_iff in Ht. rewrite mem_whitespace in Ht. exact Ht.
Qed.

(** *** [_decode_blocks] ends *)

Lemma no_space_rev t : no_space t = true -> no_space (rev t) = true.
Proof.
  unfold no_space. rewrite !forallb_forall.
  intros H c Hin. apply H. apply in_rev. exact Hin.
Qed.

Lemma split_aux_proper block : forall cur t,
  no_space cur = true -> In t (Py.split_aux cur block) ->
  t <> [] /\ no_space t = true.
Proof.
  assert (Hcur : forall cur t, no_space cur = true ->
                 In t (match cur with [] => [] | _ :: _ => [rev cur] end) ->
                 t <> [] /\ no_space t = true).
  { intros [|c cur] t Hc Hin; [destruct Hin|]. destruct Hin as [<-|[]].
    split; [|apply no_space_rev; exact Hc].
    intros E. apply (f_equal (@length Z)) in E. rewrite length_rev in E. discriminate E. }
  induction block as [|c block IH]; intros cur t Hc Hin; cbn [Py.split_aux] in Hin.
  - eapply Hcur; eassumption.
  - destruct (Py.is_space c) eqn:Es.
    + destruct cur as [|c' cur]; [exact (IH [] t eq_refl Hin)|].
      destruct Hin as [<-|Hin]; [apply (Hcur (c' :: cur)); [exact Hc|left; reflexivity]|].
      exact (IH [] t eq_refl Hin).
    + eapply IH; [|exact Hin]. unfold no_space. cbn [forallb].
      rewrite mem_whitespace, Es. exact Hc.
Qed.

Lemma pop_In tokens t more : Py.pop tokens = Ok (t, more) -> In t tokens.
Proof.
  unfold Py.pop. destruct (rev tokens) as [|t' r] eqn:E; [discriminate|].
  intros H. injection H as <- _. apply in_rev. rewrite E. left. reflexivity.
Qed.

Lemma decode_tokens_grows maxval bps total tokens : forall d d',
  decode_tokens maxval bps total d tokens = Ok d' -> (length d <= length d')%nat.
Proof.
  induction tokens as [|token tokens IH]; intros d d' H; cbn [decode_tokens] in H.
  - injection H as <-. lia.
  - destruct (decode_token maxval bps d token) as [d1|e] eqn:E; cbn [bind] in H;
      [|discriminate].
    apply decode_token_length in E.
    destruct (length d1 =? total)%nat; [injection H as <-; lia|].
    apply IH in H. lia.
Qed.

(** The token held back at the end of a block is a token of the block. *)
Lemma popped_proper old block half tokens :
  proper_half old ->
  match block with
  | [] => Ok (old, Py.split block)
  | _ :: _ =>
      if negb (Py.ends_with_space block)
      then '(last, tokens) <- Py.pop (Py.split block) ;;
           (if (10 <? length last)%nat
            then Raise (DataTokenTooLong (firstn 11 last))
            else Ok (Some last, tokens))
      else Ok (old, Py.split block)
  end = Ok (half, tokens) ->
  proper_half half.
Proof.
  intros Hold H.
  assert (Hsame : Ok (old, Py.split block) = Ok (half, tokens) -> proper_half half)
    by (intros E; injection E as <- _; exact Hold).
  destruct block as [|c block]; [exact (Hsame H)|].
  destruct (negb _); [|exact (Hsame H)].
  destruct (Py.pop (Py.split (c :: block))) as [[last more]|e] eqn:Ep; cbn [bind] in H;
    [|discriminate].
  destruct (10 <? length last)%nat; [discriminate|]. injection H as <- _.
  apply pop_In in Ep. unfold Py.split in Ep.
  apply split_aux_proper in Ep; [exact Ep|reflexivity].
Qed.

Section BlocksEnd.

Variables (xsize ysize channels : nat) (depth : Z).
Let bps := bytes_per_sample_of depth.
Let total := total_bytes_of xsize ysize channels depth.
Let body := _decode_blocks_body xsize ysize channels depth.
Let whole := whole_samples xsize ysize channels depth.

Lemma whole_below_total d : whole d -> length d <> total -> (0 < bps)%nat.
Proof.
  intros (k & Hk & _) Hne. destruct bps eqn:E; [|lia].
  exfalso. apply Hne. subst total. unfold total_bytes_of. fold bps. rewrite Hk, E. lia.
Qed.

(** A pass that goes round again keeps [half_token] a token and leaves
    fewer passes to go. *)
Lemma _decode_blocks_body_decreases st st' :
  proper_half (half_token st) -> whole (decoded_data st) ->
  body st = Next st' ->
  proper_half (half_token st') /\ (passes_left total st' < passes_left total st)%nat.
Proof.
  intros Hhalf Hwhole Hnext.
  assert (Hwhole' : whole (decoded_data st'))
    by (eapply _decode_blocks_body_whole; eassumption).
  apply whole_samples_le in Hwhole'. fold total in Hwhole'.
  pose proof (whole_samples_le _ _ _ _ _ Hwhole) as Hle. fold total in Hle.
  revert Hnext. subst body. unfold _decode_blocks_body, passes_left. fold total. fold bps.
  destruct (Nat.eqb_spec (length (decoded_data st)) total) as [|Hne]; [discriminate|].
  pose proof (whole_below_total _ Hwhole Hne) as Hbps.
  destruct (fd st) as [|block0 fd1] eqn:Efd; cbn [_read_block length].
  - (* end of the data: only a pending token goes on *)
    destruct (half_token st) as [[|c t]|] eqn:Eh; cbn [truthy]; try discriminate.
    destruct Hhalf as [Hne_t Hns].
    destruct (comment_spans st).
    + change (skip_open_comment [] [32]) with (@nil Z, @nil bytes). cbv beta iota.
      change (_ignore_comments []) with (@nil Z, false). cbv beta iota.
      cbn [stitch]. rewrite app_nil_r, split_token by assumption.
      rewrite ends_with_space_token by exact Hns. cbn [negb Py.pop rev app bind].
      destruct (10 <? length (c :: t))%nat; [discriminate|]. cbn [decode_tokens].
      intros H. injection H as <-. cbn [half_token decoded_data fd comment_spans length].
      split; [split; assumption|lia].
    + cbv beta iota. change (_ignore_comments [32]) with ([32], false). cbv beta iota.
      cbn [stitch]. rewrite split_token_space by assumption.
      rewrite ends_with_space_token_space.
      destruct ((c :: t) ++ [32]) eqn:E; [discriminate E|]. cbn [negb decode_tokens].
      destruct (decode_token (maxval_of depth) bps (decoded_data st) (c :: t))
        as [d1|e] eqn:Ed; cbn [bind]; [|discriminate].
      apply decode_token_length in Ed.
      destruct (length d1 =? total)%nat; intros H; injection H as <-;
        cbn [half_token decoded_data fd comment_spans length] in *;
        (split; [split; assumption|lia]).
  - (* a block was read *)
    match goal with |- context [match ?f with Some _ => _ | None => _ end] =>
      destruct f as [block1|]; [|discriminate] end.
    assert (Hfd : (length (snd (if comment_spans st then skip_open_comment fd1 block1
                                 else (block1, fd1))) <= length fd1)%nat).
    { destruct (comment_spans st); [apply skip_open_comment_fd|cbn; lia]. }
    destruct (if comment_spans st then _ else _) as [block2 fd2]. cbn [snd] in Hfd.
    destruct (_ignore_comments block2) as [block3 spans].
    set (block4 := if truthy (half_token st) then _ else block3).
    match goal with |- context [match ?p with Ok _ => _ | Raise _ => _ end] =>
      destruct p as [[half tokens]|e] eqn:Ep; [|discriminate] end.
    apply popped_proper in Ep; [|exact Hhalf].
    destruct (decode_tokens _ _ _ _ tokens) as [d'|e] eqn:E; [|discriminate].
    apply decode_tokens_grows in E.
    intros H. injection H as <-.
    cbn [half_token decoded_data fd comment_spans] in *.
    split; [exact Ep|]. destruct spans, (comment_spans st); lia.
Qed.

Lemma _decode_blocks_loop_ends fuel : forall st,
  proper_half (half_token st) -> whole (decoded_data st) ->
  (passes_left total st < fuel)%nat ->
  exists r, _decode_blocks_loop fuel xsize ysize channels depth st = Some r.
Proof.
  induction fuel as [|fuel IH]; intros st Hhalf Hwhole Hfuel; [lia|].
  cbn [_decode_blocks_loop]. fold body. destruct (body st) as [st'|d|e] eqn:E; eauto.
  destruct (_decode_blocks_body_decreases _ _ Hhalf Hwhole E) as [Hhalf' Hless].
  apply IH; [exact Hhalf'| |lia].
  eapply _decode_blocks_body_whole; eassumption.
Qed.

End BlocksEnd.

(** [_decode_blocks] always returns or raises. *)
Lemma _decode_blocks_total xsize ysize channels depth fd :
  exists r, _decode_blocks xsize ysize channels depth fd = Some r.
Proof.
  apply _decode_blocks_loop_ends; [exact I|apply whole_samples_nil|].
  unfold passes_left. cbn [PpmPlainDecoder.fd decoded_data comment_spans length]. lia.
Qed.

Section FirstToken.

Variables (xsize ysize channels : nat) (depth : Z) (token : bytes) (fd : list bytes).
Hypothesis Htoken : forallb is_plain token = true.
Hypothesis Hlong : (11 <= length token)%nat.
Hypothesis Htotal : total_bytes_of xsize ysize channels depth <> 0%nat.

(** An over-long first token raises before anything is decoded, whether
    the block ends after it or goes on. *)
Lemma _decode_blocks_token_too_long :
  _decode_blocks xsize ysize channels depth ((token ++ [32]) :: fd)
  = Some (Raise (DataTokenTooLong (firstn 11 token))).
Proof.
  assert (Hne : token <> []) by (intros ->; cbn in Hlong; lia).
  unfold _decode_blocks. rewrite Nat.add_comm. cbn [Nat.add _decode_blocks_loop].
  unfold _decode_blocks_body.
  cbn [decoded_data comment_spans half_token PpmPlainDecoder.fd _read_block length truthy].
  destruct (Nat.eqb_spec 0 (total_bytes_of xsize ysize channels depth)) as [E|_];
    [symmetry in E; contradiction|].
  destruct (token ++ [32]) as [|c block] eqn:E; [destruct token; discriminate E|].
  rewrite <- E.
  rewrite _ignore_comments_plain.
  2:{ intros Hin. apply in_app_or in Hin. destruct Hin as [Hin|[Hin|[]]];
      [exact (is_plain_no_hash _ Htoken Hin)|discriminate Hin]. }
  rewrite split_token_space by (try apply is_plain_no_space; assumption).
  rewrite E at 1. rewrite ends_with_space_token_space. cbn [negb decode_tokens].
  rewrite decode_token_too_long by exact Hlong. reflexivity.
Qed.

Lemma _decode_blocks_half_token_too_long :
  _decode_blocks xsize ysize channels depth (token :: fd)
  = Some (Raise (DataTokenTooLong (firstn 11 token))).
Proof.
  assert (Hne : token <> []) by (intros ->; cbn in Hlong; lia).
  unfold _decode_blocks. rewrite Nat.add_comm. cbn [Nat.add _decode_blocks_loop].
  unfold _decode_blocks_body.
  cbn [decoded_data comment_spans half_token PpmPlainDecoder.fd _read_block length truthy].
  destruct (Nat.eqb_spec 0 (total_bytes_of xsize ysize channels depth)) as [E|_];
    [symmetry in E; contradiction|].
  destruct token as [|c block] eqn:E; [contradiction|]. rewrite <- E in *.
  rewrite _ignore_comments_plain by (apply is_plain_no_hash; exact Htoken).
  rewrite split_token by (try apply is_plain_no_space; assumption).
  rewrite E at 1. rewrite ends_with_space_token by (apply is_plain_no_space; exact Htoken).
  cbn [negb Py.pop rev app bind].
  replace (10 <? length token)%nat with true by (symmetry; apply Nat.ltb_lt; lia).
  reflexivity.
Qed.

End FirstToken.

(** The first token of a one-sample image, of at most ten bytes and with
    a value that fits the depth, is the whole output. *)
Lemma _decode_blocks_first_token_packed xsize ysize channels depth token v fd :
  In depth [8; 16; 32] -> (xsize * ysize * channels = 1)%nat ->
  forallb is_plain token = true -> (1 <= length token <= 10)%nat ->
  Py.int token = Ok v -> 0 <= v <= maxval_of depth ->
  _decode_blocks xsize ysize channels depth ((token ++ [32]) :: fd)
  = Some (Ok (Py.big_endian (bytes_per_sample_of depth) v)).
Proof.
  intros Hdepth Hone Htoken Hlen Hv Hrange.
  assert (Hne : token <> []) by (intros ->; cbn in Hlen; lia).
  assert (Htotal : total_bytes_of xsize ysize channels depth = bytes_per_sample_of depth).
  { unfold total_bytes_of. rewrite Hone. lia. }
  assert (Hbps : bytes_per_sample_of depth <> 0%nat).
  { cbn [In] in Hdepth. destruct Hdepth as [<-|[<-|[<-|[]]]]; discriminate. }
  unfold _decode_blocks. rewrite Nat.add_comm. cbn [Nat.add _decode_blocks_loop].
  unfold _decode_blocks_body at 1.
  cbn [decoded_data comment_spans half_token PpmPlainDecoder.fd _read_block length truthy].
  rewrite Htotal.
  destruct (Nat.eqb_spec 0 (bytes_per_sample_of depth)) as [E|_];
    [symmetry in E; contradiction|].
  destruct (token ++ [32]) as [|c block] eqn:E; [destruct token; discriminate E|].
  rewrite <- E.
  rewrite _ignore_comments_plain.
  2:{ intros Hin. apply in_app_or in Hin. destruct Hin as [Hin|[Hin|[]]];
      [exact (is_plain_no_hash _ Htoken Hin)|discriminate Hin]. }
  rewrite split_token_space by (try apply is_plain_no_space; assumption).
  rewrite E at 1. rewrite ends_with_space_token_space. cbn [negb decode_tokens].
  rewrite (decode_token_packed _ _ _ _ v)
    by (try apply depth_maximum_fits; assumption || lia).
  cbn [bind app]. rewrite big_endian_length, Nat.eqb_refl.
  unfold _decode_blocks_body. cbn [decoded_data]. rewrite Htotal.
  rewrite big_endian_length, Nat.eqb_refl. reflexivity.
Qed.

End DecoderFacts.

(** ** The plain-text decoder: bitmaps *)

Import DecoderFacts.

(** C4 does not hold of this code.  A byte of the data other than 0, 1
    and whitespace must raise "Invalid token for this mode", and it does
    when it stands where [_decode_bitonal] looks; but the byte after a
    comment that a read cut just before its line feed is skipped with the
    comment when a carriage return follows later, because
    [_find_comment_end] then returns the larger of its two indices: the
    data [0#c / 2 CR 0], read in the blocks [0#c] and [LF 2 CR 0],
    decodes to FF FF without an error for the 2, where the same bytes
    read as one block raise the error.  The scenario of the claim holds:
    the file [P1 / 2 2 / 0 1 / 1 0] decodes to FF 00 00 FF however it is
    cut into blocks. *)
Theorem _decode_bitonal_misses_byte_after_comment :
  (PpmPlainDecoder._decode_bitonal 2 1
     [bytes_of "0#c"; [10] ++ bytes_of "2" ++ [13] ++ bytes_of "0"]
   = Some (Ok [255; 255])
   /\ PpmPlainDecoder._decode_bitonal 2 1
        [bytes_of "0#c" ++ [10] ++ bytes_of "2" ++ [13] ++ bytes_of "0"]
      = Some (Raise (InvalidToken [50]))
   /\ PpmPlainDecoder._find_comment_end ([10] ++ bytes_of "2" ++ [13] ++ bytes_of "0") 0 = 2
   /\ first_line_end ([10] ++ bytes_of "2" ++ [13] ++ bytes_of "0") 0 = 0)
  /\ (let contents :=
        bytes_of "P1" ++ [10] ++ bytes_of "2 2" ++ [10] ++ bytes_of "0 1" ++ [10]
                 ++ bytes_of "1 0" ++ [10] in
      exists o,
        PpmImageFile._open (mkfile 0 contents) = Ok o
        /\ PpmImageFile.decoder_name o = "ppm_plain"%string
        /\ forall block_size,
            (0 < block_size)%nat ->
            PpmPlainDecoder.decode
              (PpmImageFile.mode o) (PpmImageFile.rawmode o)
              (Z.to_nat (PpmImageFile.xsize o)) (Z.to_nat (PpmImageFile.ysize o))
              (blocks_of block_size (skipn (PpmImageFile.offset o) contents))
            = Some (Ok ([255; 0; 0; 255], "1;8"%string))).
Proof.
  split; [repeat split; reflexivity|].
  cbv zeta.
  exists (PpmImageFile.mkopened "1" 2 2 (Some "image/x-portable-bitmap"%string)
                                "ppm_plain" 7 "1;I").
  split; [reflexivity|]. split; [reflexivity|].
  intros block_size Hpos.
  cbn [PpmImageFile.mode PpmImageFile.rawmode PpmImageFile.xsize
       PpmImageFile.ysize PpmImageFile.offset].
  change (skipn 7 _) with [48; 32; 49; 10; 49; 32; 48; 10].
  change (Z.to_nat 2) with 2%nat.
  do 8 (destruct block_size as [|block_size]; [lia || reflexivity|]).
  unfold blocks_of. cbn [length blocks_of_aux firstn skipn].
  rewrite firstn_nil, skipn_nil. reflexivity.
Qed.

Lemma _decode_bitonal_misses_byte_after_comment_witness :
  PpmPlainDecoder.decode "1" "1;I" 2 2
    (blocks_of 3 (bytes_of "0 1" ++ [10] ++ bytes_of "1 0" ++ [10]))
  = Some (Ok ([255; 0; 0; 255], "1;8"%string)).
Proof.
  destruct (proj2 _decode_bitonal_misses_byte_after_comment) as (o & Ho & _ & H).
  injection Ho as <-. apply (H 3%nat). lia.
Defined.

(** ** The plain-text decoder: the size of the output *)

(** C6: in both decoders [decoded_data] never holds more than
    [total_bytes] bytes: at every pass of the loop, and in what is
    returned; at [total_bytes] the loop is left without another read; a
    bitmap block is cut at [total_bytes]; and once the [for] loop over
    the tokens of a block has reached [total_bytes], the tokens that
    remain in the block change nothing. *)
Theorem decoded_data_within_total_bytes :
  (forall xsize ysize fd st,
      reaches (PpmPlainDecoder._decode_bitonal_body (xsize * ysize))
              (PpmPlainDecoder.mkbitonal [] false fd) st ->
      (length (PpmPlainDecoder.bt_decoded_data st) <= xsize * ysize)%nat)
  /\ (forall total st st',
         PpmPlainDecoder._decode_bitonal_body total st = Next st' ->
         exists tokens,
           PpmPlainDecoder.bt_decoded_data st'
           = firstn total (PpmPlainDecoder.bt_decoded_data st ++ tokens))
  /\ (forall total st,
         length (PpmPlainDecoder.bt_decoded_data st) = total ->
         PpmPlainDecoder._decode_bitonal_body total st
         = Done (PpmPlainDecoder.bt_decoded_data st))
  /\ (forall xsize ysize fd out,
         PpmPlainDecoder._decode_bitonal xsize ysize fd = Some (Ok out) ->
         (length out <= xsize * ysize)%nat)
  /\ (forall xsize ysize channels depth fd st,
         reaches (PpmPlainDecoder._decode_blocks_body xsize ysize channels depth)
                 (PpmPlainDecoder.mkblocks [] false None fd) st ->
         (length (PpmPlainDecoder.decoded_data st)
          <= PpmPlainDecoder.total_bytes_of xsize ysize channels depth)%nat)
  /\ (forall xsize ysize channels depth st,
         length (PpmPlainDecoder.decoded_data st)
         = PpmPlainDecoder.total_bytes_of xsize ysize channels depth ->
         PpmPlainDecoder._decode_blocks_body xsize ysize channels depth st
         = Done (PpmPlainDecoder.decoded_data st))
  /\ (forall xsize ysize channels depth fd out,
         PpmPlainDecoder._decode_blocks xsize ysize channels depth fd = Some (Ok out) ->
         (length out <= PpmPlainDecoder.total_bytes_of xsize ysize channels depth)%nat)
  /\ (forall maxval bytes_per_sample total_bytes d tokens more d',
         length d <> total_bytes ->
         PpmPlainDecoder.decode_tokens maxval bytes_per_sample total_bytes d tokens = Ok d' ->
         length d' = total_bytes ->
         PpmPlainDecoder.decode_tokens maxval bytes_per_sample total_bytes d (tokens ++ more)
         = Ok d').
Proof.
  repeat split.
  - intros xsize ysize fd st H.
    apply reaches_bits in H; [apply H|split; [reflexivity|cbn; lia]].
  - intros total st st' H. apply _decode_bitonal_body_next in H.
    destruct H as (tokens & _ & H & _). exists tokens. exact H.
  - intros total st. apply _decode_bitonal_body_full.
  - intros xsize ysize fd out H. unfold PpmPlainDecoder._decode_bitonal in H.
    apply _decode_bitonal_loop_bits in H; [|split; [reflexivity|cbn; lia]].
    destruct H as (d & -> & _ & Hd). rewrite length_map. exact Hd.
  - intros xsize ysize channels depth fd st H.
    apply whole_samples_le. eapply reaches_whole; [|exact H]. apply whole_samples_nil.
  - intros xsize ysize channels depth st. apply _decode_blocks_body_full.
  - intros xsize ysize channels depth fd out H. unfold PpmPlainDecoder._decode_blocks in H.
    apply whole_samples_le. eapply _decode_blocks_loop_whole; [|exact H].
    apply whole_samples_nil.
  - intros maxval bytes_per_sample total_bytes d tokens more d'.
    apply decode_tokens_stops.
Qed.

Lemma decoded_data_within_total_bytes_witness :
  PpmPlainDecoder.decode_tokens 255 1 2 []
    ([bytes_of "5"; bytes_of "6"] ++ [bytes_of "7"; bytes_of "sample"])
  = Ok [5; 6]
  /\ (length [255%Z; 0%Z] <= 2 * 1)%nat.
Proof.
  split.
  - apply (proj2 (proj2 (proj2 (proj2 (proj2 (proj2 (proj2
             decoded_data_within_total_bytes)))))));
      [cbn; lia|reflexivity|reflexivity].
  - apply (proj1 (proj2 (proj2 (proj2 decoded_data_within_total_bytes)))
             2%nat 1%nat [bytes_of "0 1 1 0 "]).
    reflexivity.
Defined.

(** ** The plain-text decoder: tokens *)

(** C3, as the spec has it, fails: a graymap whose header declares the
    max-value 100 and whose only sample is 200 decodes without error. *)
Lemma header_maxval_not_checked :
  let contents :=
    header_of (bytes_of "P2") 10 (bytes_of "1") 32 (bytes_of "1") 10 (bytes_of "100") 10
    ++ bytes_of "200" ++ [10] in
  header_maxval (mkfile 0 contents) = Ok 100
  /\ Py.int (bytes_of "200") = Ok 200
  /\ exists o,
      PpmImageFile._open (mkfile 0 contents) = Ok o
      /\ PpmPlainDecoder.decode
           (PpmImageFile.mode o) (PpmImageFile.rawmode o)
           (Z.to_nat (PpmImageFile.xsize o)) (Z.to_nat (PpmImageFile.ysize o))
           [skipn (PpmImageFile.offset o) contents]
         = Some (Ok ([200], "L"%string)).
Proof.
  cbv zeta. split; [reflexivity|]. split; [reflexivity|].
  exists (PpmImageFile.mkopened "L" 1 1 (Some "image/x-portable-graymap"%string)
                                "ppm_plain" 11 "L").
  split; reflexivity.
Qed.

(** The other half fails on 32-bit samples: a value below a header
    max-value of 4294967295 is still rejected above 2147483647. *)
Lemma value_below_header_maxval_rejected :
  let contents :=
    header_of (bytes_of "P2") 10 (bytes_of "1") 32 (bytes_of "1") 10
              (bytes_of "4294967295") 10
    ++ bytes_of "3000000000" ++ [10] in
  header_maxval (mkfile 0 contents) = Ok 4294967295
  /\ exists o,
      PpmImageFile._open (mkfile 0 contents) = Ok o
      /\ PpmPlainDecoder.decode
           (PpmImageFile.mode o) (PpmImageFile.rawmode o)
           (Z.to_nat (PpmImageFile.xsize o)) (Z.to_nat (PpmImageFile.ysize o))
           [skipn (PpmImageFile.offset o) contents]
         = Some (Raise (ChannelValueTooLarge 3000000000)).
Proof.
  cbv zeta. split; [reflexivity|].
  exists (PpmImageFile.mkopened "I" 1 1 (Some "image/x-portable-graymap"%string)
                                "ppm_plain" 18 "I;32B").
  split; reflexivity.
Qed.

(** ** The plain-text decoder: block boundaries and the end of the data *)

(** C1 does not hold of this code.  [half_token] is stitched to every
    later block, not only to the next one: the samples [12 3], read in
    the blocks [1], [2 ], [3 ], come out as 12 and 13.  And
    [_find_comment_end] returns the larger index when one of the two line
    ends is at index 0: a comment cut just before its line feed swallows
    the next line up to a later carriage return, in both decoders. *)
Theorem _decode_blocks_depends_on_block_boundaries :
  (concat [bytes_of "1"; bytes_of "2 "; bytes_of "3 "] = bytes_of "12 3 "
   /\ PpmPlainDecoder._decode_blocks 2 1 1 8 [bytes_of "12 3 "] = Some (Ok [12; 3])
   /\ PpmPlainDecoder._decode_blocks 2 1 1 8 [bytes_of "1"; bytes_of "2 "; bytes_of "3 "]
      = Some (Ok [12; 13]))
  /\ (PpmPlainDecoder._find_comment_end ([10] ++ bytes_of "2 " ++ [13] ++ bytes_of "3 ") 0 = 3
      /\ PpmPlainDecoder._decode_blocks 3 1 1 8
           [bytes_of "1 #c" ++ [10] ++ bytes_of "2 " ++ [13] ++ bytes_of "3 "]
         = Some (Ok [1; 2; 3])
      /\ PpmPlainDecoder._decode_blocks 3 1 1 8
           [bytes_of "1 #c"; [10] ++ bytes_of "2 " ++ [13] ++ bytes_of "3 "]
         = Some (Ok [1; 3]))
  /\ (PpmPlainDecoder._decode_bitonal 3 1 [bytes_of "0#c" ++ [10] ++ bytes_of "1" ++ [13] ++ bytes_of "0"]
      = Some (Ok [255; 0; 255])
      /\ PpmPlainDecoder._decode_bitonal 3 1 [bytes_of "0#c"; [10] ++ bytes_of "1" ++ [13] ++ bytes_of "0"]
         = Some (Ok [255; 255])).
Proof. repeat split; reflexivity. Qed.

(** C2 does not hold of this code.  At the end of the data the pending
    [half_token] is flushed on every further pass, because it is never
    cleared: an image of two samples whose data is the single token [7]
    comes out as 7 7, not as the short buffer 7.  Without a pending
    token the short buffer is returned. *)
Theorem _decode_blocks_repeats_last_token :
  PpmPlainDecoder._decode_blocks 2 1 1 8 [bytes_of "7"] = Some (Ok [7; 7])
  /\ PpmPlainDecoder._decode_blocks 4 1 1 8 [bytes_of "5 "; bytes_of "7"]
     = Some (Ok [5; 7; 7; 7])
  /\ PpmPlainDecoder._decode_blocks 2 1 1 8 [bytes_of "7 "] = Some (Ok [7])
  /\ PpmPlainDecoder._decode_bitonal 2 1 [bytes_of "1"] = Some (Ok [0]).
Proof. repeat split; reflexivity. Qed.

(** * Further properties *)

(** ** The built-ins: printing and parsing integers *)

Module PyFacts.

Lemma uint_bytes_digits d : forallb Py.is_digit (Py.uint_bytes d) = true.
Proof. induction d; cbn [Py.uint_bytes forallb]; try rewrite IHd; reflexivity. Qed.

Lemma int_digits_value s : forall acc,
  forallb Py.is_digit s = true -> s <> [] ->
  forall after, Py.int_digits acc after s = Some (digits_value acc s).
Proof.
  induction s as [|c s IH]; intros acc Hs Hne after; [contradiction|].
  cbn [forallb] in Hs. apply andb_prop in Hs. destruct Hs as [Hc Hs].
  cbn [Py.int_digits digits_value fold_left]. rewrite Hc.
  destruct s as [|c' s]; [reflexivity|].
  apply IH; [exact Hs|discriminate].
Qed.

Lemma of_uint_acc_value d : forall acc,
  Z.pos (Pos.of_uint_acc d acc) = digits_value (Z.pos acc) (Py.uint_bytes d).
Proof.
  unfold digits_value.
  induction d; intros acc; cbn [Pos.of_uint_acc Py.uint_bytes fold_left];
    try rewrite IHd; try reflexivity; f_equal; lia.
Qed.

Lemma of_uint_value d : Z.of_uint d = digits_value 0 (Py.uint_bytes d).
Proof.
  unfold Z.of_uint.
  induction d; cbn [Pos.of_uint Py.uint_bytes Z.of_N]; try reflexivity;
    try (rewrite of_uint_acc_value; reflexivity).
  exact IHd.
Qed.

Lemma uint_bytes_nonnil d : d <> Decimal.Nil -> Py.uint_bytes d <> [].
Proof. destruct d; intros H; try discriminate. contradiction. Qed.

Lemma uint_bytes_head d c s : Py.uint_bytes d = c :: s -> Py.is_digit c = true.
Proof.
  intros E. pose proof (uint_bytes_digits d) as H. rewrite E in H.
  cbn [forallb] in H. apply andb_prop in H. apply H.
Qed.

Lemma int_uint_bytes d :
  d <> Decimal.Nil -> Py.int (Py.uint_bytes d) = Ok (Z.of_uint d).
Proof.
  intros Hd. unfold Py.int.
  destruct (Py.uint_bytes d) as [|c s] eqn:E; [apply uint_bytes_nonnil in Hd; contradiction|].
  assert (Hc : Py.is_digit c = true) by (eapply uint_bytes_head; exact E).
  assert (Hp : Py.int_digits 0 false (c :: s) = Some (Z.of_uint d)).
  { rewrite of_uint_value, E. apply int_digits_value; [|discriminate].
    rewrite <- E. apply uint_bytes_digits. }
  unfold Py.is_digit in Hc. apply andb_prop in Hc. destruct Hc as [H1 H2].
  apply Z.leb_le in H1. apply Z.leb_le in H2.
  destruct c as [|c|c]; try lia.
  do 6 (destruct c as [c|c|]; try lia; try (rewrite Hp; reflexivity)).
Qed.

Lemma to_int_nonnil v d :
  Z.to_int v = Decimal.Pos d \/ Z.to_int v = Decimal.Neg d -> d <> Decimal.Nil.
Proof.
  destruct v as [|p|p]; cbn [Z.to_int]; intros [H|H]; try discriminate;
    injection H as <-; try discriminate; apply DecimalPos.Unsigned.to_uint_nonnil.
Qed.

(** [int(b"%d" % v) == v]. *)
Lemma int_format_d v : Py.int (Py.format_d v) = Ok v.
Proof.
  pose proof (DecimalZ.of_to v) as Hv. unfold Py.format_d.
  destruct (Z.to_int v) as [d|d] eqn:E.
  - cbn [Z.of_int] in Hv. rewrite int_uint_bytes, Hv; [reflexivity|].
    eapply to_int_nonnil. left. exact E.
  - cbn [Z.of_int] in Hv.
    assert (Hd : d <> Decimal.Nil) by (eapply to_int_nonnil; right; exact E).
    unfold Py.int.
    rewrite int_digits_value;
      [|apply uint_bytes_digits|apply uint_bytes_nonnil; exact Hd].
    rewrite <- of_uint_value. cbn [option_map]. rewrite Hv. reflexivity.
Qed.

Lemma digits_value_lower s : forall acc,
  0 <= acc -> forallb Py.is_digit s = true ->
  acc * 10 ^ Z.of_nat (length s) <= digits_value acc s.
Proof.
  unfold digits_value.
  induction s as [|c s IH]; intros acc Hacc Hs; cbn [length fold_left]; [cbn; lia|].
  cbn [forallb] in Hs. apply andb_prop in Hs. destruct Hs as [Hc Hs].
  unfold Py.is_digit in Hc. apply andb_prop in Hc. destruct Hc as [H1 _].
  apply Z.leb_le in H1.
  specialize (IH (acc * 10 + (c - 48)) ltac:(lia) Hs).
  rewrite Nat2Z.inj_succ, Z.pow_succ_r by lia.
  assert (0 <= 10 ^ Z.of_nat (length s)) by (apply Z.pow_nonneg; lia).
  nia.
Qed.

(** The decimal form of a positive number starts with a digit other
    than 0. *)
Lemma to_uint_head p :
  exists c s, Py.uint_bytes (Pos.to_uint p) = c :: s /\ 49 <= c.
Proof.
  pose proof (DecimalPos.Unsigned.to_of (Pos.to_uint p)) as H.
  rewrite DecimalPos.Unsigned.of_to in H. cbn [N.to_uint] in H.
  assert (Hnz : Decimal.nzhead (Pos.to_uint p) <> Decimal.Nil).
  { intros E. apply DecimalFacts.unorm_0 in E. rewrite <- H in E.
    exact (DecimalPos.Unsigned.to_uint_nonzero p E). }
  rewrite DecimalFacts.unorm_nzhead in H by exact Hnz.
  pose proof (DecimalFacts.nzhead_nonzero (Pos.to_uint p)) as Hz.
  rewrite <- H in Hnz, Hz.
  destruct (Pos.to_uint p) as [|d|d|d|d|d|d|d|d|d|d];
    [contradiction|exfalso; exact (Hz d eq_refl)|..];
    cbn [Py.uint_bytes]; eexists; eexists; (split; [reflexivity|lia]).
Qed.

(** A number below ten thousand million is printed in at most ten bytes. *)
Lemma format_d_length v :
  0 <= v < 10 ^ 10 -> (1 <= length (Py.format_d v) <= 10)%nat.
Proof.
  intros Hv. destruct v as [|p|p]; [cbn; lia| |lia].
  pose proof (DecimalZ.of_to (Z.pos p)) as E.
  unfold Py.format_d. cbn [Z.to_int Z.of_int] in *.
  rewrite of_uint_value in E.
  destruct (to_uint_head p) as (c & s & Hcs & Hc).
  pose proof (uint_bytes_digits (Pos.to_uint p)) as Hd.
  rewrite Hcs in E, Hd |- *. cbn [length]. split; [lia|].
  cbn [forallb] in Hd. apply andb_prop in Hd. destruct Hd as [_ Hd].
  unfold digits_value in E. cbn [fold_left] in E. fold (digits_value (0 * 10 + (c - 48)) s) in E.
  pose proof (digits_value_lower s (0 * 10 + (c - 48)) ltac:(lia) Hd) as Hlow.
  destruct (Nat.le_gt_cases (length s) 9) as [|Hlong]; [lia|exfalso].
  assert (Hpow : 10 ^ 10 <= 10 ^ Z.of_nat (length s)) by (apply Z.pow_le_mono_r; lia).
  assert (0 < 10 ^ Z.of_nat (length s)) by (apply Z.pow_pos_nonneg; lia).
  nia.
Qed.

(** The bytes of a printed number other than a sign are token bytes. *)
Lemma format_d_plain v : 0 <= v -> forallb is_plain (Py.format_d v) = true.
Proof.
  intros Hv. unfold Py.format_d.
  assert (H : forall d, forallb is_plain (Py.uint_bytes d) = true)
    by (induction d; cbn [Py.uint_bytes forallb]; try rewrite IHd; reflexivity).
  destruct v as [|p|p]; cbn [Z.to_int]; [apply H|apply H|lia].
Qed.

End PyFacts.

(** ** Opening what [_save] wrote *)

Module OpenFacts.
Import PpmImageFile HeaderFacts.

Section BitmapHeader.

Variables (magic : bytes) (ws0 ws1 ws2 : Z) (xtok ytok data : bytes) (x y : Z).
Hypothesis Hmagic : MODES magic = Some "1"%string.
Hypothesis Hws : forallb (fun ws => Py.mem ws b_whitespace) [ws0; ws1; ws2] = true.
Hypothesis Htok : forallb is_token [xtok; ytok] = true.
Hypothesis Hx : Py.int xtok = Ok x.
Hypothesis Hy : Py.int ytok = Ok y.

(** The header of a bitmap ends with the height: [_open] reads no
    max-value, and the pixel data starts right after the whitespace byte
    that follows the height, whatever the data is. *)
Lemma _open_of_bitmap_header :
  _open (mkfile 0 (magic ++ ws0 :: xtok ++ ws1 :: ytok ++ ws2 :: data))
  = Ok (mkopened "1" x y (mimetype_of magic) (decoder_of magic)
                 (length (magic ++ ws0 :: xtok ++ ws1 :: ytok ++ [ws2])) "1;I").
Proof.
  cbn [forallb] in Hws, Htok.
  repeat match goal with H : _ && _ = true |- _ => apply andb_prop in H; destruct H end.
  repeat match goal with H : is_token _ = true |- _ => apply is_token_inv in H; destruct H end.
  destruct (MODES_magic _ _ Hmagic) as [Hns Hlen].
  unfold _open.
  rewrite _read_magic_ok by assumption. rewrite Hmagic.
  rewrite _read_token_after_magic by assumption. cbn [bind]. rewrite Hx. cbn [bind].
  rewrite _read_token_ok by assumption. cbn [bind]. rewrite Hy. cbn [bind].
  cbn [String.eqb Ascii.eqb Bool.eqb pos]. do 2 f_equal.
  repeat (rewrite length_app; cbn [length]). lia.
Qed.

End BitmapHeader.

Lemma format_d_token v : 0 <= v < 10 ^ 10 -> is_token (Py.format_d v) = true.
Proof.
  intros Hv. unfold is_token.
  rewrite PyFacts.format_d_plain by lia.
  destruct (PyFacts.format_d_length v Hv) as [H1 H2].
  apply Nat.leb_le in H1. apply Nat.leb_le in H2. rewrite H1, H2. reflexivity.
Qed.

End OpenFacts.

(** X1: a file written by [_save] is opened by [_open] with the size of
    the image, its mode (RGB for an RGBA image), the raw decoder, the raw
    mode that [_save] handed to the raw encoder, and the pixel data
    starting right after the header. *)
Theorem _open_after_save :
  forall im data,
    In (im_mode im) ["1"; "L"; "I"; "RGB"; "RGBA"]%string ->
    0 <= fst (im_size im) < 10 ^ 10 ->
    0 <= snd (im_size im) < 10 ^ 10 ->
    exists written rawmode o,
      _save im [] = (written, Ok rawmode)
      /\ PpmImageFile._open (mkfile 0 (written ++ data)) = Ok o
      /\ PpmImageFile.mode o
         = (if String.eqb (im_mode im) "RGBA" then "RGB"%string else im_mode im)
      /\ PpmImageFile.xsize o = fst (im_size im)
      /\ PpmImageFile.ysize o = snd (im_size im)
      /\ PpmImageFile.rawmode o = rawmode
      /\ PpmImageFile.decoder_name o = "raw"%string
      /\ PpmImageFile.offset o = length written.
Proof.
  intros [mode [w h] ex] data Hmode Hw Hh. cbn [im_mode im_size fst snd] in *.
  pose proof (OpenFacts.format_d_token w Hw) as Htw.
  pose proof (OpenFacts.format_d_token h Hh) as Hth.
  pose proof (PyFacts.int_format_d w) as Hiw.
  pose proof (PyFacts.int_format_d h) as Hih.
  assert (Hgray : forall mtok m self_mode rawmode,
             is_token mtok = true -> Py.int mtok = Ok m ->
             PpmImageFile._open_maxval "L" m = Ok (self_mode, rawmode) ->
             PpmImageFile._open
               (mkfile 0 (header_of (bytes_of "P5") 10 (Py.format_d w) 32 (Py.format_d h) 10
                                    mtok 10 ++ data))
             = Ok (PpmImageFile.mkopened self_mode w h
                     (Some "image/x-portable-graymap"%string) "raw"
                     (length (header_of (bytes_of "P5") 10 (Py.format_d w) 32
                                        (Py.format_d h) 10 mtok 10)) rawmode)).
  { intros mtok m self_mode rawmode Htm Him Hres.
    rewrite (HeaderFacts._open_of_header (bytes_of "P5") "L" 10 32 10 10
               (Py.format_d w) (Py.format_d h) mtok data w h m);
      try assumption; try reflexivity; try discriminate.
    - rewrite Hres. reflexivity.
    - cbn [forallb]. rewrite Htw, Hth, Htm. reflexivity. }
  assert (Hcolor :
             PpmImageFile._open
               (mkfile 0 (header_of (bytes_of "P6") 10 (Py.format_d w) 32 (Py.format_d h) 10
                                    (bytes_of "255") 10 ++ data))
             = Ok (PpmImageFile.mkopened "RGB" w h
                     (Some "image/x-portable-pixmap"%string) "raw"
                     (length (header_of (bytes_of "P6") 10 (Py.format_d w) 32
                                        (Py.format_d h) 10 (bytes_of "255") 10)) "RGB")).
  { rewrite (HeaderFacts._open_of_header (bytes_of "P6") "RGB" 10 32 10 10
               (Py.format_d w) (Py.format_d h) (bytes_of "255") data w h 255);
      try assumption; try reflexivity; try discriminate.
    cbn [forallb]. rewrite Htw, Hth. reflexivity. }
  assert (Hbit :
             PpmImageFile._open
               (mkfile 0 ((bytes_of "P4" ++ 10 :: Py.format_d w ++ 32 :: Py.format_d h ++ [10])
                          ++ data))
             = Ok (PpmImageFile.mkopened "1" w h
                     (Some "image/x-portable-bitmap"%string) "raw"
                     (length (bytes_of "P4" ++ 10 :: Py.format_d w ++ 32
                                       :: Py.format_d h ++ [10])) "1;I")).
  { repeat (rewrite <- app_assoc; cbn [app]).
    rewrite (OpenFacts._open_of_bitmap_header (bytes_of "P4") 10 32 10
               (Py.format_d w) (Py.format_d h) data w h);
      try assumption; try reflexivity.
    cbn [forallb]. rewrite Htw, Hth. reflexivity. }
  cbn [In] in Hmode.
  destruct Hmode as [<-|[<-|[<-|[<-|[<-|[]]]]]].
  - exists (bytes_of "P4" ++ 10 :: Py.format_d w ++ 32 :: Py.format_d h ++ [10]),
      "1;I"%string,
      (PpmImageFile.mkopened "1" w h (Some "image/x-portable-bitmap"%string) "raw"
         (length (bytes_of "P4" ++ 10 :: Py.format_d w ++ 32 :: Py.format_d h ++ [10]))
         "1;I").
    repeat split; try reflexivity. exact Hbit.
  - exists (header_of (bytes_of "P5") 10 (Py.format_d w) 32 (Py.format_d h) 10
                      (bytes_of "255") 10),
      "L"%string,
      (PpmImageFile.mkopened "L" w h (Some "image/x-portable-graymap"%string) "raw"
         (length (header_of (bytes_of "P5") 10 (Py.format_d w) 32 (Py.format_d h) 10
                            (bytes_of "255") 10)) "L").
    repeat split; try reflexivity.
    + unfold _save, header_of. cbv -[Py.format_d app]. repeat rewrite <- app_assoc. reflexivity.
    + apply (Hgray (bytes_of "255") 255); reflexivity.
  - destruct (ex <? 2 ^ 16) eqn:Eex.
    + exists (header_of (bytes_of "P5") 10 (Py.format_d w) 32 (Py.format_d h) 10
                        (bytes_of "65535") 10),
        "I;16B"%string,
        (PpmImageFile.mkopened "I" w h (Some "image/x-portable-graymap"%string) "raw"
           (length (header_of (bytes_of "P5") 10 (Py.format_d w) 32 (Py.format_d h) 10
                              (bytes_of "65535") 10)) "I;16B").
      repeat split; try reflexivity.
      * unfold _save, header_of. cbn [im_mode im_size im_extrema_max fst snd].
        rewrite Eex. cbv -[Py.format_d app]. repeat rewrite <- app_assoc. reflexivity.
      * apply (Hgray (bytes_of "65535") 65535); reflexivity.
    + exists (header_of (bytes_of "P5") 10 (Py.format_d w) 32 (Py.format_d h) 10
                        (bytes_of "2147483648") 10),
        "I;32B"%string,
        (PpmImageFile.mkopened "I" w h (Some "image/x-portable-graymap"%string) "raw"
           (length (header_of (bytes_of "P5") 10 (Py.format_d w) 32 (Py.format_d h) 10
                              (bytes_of "2147483648") 10)) "I;32B").
      repeat split; try reflexivity.
      * unfold _save, header_of. cbn [im_mode im_size im_extrema_max fst snd].
        rewrite Eex. cbv -[Py.format_d app]. repeat rewrite <- app_assoc. reflexivity.
      * apply (Hgray (bytes_of "2147483648") 2147483648); reflexivity.
  - exists (header_of (bytes_of "P6") 10 (Py.format_d w) 32 (Py.format_d h) 10
                      (bytes_of "255") 10),
      "RGB"%string,
      (PpmImageFile.mkopened "RGB" w h (Some "image/x-portable-pixmap"%string) "raw"
         (length (header_of (bytes_of "P6") 10 (Py.format_d w) 32 (Py.format_d h) 10
                            (bytes_of "255") 10)) "RGB").
    repeat split; try reflexivity.
    + unfold _save, header_of. cbv -[Py.format_d app]. repeat rewrite <- app_assoc. reflexivity.
    + exact Hcolor.
  - exists (header_of (bytes_of "P6") 10 (Py.format_d w) 32 (Py.format_d h) 10
                      (bytes_of "255") 10),
      "RGB"%string,
      (PpmImageFile.mkopened "RGB" w h (Some "image/x-portable-pixmap"%string) "raw"
         (length (header_of (bytes_of "P6") 10 (Py.format_d w) 32 (Py.format_d h) 10
                            (bytes_of "255") 10)) "RGB").
    repeat split; try reflexivity.
    + unfold _save, header_of. cbv -[Py.format_d app]. repeat rewrite <- app_assoc. reflexivity.
    + exact Hcolor.
Qed.

Lemma _open_after_save_witness :
  exists written rawmode o,
    _save (mkimage "RGBA" (640, 480) 255) [] = (written, Ok rawmode)
    /\ PpmImageFile._open (mkfile 0 (written ++ [1; 2; 3])) = Ok o
    /\ PpmImageFile.mode o = "RGB"%string
    /\ PpmImageFile.xsize o = 640
    /\ PpmImageFile.offset o = length written.
Proof.
  destruct (_open_after_save (mkimage "RGBA" (640, 480) 255) [1; 2; 3])
    as (written & rawmode & o & H1 & H2 & H3 & H4 & _ & _ & _ & H8);
    [cbn; tauto|cbn; lia|cbn; lia|].
  exists written, rawmode, o. repeat split; assumption.
Defined.

(** ** More on the header tokenizer *)

Module HeaderMore.
Import PpmImageFile HeaderFacts.

Lemma _read_magic_loop_inv n : forall magic fp magic' fp',
  _read_magic_loop n magic fp = (magic', fp') ->
  exists read consumed,
    magic' = magic ++ read /\ no_space read = true /\ (length read <= n)%nat
    /\ rest fp = consumed ++ rest fp' /\ pos fp' = (pos fp + length consumed)%nat
    /\ (consumed = read \/ exists ws, consumed = read ++ [ws] /\ Py.mem ws b_whitespace = true).
Proof.
  induction n as [|n IH]; intros magic [p r] magic' fp' H; cbn [_read_magic_loop] in H.
  - injection H as <- <-. exists [], []. cbn. rewrite app_nil_r.
    repeat split; auto; lia.
  - unfold read1 in H. cbn [rest pos] in H. destruct r as [|c r].
    + injection H as <- <-. exists [], []. cbn. rewrite app_nil_r.
      repeat split; auto; lia.
    + destruct (Py.mem c b_whitespace) eqn:Ec.
      * injection H as <- <-. exists [], [c]. cbn [rest pos app length].
        rewrite app_nil_r. repeat split; try reflexivity; try lia.
        right. exists c. split; [reflexivity|exact Ec].
      * apply IH in H.
        destruct H as (read & consumed & -> & Hns & Hlen & Hrest & Hpos & Hshape).
        cbn [rest pos] in Hrest, Hpos.
        exists (c :: read), (c :: consumed). rewrite <- app_assoc. cbn [app rest pos length].
        repeat split; try (cbn [length]; lia).
        -- unfold no_space. cbn [forallb]. rewrite Ec. exact Hns.
        -- rewrite Hrest. reflexivity.
        -- destruct Hshape as [->|(ws & -> & Hws)]; [left; reflexivity|].
           right. exists ws. split; [reflexivity|exact Hws].
Qed.

Lemma skip_line_inv r : forall p,
  exists consumed,
    r = consumed ++ rest (skip_line p r)
    /\ pos (skip_line p r) = (p + length consumed)%nat.
Proof.
  induction r as [|c r IH]; intros p; cbn [skip_line].
  - exists []. cbn. split; [reflexivity|lia].
  - destruct (Py.mem c [13; 10]).
    + exists [c]. cbn. split; [reflexivity|lia].
    + destruct (IH (S p)) as (consumed & Hr & Hp).
      exists (c :: consumed). cbn [app length]. split; [congruence|lia].
Qed.

Lemma _read_token_loop_inv fuel : forall token fp token' fp',
  _read_token_loop fuel token fp = (token', fp') ->
  forallb is_plain token = true -> (length token <= 11)%nat ->
  forallb is_plain token' = true /\ (length token' <= 11)%nat
  /\ exists consumed,
      rest fp = consumed ++ rest fp' /\ pos fp' = (pos fp + length consumed)%nat.
Proof.
  induction fuel as [|fuel IH]; intros token [p r] token' fp' H Hplain Hlen;
    cbn [_read_token_loop] in H.
  - injection H as <- <-. repeat split; try assumption.
    exists []. cbn. split; [reflexivity|lia].
  - destruct (Nat.leb_spec (length token) 10) as [Hle|_].
    2:{ injection H as <- <-. repeat split; try assumption.
        exists []. cbn. split; [reflexivity|lia]. }
    unfold read1 in H. cbn [rest pos] in H. destruct r as [|c r].
    { injection H as <- <-. repeat split; try assumption.
      exists []. cbn. split; [reflexivity|lia]. }
    destruct (Py.mem c b_whitespace) eqn:Ews.
    + destruct token as [|t token].
      * apply IH in H; [|reflexivity|cbn; lia].
        destruct H as (Hp' & Hl' & consumed & Hrest & Hpos). cbn [rest pos] in *.
        repeat split; try assumption. exists (c :: consumed).
        cbn [app length]. split; [congruence|lia].
      * injection H as <- <-. repeat split; try assumption.
        exists [c]. cbn. split; [reflexivity|lia].
    + destruct (c =? 35) eqn:Eh.
      * cbn [rest pos] in H. apply IH in H; [|assumption|assumption].
        destruct H as (Hp' & Hl' & consumed & Hrest & Hpos).
        destruct (skip_line_inv r (S p)) as (skipped & Hr & Hps).
        repeat split; try assumption. exists (c :: skipped ++ consumed).
        cbn [rest pos app length]. rewrite length_app, <- app_assoc.
        split; [rewrite <- Hrest; congruence|lia].
      * apply IH in H.
        -- destruct H as (Hp' & Hl' & consumed & Hrest & Hpos). cbn [rest pos] in *.
           repeat split; try assumption. exists (c :: consumed).
           cbn [app length]. split; [congruence|lia].
        -- rewrite forallb_app, Hplain. cbn [forallb]. unfold is_plain.
           rewrite Ews, Eh. reflexivity.
        -- rewrite length_app. cbn [length]. lia.
Qed.

End HeaderMore.

(** X2: [_read_magic] returns at most six bytes, none of them whitespace;
    they are the first bytes of the file, and the file is left right
    after them or after the one whitespace byte that ended them. *)
Theorem _read_magic_prefix :
  forall fp magic fp',
    PpmImageFile._read_magic fp = (magic, fp') ->
    no_space magic = true /\ (length magic <= 6)%nat
    /\ exists consumed,
        rest fp = consumed ++ rest fp' /\ pos fp' = (pos fp + length consumed)%nat
        /\ (consumed = magic
            \/ exists ws, consumed = magic ++ [ws] /\ Py.mem ws b_whitespace = true).
Proof.
  intros fp magic fp' H. unfold PpmImageFile._read_magic in H.
  apply HeaderMore._read_magic_loop_inv in H.
  destruct H as (read & consumed & -> & Hns & Hlen & Hrest & Hpos & Hshape).
  cbn [app]. repeat split; try assumption. exists consumed. repeat split; assumption.
Qed.

Lemma _read_magic_prefix_witness :
  no_space (bytes_of "P0CMYK") = true
  /\ exists consumed,
      bytes_of "P0CMYK 2 2 255 " = consumed ++ bytes_of " 2 2 255 ".
Proof.
  destruct (_read_magic_prefix (mkfile 0 (bytes_of "P0CMYK 2 2 255 ")) (bytes_of "P0CMYK")
              (mkfile 6 (bytes_of " 2 2 255 ")) eq_refl)
    as (Hns & _ & consumed & Hrest & _).
  split; [exact Hns|]. exists consumed. exact Hrest.
Defined.

(** X3: whatever the file holds, a token that [_read_token] returns has
    one to ten bytes, none of them whitespace or [#]; the file is read
    forwards only, and left where the bytes consumed end.  When it
    raises, it is for the end of the file or for a token too long, of
    which the message shows exactly eleven bytes. *)
Theorem _read_token_result :
  forall fp,
    match PpmImageFile._read_token fp with
    | Ok (token, fp') =>
        is_token token = true
        /\ exists consumed,
            rest fp = consumed ++ rest fp' /\ pos fp' = (pos fp + length consumed)%nat
    | Raise e =>
        e = ReachedEOFInHeader
        \/ exists token,
            e = HeaderTokenTooLong token /\ length token = 11%nat
            /\ forallb is_plain token = true
    end.
Proof.
  intros fp. unfold PpmImageFile._read_token.
  destruct (PpmImageFile._read_token_loop _ [] fp) as [token fp'] eqn:E.
  apply HeaderMore._read_token_loop_inv in E; [|reflexivity|cbn; lia].
  destruct E as (Hplain & Hlen & Hconsumed).
  destruct token as [|c token]; [left; reflexivity|].
  destruct (Nat.ltb_spec 10 (length (c :: token))) as [Hlong|Hshort].
  - right. exists (c :: token). repeat split; [lia|exact Hplain].
  - split; [|exact Hconsumed]. unfold is_token. rewrite Hplain.
    cbn [length] in *. cbn [andb Nat.leb].
    apply Nat.leb_le. lia.
Qed.

Module HeaderComments.
Import PpmImageFile HeaderFacts.

Lemma skip_line_comment com : forall p eol r,
  forallb (fun c => negb (Py.mem c [13; 10])) com = true ->
  Py.mem eol [13; 10] = true ->
  skip_line p (com ++ eol :: r) = mkfile (p + length com + 1) r.
Proof.
  induction com as [|c com IH]; intros p eol r Hcom Heol; cbn [app skip_line length].
  - rewrite Heol. f_equal. lia.
  - cbn [forallb] in Hcom. apply andb_prop in Hcom. destruct Hcom as [Hc Hcom].
    apply negb_true_iff in Hc. rewrite Hc, IH by assumption. f_equal. lia.
Qed.

Lemma _read_token_loop_space fuel : forall p r,
  forallb Py.is_space r = true ->
  _read_token_loop fuel [] (mkfile p r) = ([], mkfile (p + Nat.min fuel (length r)) [])
  \/ (fuel <= length r)%nat.
Proof.
  induction fuel as [|fuel IH]; intros p r Hr; [right; lia|].
  cbn [_read_token_loop length Nat.leb]. unfold read1. cbn [rest pos].
  destruct r as [|c r]; [left; cbn; do 2 f_equal; lia|].
  cbn [forallb] in Hr. apply andb_prop in Hr. destruct Hr as [Hc Hr].
  rewrite DecoderFacts.mem_whitespace, Hc.
  destruct (IH (S p) r Hr) as [->|Hshort]; [left|right; cbn [length]; lia].
  cbn [length]. do 2 f_equal. lia.
Qed.

End HeaderComments.

(** X4: a header comment, from [#] through the next CR or LF, is skipped
    wherever it stands, also inside a token: the bytes before and after
    it are read as one token. *)
Theorem _read_token_skips_comment :
  forall before comment eol after ws p r,
    forallb is_plain before = true -> forallb is_plain after = true ->
    (1 <= length (before ++ after) <= 10)%nat ->
    forallb (fun c => negb (Py.mem c [13; 10])) comment = true ->
    Py.mem eol [13; 10] = true ->
    Py.mem ws b_whitespace = true ->
    PpmImageFile._read_token
      (mkfile p (before ++ 35 :: comment ++ eol :: after ++ ws :: r))
    = Ok (before ++ after,
          mkfile (p + length before + 1 + length comment + 1 + length after + 1) r).
Proof.
  intros before comment eol after ws p r Hb Ha Hlen Hcom Heol Hws.
  rewrite length_app in Hlen.
  unfold PpmImageFile._read_token. cbn [rest].
  replace (S (length (before ++ 35 :: comment ++ eol :: after ++ ws :: r)))
    with (length before + S (length after + S (length comment + 2 + length r)))%nat
    by (repeat (rewrite length_app; cbn [length]); lia).
  rewrite HeaderFacts._read_token_loop_plain by (cbn [length]; auto; lia).
  cbn [app PpmImageFile._read_token_loop].
  replace (length before <=? 10)%nat with true by (symmetry; apply Nat.leb_le; lia).
  unfold read1. cbn [rest pos]. change (Py.mem 35 b_whitespace) with false.
  change (35 =? 35) with true. cbv iota.
  rewrite HeaderComments.skip_line_comment by assumption.
  rewrite HeaderFacts._read_token_loop_plain by (try assumption; lia).
  cbn [PpmImageFile._read_token_loop].
  replace (length (before ++ after) <=? 10)%nat with true
    by (symmetry; apply Nat.leb_le; rewrite length_app; lia).
  unfold read1. cbn [rest pos]. rewrite Hws.
  destruct (before ++ after) as [|c token] eqn:E.
  { apply (f_equal (@length Z)) in E. rewrite length_app in E. cbn in E. lia. }
  rewrite <- E.
  replace (10 <? length (before ++ after))%nat with false
    by (symmetry; apply Nat.ltb_ge; rewrite length_app; lia).
  do 3 f_equal. lia.
Qed.

Lemma _read_token_skips_comment_witness :
  PpmImageFile._read_token
    (mkfile 3 (bytes_of "64" ++ 35 :: bytes_of " width" ++ 10 :: bytes_of "0" ++ 32 :: bytes_of "480"))
  = Ok (bytes_of "640", mkfile 15 (bytes_of "480")).
Proof.
  apply (_read_token_skips_comment (bytes_of "64") (bytes_of " width") 10 (bytes_of "0") 32
           3%nat (bytes_of "480")); try reflexivity.
  cbn. lia.
Defined.

(** X5: when only whitespace is left in the file (or nothing),
    [_read_token] raises "Reached EOF while reading header". *)
Theorem _read_token_at_end_of_file :
  forall p r,
    forallb Py.is_space r = true ->
    PpmImageFile._read_token (mkfile p r) = Raise ReachedEOFInHeader.
Proof.
  intros p r Hr. unfold PpmImageFile._read_token. cbn [rest].
  destruct (HeaderComments._read_token_loop_space (S (length r)) p r Hr) as [->|H];
    [reflexivity|lia].
Qed.

Lemma _read_token_at_end_of_file_witness :
  PpmImageFile._read_token (mkfile 2 []) = Raise ReachedEOFInHeader
  /\ PpmImageFile._read_token (mkfile 2 [32; 10; 9]) = Raise ReachedEOFInHeader.
Proof.
  split; apply _read_token_at_end_of_file; reflexivity.
Defined.

(** ** [_open] and its neighbours *)

(** X6: the header of a bitmap (P1, P4) ends with the height: [_open]
    reads no max-value, answers mode 1 with raw mode 1;I, and the pixel
    data starts right after the whitespace byte that follows the height,
    whatever the data is. *)
Theorem _open_bitmap_reads_two_tokens :
  forall magic ws0 ws1 ws2 xtok ytok data x y,
    MODES magic = Some "1"%string ->
    forallb (fun ws => Py.mem ws b_whitespace) [ws0; ws1; ws2] = true ->
    forallb is_token [xtok; ytok] = true ->
    Py.int xtok = Ok x -> Py.int ytok = Ok y ->
    PpmImageFile._open (mkfile 0 (magic ++ ws0 :: xtok ++ ws1 :: ytok ++ ws2 :: data))
    = Ok (PpmImageFile.mkopened "1" x y (PpmImageFile.mimetype_of magic)
            (PpmImageFile.decoder_of magic)
            (length (magic ++ ws0 :: xtok ++ ws1 :: ytok ++ [ws2])) "1;I").
Proof. exact OpenFacts._open_of_bitmap_header. Qed.

Lemma _open_bitmap_reads_two_tokens_witness :
  PpmImageFile._open
    (mkfile 0 (bytes_of "P1" ++ 10 :: bytes_of "2" ++ 32 :: bytes_of "1" ++ 10 :: bytes_of "255 0"))
  = Ok (PpmImageFile.mkopened "1" 2 1 (Some "image/x-portable-bitmap"%string)
          "ppm_plain" 7 "1;I").
Proof.
  apply (_open_bitmap_reads_two_tokens (bytes_of "P1") 10 32 10 (bytes_of "2") (bytes_of "1")
           (bytes_of "255 0") 2 1); reflexivity.
Defined.

Module OpenResults.
Import PpmImageFile HeaderFacts.

(** What [_open] went through when it succeeded. *)
Lemma _open_inv fp o :
  _open fp = Ok o ->
  exists magic table_mode,
    fst (_read_magic fp) = magic /\ MODES magic = Some table_mode
    /\ decoder_name o = decoder_of magic
    /\ (table_mode = "1"%string /\ mode o = "1"%string /\ rawmode o = "1;I"%string
        \/ table_mode <> "1"%string
           /\ exists maxval, _open_maxval table_mode maxval = Ok (mode o, rawmode o)).
Proof.
  unfold _open. destruct (_read_magic fp) as [magic fp1].
  destruct (MODES magic) as [table_mode|] eqn:EM; [|discriminate].
  destruct (_read_token fp1) as [[xtok fp2]|e]; cbn [bind]; [|discriminate].
  destruct (Py.int xtok) as [x|e]; cbn [bind]; [|discriminate].
  destruct (_read_token fp2) as [[ytok fp3]|e]; cbn [bind]; [|discriminate].
  destruct (Py.int ytok) as [y|e]; cbn [bind]; [|discriminate].
  destruct (String.eqb_spec table_mode "1") as [->|Hne].
  - intros H. injection H as <-. exists magic, "1"%string. cbn. auto 10.
  - destruct (_read_token fp3) as [[mtok fp4]|e]; cbn [bind]; [|discriminate].
    destruct (Py.int mtok) as [m|e]; cbn [bind]; [|discriminate].
    destruct (_open_maxval table_mode m) as [[self_mode raw]|e] eqn:Em; cbn [bind];
      [|discriminate].
    intros H. injection H as <-. exists magic, table_mode. cbn.
    repeat split; try reflexivity; try assumption.
    right. split; [exact Hne|]. exists m. exact Em.
Qed.

End OpenResults.

(** X7: every file that [_open] hands to the plain-text decoder has mode 1
    with raw mode 1;I, or a mode and raw mode for which [decode] calls
    [_decode_blocks], with a depth of 8, 16 or 32: [decode] never reaches
    its last line with [decoded_data] unassigned. *)
Theorem _open_plain_decoder_modes :
  forall fp o,
    PpmImageFile._open fp = Ok o ->
    PpmImageFile.decoder_name o = "ppm_plain"%string ->
    (PpmImageFile.mode o = "1"%string /\ PpmImageFile.rawmode o = "1;I"%string)
    \/ exists channels depth,
        PpmPlainDecoder.blocks_args (PpmImageFile.mode o) (PpmImageFile.rawmode o)
        = Some (channels, depth)
        /\ In depth [8; 16; 32].
Proof.
  intros fp o Hopen Hplain.
  apply OpenResults._open_inv in Hopen.
  destruct Hopen as (magic & table_mode & _ & HM & Hdec & Hcases).
  rewrite Hdec in Hplain. apply HeaderFacts.MODES_inv in HM.
  unfold MODES_table in HM. cbn [In] in HM.
  repeat (destruct HM as [HM|HM];
          [injection HM as <- <-; try discriminate Hplain|]); try contradiction.
  - destruct Hcases as [(_ & -> & ->)|(Hne & _)]; [left; auto|contradiction].
  - destruct Hcases as [(E & _)|(_ & m & Hm)]; [discriminate E|]. right.
    unfold PpmImageFile._open_maxval in Hm. cbn [String.eqb Ascii.eqb Bool.eqb negb] in Hm.
    destruct (255 <? m); [destruct (m <? 2 ^ 16)|]; injection Hm as <- <-;
      eexists; eexists; (split; [reflexivity|cbn; tauto]).
  - destruct Hcases as [(E & _)|(_ & m & Hm)]; [discriminate E|]. right.
    unfold PpmImageFile._open_maxval in Hm. cbn [String.eqb Ascii.eqb Bool.eqb negb] in Hm.
    destruct (255 <? m); [discriminate Hm|]. injection Hm as <- <-.
    eexists; eexists; (split; [reflexivity|cbn; tauto]).
Qed.

Lemma _open_plain_decoder_modes_witness :
  exists channels depth,
    PpmPlainDecoder.blocks_args "I" "I;16B" = Some (channels, depth) /\ In depth [8; 16; 32].
Proof.
  destruct (_open_plain_decoder_modes
              (mkfile 0 (bytes_of "P2 3 1 1000 7 8 9 "))
              (PpmImageFile.mkopened "I" 3 1 (Some "image/x-portable-graymap"%string)
                 "ppm_plain" 12 "I;16B") eq_refl eq_refl)
    as [[H _]|H]; [discriminate H|exact H].
Defined.

(** X8: a file that [_open] opens is one that [_accept] recognises, from
    any prefix of two bytes or more. *)
Theorem _open_implies_accept :
  forall contents o n,
    PpmImageFile._open (mkfile 0 contents) = Ok o ->
    (2 <= n)%nat ->
    _accept (firstn n contents) = Ok true.
Proof.
  intros contents o n Hopen Hn.
  apply OpenResults._open_inv in Hopen.
  destruct Hopen as (magic & table_mode & Hmagic & HM & _).
  destruct (PpmImageFile._read_magic (mkfile 0 contents)) as [magic' fp1] eqn:Er.
  cbn [fst] in Hmagic. subst magic'.
  unfold PpmImageFile._read_magic in Er.
  apply HeaderMore._read_magic_loop_inv in Er.
  destruct Er as (read & consumed & -> & _ & _ & Hrest & _ & Hshape).
  cbn [app rest] in *.
  assert (Hprefix : exists tail, contents = read ++ tail).
  { destruct Hshape as [->|(ws & -> & _)]; [eauto|].
    rewrite <- app_assoc in Hrest. eauto. }
  destruct Hprefix as (tail & ->).
  destruct n as [|[|n]]; try lia.
  apply HeaderFacts.MODES_inv in HM. unfold MODES_table in HM. cbn [In] in HM.
  repeat (destruct HM as [HM|HM]; [injection HM as <- <-; reflexivity|]).
  contradiction.
Qed.

Lemma _open_implies_accept_witness :
  _accept (firstn 16 (bytes_of "P5 640 480 255 ")) = Ok true.
Proof.
  apply (_open_implies_accept (bytes_of "P5 640 480 255 ")
           (PpmImageFile.mkopened "L" 640 480 (Some "image/x-portable-graymap"%string)
              "raw" 15 "L") 16%nat eq_refl).
  lia.
Defined.

(** ** Comments in the pixel data *)

Module CommentFacts.
Import PpmPlainDecoder DecoderFacts.

Lemma find_aux_head c x r : Py.find_aux c (x :: r) 0 = 0 -> x = c.
Proof.
  cbn [Py.find_aux]. destruct (Z.eqb_spec x c) as [E|_]; [intros _; exact E|].
  intros H. destruct (find_aux_bounds c r (0 + 1)) as [B|B]; lia.
Qed.

(** The first line end is the first LF or the first CR, whichever comes
    first. *)
Lemma line_end_aux_spec l : forall i,
  0 <= i ->
  line_end_aux l i
  = (let a := Py.find_aux 10 l i in
     let b := Py.find_aux 13 l i in
     if a =? -1 then b else if b =? -1 then a else Z.min a b).
Proof.
  induction l as [|c l IH]; intros i Hi; cbn [line_end_aux Py.find_aux]; [reflexivity|].
  unfold is_line_end. cbv zeta.
  destruct (Z.eqb_spec c 10) as [->|H10]; cbn [orb].
  - change (10 =? 13) with false. cbv iota.
    destruct (find_aux_bounds 13 l (i + 1)) as [B|B];
      destruct (Z.eqb_spec i (-1)), (Z.eqb_spec (Py.find_aux 13 l (i + 1)) (-1)); lia.
  - destruct (Z.eqb_spec c 13) as [->|H13].
    + destruct (find_aux_bounds 10 l (i + 1)) as [B|B];
        destruct (Z.eqb_spec (Py.find_aux 10 l (i + 1)) (-1)), (Z.eqb_spec i (-1)); lia.
    + apply IH. lia.
Qed.

Lemma _find_comment_end_spec block start :
  let a := Py.find block 10 start in
  let b := Py.find block 13 start in
  0 <= start ->
  (a = -1 \/ 1 <= a) -> (b = -1 \/ 1 <= b) ->
  _find_comment_end block start = first_line_end block start.
Proof.
  cbv zeta. intros Hs Ha Hb. unfold _find_comment_end, first_line_end.
  rewrite line_end_aux_spec by exact Hs. cbv zeta. fold (Py.find block 10 start) (Py.find block 13 start).
  destruct (Z.eqb_spec (Py.find block 10 start) (-1)) as [Ea|Ea];
    destruct (Z.eqb_spec (Py.find block 13 start) (-1)) as [Eb|Eb];
    destruct (Z.ltb_spec 0 (Py.find block 10 start * Py.find block 13 start)); nia.
Qed.

Lemma find_aux_found c l : forall i r,
  Py.find_aux c l i = r -> r <> -1 -> 0 <= i ->
  nth_error l (Z.to_nat (r - i)) = Some c.
Proof.
  induction l as [|x l IH]; intros i r H Hr Hi; cbn [Py.find_aux] in H; [congruence|].
  destruct (Z.eqb_spec x c) as [->|_].
  - subst r. rewrite Z.sub_diag. reflexivity.
  - destruct (find_aux_bounds c l (i + 1)) as [B|B]; [congruence|].
    specialize (IH (i + 1) r H Hr ltac:(lia)).
    replace (Z.to_nat (r - i)) with (S (Z.to_nat (r - (i + 1)))) by lia.
    exact IH.
Qed.

Lemma find_found block c start :
  0 <= start -> Py.find block c start <> -1 ->
  nth_error block (Z.to_nat (Py.find block c start)) = Some c.
Proof.
  intros Hs Hr. unfold Py.find in *.
  pose proof (find_aux_found c _ start _ eq_refl Hr Hs) as H.
  rewrite nth_error_skipn in H.
  destruct (find_aux_bounds c (skipn (Z.to_nat start) block) start) as [B|B]; [congruence|].
  replace (Z.to_nat (Py.find_aux c (skipn (Z.to_nat start) block) start))
    with (Z.to_nat start + Z.to_nat (Py.find_aux c (skipn (Z.to_nat start) block) start - start))%nat
    by lia.
  exact H.
Qed.

End CommentFacts.

(** X9: [_find_comment_end] answers -1 exactly when no LF or CR stands at
    or after [start]; an index it answers holds an LF or a CR and is not
    below [start]; and it is the lowest such index when [start] is
    positive, or when the block does not begin with a line end. *)
Theorem _find_comment_end_lowest :
  forall block start,
    0 <= start ->
    (PpmPlainDecoder._find_comment_end block start = -1
     <-> first_line_end block start = -1)
    /\ (PpmPlainDecoder._find_comment_end block start <> -1 ->
        start <= PpmPlainDecoder._find_comment_end block start
        /\ exists c,
            nth_error block (Z.to_nat (PpmPlainDecoder._find_comment_end block start))
            = Some c
            /\ is_line_end c = true)
    /\ (0 < start \/ (forall c, nth_error block 0 = Some c -> is_line_end c = false) ->
        PpmPlainDecoder._find_comment_end block start = first_line_end block start).
Proof.
  intros block start Hs.
  pose proof (DecoderFacts.find_bounds block 10 start Hs) as Ba.
  pose proof (DecoderFacts.find_bounds block 13 start Hs) as Bb.
  split; [|split].
  - unfold first_line_end. rewrite CommentFacts.line_end_aux_spec by exact Hs. cbv zeta.
    fold (Py.find block 10 start) (Py.find block 13 start).
    unfold PpmPlainDecoder._find_comment_end.
    destruct (Z.eqb_spec (Py.find block 10 start) (-1)),
             (Z.eqb_spec (Py.find block 13 start) (-1)),
             (Z.ltb_spec 0 (Py.find block 10 start * Py.find block 13 start)); nia.
  - intros Hfound. unfold PpmPlainDecoder._find_comment_end in *.
    assert (Hcase : (if 0 <? Py.find block 10 start * Py.find block 13 start
                     then Z.min (Py.find block 10 start) (Py.find block 13 start)
                     else Z.max (Py.find block 10 start) (Py.find block 13 start))
                    = Py.find block 10 start
                    \/ (if 0 <? Py.find block 10 start * Py.find block 13 start
                        then Z.min (Py.find block 10 start) (Py.find block 13 start)
                        else Z.max (Py.find block 10 start) (Py.find block 13 start))
                       = Py.find block 13 start)
      by (destruct (0 <? _); lia).
    destruct Hcase as [E|E]; rewrite E in *.
    + split; [lia|]. exists 10. split; [|reflexivity].
      apply CommentFacts.find_found; assumption.
    + split; [lia|]. exists 13. split; [|reflexivity].
      apply CommentFacts.find_found; assumption.
  - intros Hcond. apply CommentFacts._find_comment_end_spec; cbv zeta; [exact Hs| |].
    + destruct Ba as [Ba|Ba]; [left; exact Ba|].
      destruct Hcond as [Hpos|Hhead]; [right; lia|].
      destruct (Z.eq_dec (Py.find block 10 start) 0) as [E|]; [|right; lia].
      assert (start = 0) by lia. subst start. unfold Py.find in E. cbn [Z.to_nat skipn] in E.
      destruct block as [|x r]; [discriminate E|].
      apply CommentFacts.find_aux_head in E. subst x.
      specialize (Hhead 10 eq_refl). discriminate Hhead.
    + destruct Bb as [Bb|Bb]; [left; exact Bb|].
      destruct Hcond as [Hpos|Hhead]; [right; lia|].
      destruct (Z.eq_dec (Py.find block 13 start) 0) as [E|]; [|right; lia].
      assert (start = 0) by lia. subst start. unfold Py.find in E. cbn [Z.to_nat skipn] in E.
      destruct block as [|x r]; [discriminate E|].
      apply CommentFacts.find_aux_head in E. subst x.
      specialize (Hhead 13 eq_refl). discriminate Hhead.
Qed.

Lemma _find_comment_end_lowest_witness :
  PpmPlainDecoder._find_comment_end (bytes_of "1 #c" ++ [13; 10] ++ bytes_of "2 ") 2
  = first_line_end (bytes_of "1 #c" ++ [13; 10] ++ bytes_of "2 ") 2.
Proof.
  apply (_find_comment_end_lowest (bytes_of "1 #c" ++ [13; 10] ++ bytes_of "2 ") 2); lia.
Defined.

Module StripFacts.
Import PpmPlainDecoder DecoderFacts.

Lemma find_aux_split c l : forall i,
  Py.find_aux c l i <> -1 ->
  exists pre post,
    l = pre ++ c :: post /\ ~ In c pre
    /\ Py.find_aux c l i = i + Z.of_nat (length pre).
Proof.
  induction l as [|x l IH]; intros i H; cbn [Py.find_aux] in *; [contradiction|].
  destruct (Z.eqb_spec x c) as [->|Hx].
  - exists [], l. cbn. repeat split; [tauto|lia].
  - destruct (IH (i + 1) H) as (pre & post & -> & Hpre & E).
    exists (x :: pre), post. cbn [app length In]. repeat split.
    + intros [F|F]; [contradiction|exact (Hpre F)].
    + rewrite E. lia.
Qed.

Lemma find_aux_none c l : forall i, 0 <= i -> Py.find_aux c l i = -1 -> ~ In c l.
Proof.
  induction l as [|x l IH]; intros i Hi H; cbn [Py.find_aux In] in *; [tauto|].
  destruct (Z.eqb_spec x c) as [->|Hx]; [lia|].
  intros [F|F]; [contradiction|]. exact (IH (i + 1) ltac:(lia) H F).
Qed.

Lemma line_end_aux_split l : forall i,
  line_end_aux l i <> -1 ->
  exists comment eol tail,
    l = comment ++ eol :: tail
    /\ forallb (fun c => negb (is_line_end c)) comment = true
    /\ is_line_end eol = true
    /\ line_end_aux l i = i + Z.of_nat (length comment).
Proof.
  induction l as [|x l IH]; intros i H; cbn [line_end_aux] in *; [contradiction|].
  destruct (is_line_end x) eqn:Ex.
  - exists [], x, l. cbn. repeat split; [exact Ex|lia].
  - destruct (IH (i + 1) H) as (comment & eol & tail & -> & Hc & He & E).
    exists (x :: comment), eol, tail. cbn [app length forallb]. rewrite Ex, Hc.
    repeat split; [exact He|]. rewrite E. lia.
Qed.

Lemma line_end_aux_none l : forall i,
  0 <= i -> line_end_aux l i = -1 ->
  forallb (fun c => negb (is_line_end c)) l = true.
Proof.
  induction l as [|x l IH]; intros i Hi H; cbn [line_end_aux forallb] in *; [reflexivity|].
  destruct (is_line_end x); [lia|]. cbn [negb andb]. apply (IH (i + 1)); [lia|exact H].
Qed.

Lemma outside_plain_app pre : forall block,
  ~ In 35 pre ->
  outside_comments false (pre ++ block)
  = (pre ++ fst (outside_comments false block), snd (outside_comments false block)).
Proof.
  induction pre as [|c pre IH]; intros block Hpre; cbn [app outside_comments].
  - destruct (outside_comments false block). reflexivity.
  - destruct (Z.eqb_spec c 35) as [->|_]; [exfalso; apply Hpre; left; reflexivity|].
    rewrite IH by (intros F; apply Hpre; right; exact F). reflexivity.
Qed.

Lemma outside_open comment :
  forallb (fun c => negb (is_line_end c)) comment = true ->
  outside_comments true comment = ([], true).
Proof.
  induction comment as [|c comment IH]; cbn [forallb outside_comments]; [reflexivity|].
  intros H. apply andb_prop in H. destruct H as [Hc H].
  apply negb_true_iff in Hc. rewrite Hc. apply IH. exact H.
Qed.

Lemma outside_closed comment : forall eol tail,
  forallb (fun c => negb (is_line_end c)) comment = true ->
  is_line_end eol = true ->
  outside_comments true (comment ++ eol :: tail) = outside_comments false tail.
Proof.
  induction comment as [|c comment IH]; intros eol tail H He; cbn [app outside_comments].
  - rewrite He. reflexivity.
  - cbn [forallb] in H. apply andb_prop in H. destruct H as [Hc H].
    apply negb_true_iff in Hc. rewrite Hc. apply IH; assumption.
Qed.

Lemma skipn_length_app (pre post : bytes) :
  skipn (length pre) (pre ++ post) = post.
Proof. induction pre; cbn [length skipn app]; auto. Qed.

Lemma firstn_length_app (pre post : bytes) :
  firstn (length pre) (pre ++ post) = pre.
Proof. induction pre; cbn [length firstn app]; congruence. Qed.

(** The loop of [_ignore_comments] computes what one pass over the block
    does. *)
Lemma _ignore_comments_loop_outside fuel : forall block,
  (length block < fuel)%nat ->
  _ignore_comments_loop fuel block = outside_comments false block.
Proof.
  induction fuel as [|fuel IH]; intros block Hfuel; [lia|].
  cbn [_ignore_comments_loop].
  replace (Py.find block 35 0) with (Py.find_aux 35 block 0) by reflexivity.
  destruct (Z.eqb_spec (Py.find_aux 35 block 0) (-1)) as [Enone|Efound].
  - apply find_aux_none in Enone; [|lia].
    rewrite <- (app_nil_r block) at 2. rewrite outside_plain_app by exact Enone.
    cbn. rewrite app_nil_r. reflexivity.
  - destruct (find_aux_split 35 block 0 Efound) as (pre & post & -> & Hpre & ->).
    cbn [Z.add].
    assert (Hskip : skipn (Z.to_nat (Z.of_nat (length pre))) (pre ++ 35 :: post) = 35 :: post)
      by (rewrite Nat2Z.id; apply skipn_length_app).
    assert (Hend : _find_comment_end (pre ++ 35 :: post) (Z.of_nat (length pre))
                   = line_end_aux post (Z.of_nat (length pre) + 1)).
    { rewrite CommentFacts._find_comment_end_spec.
      - unfold first_line_end. rewrite Hskip. reflexivity.
      - lia.
      - unfold Py.find. rewrite Hskip. cbn [Py.find_aux]. change (35 =? 10) with false.
        cbv iota. destruct (find_aux_bounds 10 post (Z.of_nat (length pre) + 1)); lia.
      - unfold Py.find. rewrite Hskip. cbn [Py.find_aux]. change (35 =? 13) with false.
        cbv iota. destruct (find_aux_bounds 13 post (Z.of_nat (length pre) + 1)); lia. }
    rewrite Hend. rewrite outside_plain_app by exact Hpre.
    cbn [outside_comments]. change (35 =? 35) with true. cbv iota.
    unfold Py.upto, Py.from. rewrite Nat2Z.id, firstn_length_app.
    destruct (Z.eqb_spec (line_end_aux post (Z.of_nat (length pre) + 1)) (-1)) as [Eopen|Eclosed];
      cbn [negb].
    + apply line_end_aux_none in Eopen; [|lia]. rewrite outside_open by exact Eopen.
      cbn. rewrite app_nil_r. reflexivity.
    + destruct (line_end_aux_split post _ Eclosed) as (comment & eol & tail & -> & Hc & He & ->).
      rewrite outside_closed by assumption.
      replace (Z.to_nat (Z.of_nat (length pre) + 1 + Z.of_nat (length comment) + 1))
        with (length (pre ++ 35 :: comment ++ [eol])).
      2:{ rewrite length_app. cbn [length]. rewrite length_app. cbn [length]. lia. }
      replace (pre ++ 35 :: comment ++ eol :: tail)
        with ((pre ++ 35 :: comment ++ [eol]) ++ tail) at 1.
      2:{ rewrite <- app_assoc. cbn [app]. rewrite <- app_assoc. reflexivity. }
      rewrite skipn_length_app.
      rewrite IH.
      * rewrite outside_plain_app by exact Hpre. reflexivity.
      * repeat (rewrite length_app in *; cbn [length] in * ). lia.
Qed.

Lemma outside_no_hash block : forall in_comment,
  ~ In 35 (fst (outside_comments in_comment block)).
Proof.
  induction block as [|c block IH]; intros in_comment; cbn [outside_comments];
    [destruct in_comment; cbn; tauto|].
  destruct in_comment; [destruct (is_line_end c); apply IH|].
  destruct (Z.eqb_spec c 35) as [|Hc]; [apply IH|].
  specialize (IH false). destruct (outside_comments false block). cbn [fst In] in *.
  intros [F|F]; [congruence|exact (IH F)].
Qed.

End StripFacts.

(** X10: [_ignore_comments] deletes exactly the comments of the block, each
    from its [#] through the next LF or CR, and raises the flag exactly
    when the block ends inside a comment; no [#] is left in what it
    returns. *)
Theorem _ignore_comments_outside_comments :
  forall block,
    PpmPlainDecoder._ignore_comments block = outside_comments false block
    /\ ~ In 35 (fst (PpmPlainDecoder._ignore_comments block)).
Proof.
  intros block.
  assert (H : PpmPlainDecoder._ignore_comments block = outside_comments false block)
    by (apply StripFacts._ignore_comments_loop_outside; lia).
  split; [exact H|]. rewrite H. apply StripFacts.outside_no_hash.
Qed.

(** ** Streams cut outside comments and tokens *)

Module StreamFacts.
Import PpmPlainDecoder DecoderFacts.

(** The [for] loop over the tokens of two blocks, run one block after the
    other. *)
Lemma decode_tokens_app maxval bps total tokens : forall more d,
  length d <> total ->
  decode_tokens maxval bps total d (tokens ++ more)
  = match decode_tokens maxval bps total d tokens with
    | Raise e => Raise e
    | Ok d1 =>
        if (length d1 =? total)%nat then Ok d1
        else decode_tokens maxval bps total d1 more
    end.
Proof.
  induction tokens as [|token tokens IH]; intros more d Hne; cbn [app decode_tokens].
  - destruct (Nat.eqb_spec (length d) total); [contradiction|reflexivity].
  - destruct (decode_token maxval bps d token) as [d1|e]; cbn [bind]; [|reflexivity].
    destruct (Nat.eqb_spec (length d1) total) as [E|Hne1].
    + rewrite E, Nat.eqb_refl. reflexivity.
    + apply IH. exact Hne1.
Qed.

Lemma outside_comments_app a : forall b in_comment,
  outside_comments in_comment (a ++ b)
  = (fst (outside_comments in_comment a)
     ++ fst (outside_comments (snd (outside_comments in_comment a)) b),
     snd (outside_comments (snd (outside_comments in_comment a)) b)).
Proof.
  induction a as [|c a IH]; intros b in_comment; cbn [app outside_comments].
  - cbn. destruct (outside_comments in_comment b). reflexivity.
  - destruct in_comment; [destruct (is_line_end c); apply IH|].
    destruct (c =? 35); [apply IH|].
    rewrite IH. destruct (outside_comments false a) as [kept open]. reflexivity.
Qed.

Lemma ends_with_space_cons c a :
  a <> [] -> Py.ends_with_space (c :: a) = Py.ends_with_space a.
Proof.
  intros Ha. unfold Py.ends_with_space. cbn [rev].
  destruct (rev a) as [|x r] eqn:E; [|reflexivity].
  apply (f_equal (@length Z)) in E. rewrite length_rev in E.
  destruct a; [contradiction|discriminate E].
Qed.

Lemma ends_with_space_app a b :
  b <> [] -> Py.ends_with_space (a ++ b) = Py.ends_with_space b.
Proof.
  intros Hb. induction a as [|c a IH]; [reflexivity|].
  cbn [app]. rewrite ends_with_space_cons; [exact IH|].
  destruct a; [exact Hb|discriminate].
Qed.

Lemma split_aux_app a : forall b cur,
  Py.ends_with_space a = true ->
  Py.split_aux cur (a ++ b) = Py.split_aux cur a ++ Py.split_aux [] b.
Proof.
  induction a as [|c a IH]; intros b cur Ha; [discriminate Ha|].
  destruct (list_eq_dec Z.eq_dec a []) as [->|Hne].
  - unfold Py.ends_with_space in Ha. cbn in Ha. cbn [app Py.split_aux]. rewrite Ha.
    destruct cur; reflexivity.
  - rewrite ends_with_space_cons in Ha by exact Hne.
    cbn [app Py.split_aux].
    destruct (Py.is_space c); [destruct cur|]; rewrite IH by exact Ha; reflexivity.
Qed.

Lemma split_app_clean a b :
  ends_clean a -> Py.split (a ++ b) = Py.split a ++ Py.split b.
Proof.
  intros [->|Ha]; [reflexivity|]. unfold Py.split. apply split_aux_app. exact Ha.
Qed.

Lemma ends_clean_app a b : ends_clean a -> ends_clean b -> ends_clean (a ++ b).
Proof.
  intros Ha [->|Hb]; [rewrite app_nil_r; exact Ha|].
  right. rewrite ends_with_space_app; [exact Hb|]. intros ->. discriminate Hb.
Qed.

Lemma aligned_block_inv block :
  aligned_block block = true ->
  block <> []
  /\ snd (outside_comments false block) = false
  /\ ends_clean (fst (outside_comments false block)).
Proof.
  unfold aligned_block. destruct block as [|c block]; [discriminate|].
  destruct (outside_comments false (c :: block)) as [kept open]. cbn [fst snd].
  intros H. apply andb_prop in H. destruct H as [Ho Hk].
  apply negb_true_iff in Ho. split; [discriminate|]. split; [exact Ho|].
  destruct kept; [left; reflexivity|right; exact Hk].
Qed.

(** The blocks of an aligned stream, put end to end. *)
Lemma aligned_concat fd :
  forallb aligned_block fd = true ->
  snd (outside_comments false (concat fd)) = false
  /\ ends_clean (fst (outside_comments false (concat fd)))
  /\ tokens_of (concat fd) = concat (map tokens_of fd).
Proof.
  induction fd as [|block fd IH]; intros H; cbn [forallb concat map] in *.
  - split; [reflexivity|]. split; [left; reflexivity|reflexivity].
  - apply andb_prop in H. destruct H as [Hb H].
    apply aligned_block_inv in Hb. destruct Hb as (_ & Hclosed & Hclean).
    destruct (IH H) as (IHclosed & IHclean & IHtokens).
    unfold tokens_of in *. rewrite outside_comments_app, Hclosed. cbn [fst snd].
    split; [exact IHclosed|]. split; [apply ends_clean_app; assumption|].
    rewrite split_app_clean by exact Hclean. rewrite IHtokens. reflexivity.
Qed.

Section Aligned.

Variables (xsize ysize channels : nat) (depth : Z).
Let bps := bytes_per_sample_of depth.
Let total := total_bytes_of xsize ysize channels depth.
Let maxval := maxval_of depth.

(** On an aligned block a pass runs the [for] loop over the tokens of the
    block and leaves neither an open comment nor a pending token. *)
Lemma _decode_blocks_body_aligned d block fd :
  length d <> total -> aligned_block block = true ->
  _decode_blocks_body xsize ysize channels depth (mkblocks d false None (block :: fd))
  = match decode_tokens maxval bps total d (tokens_of block) with
    | Raise e => Fail e
    | Ok d1 => Next (mkblocks d1 false None fd)
    end.
Proof.
  intros Hne Hblock. apply aligned_block_inv in Hblock.
  destruct Hblock as (Hnonempty & Hclosed & Hclean).
  unfold _decode_blocks_body. fold total bps maxval.
  cbn [decoded_data comment_spans half_token PpmPlainDecoder.fd _read_block truthy].
  destruct (Nat.eqb_spec (length d) total); [contradiction|].
  destruct block as [|c block]; [contradiction|].
  replace (_ignore_comments (c :: block)) with (outside_comments false (c :: block))
    by (symmetry; apply StripFacts._ignore_comments_loop_outside; lia).
  unfold tokens_of.
  destruct (outside_comments false (c :: block)) as [kept open]. cbn [fst snd] in *.
  subst open.
  destruct Hclean as [->|Hspace].
  - reflexivity.
  - destruct kept as [|k kept]; [discriminate Hspace|]. rewrite Hspace. reflexivity.
Qed.

Lemma _decode_blocks_loop_aligned fd : forall d fuel,
  (length fd < fuel)%nat -> forallb aligned_block fd = true ->
  _decode_blocks_loop fuel xsize ysize channels depth (mkblocks d false None fd)
  = Some (if (length d =? total)%nat then Ok d
          else decode_tokens maxval bps total d (concat (map tokens_of fd))).
Proof.
  induction fd as [|block fd IH]; intros d fuel Hfuel Hfd;
    (destruct fuel as [|fuel]; [cbn in Hfuel; lia|]); cbn [_decode_blocks_loop].
  - unfold _decode_blocks_body. fold total.
    cbn [decoded_data half_token PpmPlainDecoder.fd _read_block truthy concat map
         decode_tokens].
    destruct (length d =? total)%nat; reflexivity.
  - cbn [forallb] in Hfd. apply andb_prop in Hfd. destruct Hfd as [Hblock Hfd].
    destruct (Nat.eqb_spec (length d) total) as [Hfull|Hne].
    + rewrite DecoderFacts._decode_blocks_body_full by exact Hfull. reflexivity.
    + rewrite _decode_blocks_body_aligned by assumption.
      cbn [concat map]. rewrite decode_tokens_app by exact Hne.
      destruct (decode_tokens maxval bps total d (tokens_of block)) as [d1|e];
        [|reflexivity].
      apply IH; [cbn [length] in Hfuel; lia|exact Hfd].
Qed.

End Aligned.

End StreamFacts.

(** X11: when every block is cut outside comments and tokens (no comment is
    left open at its end and whitespace ends what is left of it),
    [_decode_blocks] runs its [for] loop over the tokens of the stream in
    order, and the result does not depend on where the stream was cut:
    it is what the same bytes give as one block. *)
Theorem _decode_blocks_aligned_blocks :
  forall xsize ysize channels depth fd,
    forallb aligned_block fd = true ->
    PpmPlainDecoder._decode_blocks xsize ysize channels depth fd
    = Some (if (PpmPlainDecoder.total_bytes_of xsize ysize channels depth =? 0)%nat
            then Ok []
            else PpmPlainDecoder.decode_tokens
                   (PpmPlainDecoder.maxval_of depth)
                   (PpmPlainDecoder.bytes_per_sample_of depth)
                   (PpmPlainDecoder.total_bytes_of xsize ysize channels depth)
                   [] (tokens_of (concat fd)))
    /\ PpmPlainDecoder._decode_blocks xsize ysize channels depth fd
       = PpmPlainDecoder._decode_blocks xsize ysize channels depth [concat fd].
Proof.
  intros xsize ysize channels depth fd Hfd.
  destruct (StreamFacts.aligned_concat fd Hfd) as (Hclosed & Hclean & Htokens).
  assert (Hmany :
            PpmPlainDecoder._decode_blocks xsize ysize channels depth fd
            = Some (if (PpmPlainDecoder.total_bytes_of xsize ysize channels depth =? 0)%nat
                    then Ok []
                    else PpmPlainDecoder.decode_tokens
                           (PpmPlainDecoder.maxval_of depth)
                           (PpmPlainDecoder.bytes_per_sample_of depth)
                           (PpmPlainDecoder.total_bytes_of xsize ysize channels depth)
                           [] (tokens_of (concat fd)))).
  { unfold PpmPlainDecoder._decode_blocks.
    rewrite StreamFacts._decode_blocks_loop_aligned by (assumption || lia).
    rewrite Htokens. cbn [length]. rewrite Nat.eqb_sym. reflexivity. }
  split; [exact Hmany|]. rewrite Hmany.
  destruct (concat fd) as [|c block] eqn:E.
  - assert (Hbody :
              PpmPlainDecoder._decode_blocks_body xsize ysize channels depth
                (PpmPlainDecoder.mkblocks [] false None [[]])
              = Done []).
    { unfold PpmPlainDecoder._decode_blocks_body.
      cbn [PpmPlainDecoder.decoded_data PpmPlainDecoder.half_token PpmPlainDecoder.fd
           PpmPlainDecoder._read_block PpmPlainDecoder.truthy length].
      destruct (0 =? PpmPlainDecoder.total_bytes_of xsize ysize channels depth)%nat;
        reflexivity. }
    unfold PpmPlainDecoder._decode_blocks. rewrite Nat.add_comm.
    cbn [Nat.add]. unfold PpmPlainDecoder._decode_blocks_loop at 1.
    rewrite Hbody.
    destruct (PpmPlainDecoder.total_bytes_of xsize ysize channels depth =? 0)%nat;
      reflexivity.
  - assert (Hone : forallb aligned_block [c :: block] = true).
    { cbn [forallb]. rewrite andb_true_r. unfold aligned_block.
      destruct (outside_comments false (c :: block)) as [kept open]. cbn [fst snd] in *.
      subst open. destruct Hclean as [->|Hk]; [reflexivity|].
      destruct kept; [reflexivity|exact Hk]. }
    unfold PpmPlainDecoder._decode_blocks.
    rewrite StreamFacts._decode_blocks_loop_aligned by (assumption || (cbn [length]; lia)).
    cbn [length map concat]. rewrite app_nil_r, Nat.eqb_sym. reflexivity.
Qed.

Lemma _decode_blocks_aligned_blocks_witness :
  PpmPlainDecoder._decode_blocks 3 1 1 8
    [bytes_of "1 #one" ++ [10]; bytes_of "2 " ++ [10]; bytes_of "#three" ++ [13] ++ bytes_of "3 "]
  = PpmPlainDecoder._decode_blocks 3 1 1 8
      [concat [bytes_of "1 #one" ++ [10]; bytes_of "2 " ++ [10];
               bytes_of "#three" ++ [13] ++ bytes_of "3 "]].
Proof.
  apply (proj2 (_decode_blocks_aligned_blocks 3 1 1 8
                  [bytes_of "1 #one" ++ [10]; bytes_of "2 " ++ [10];
                   bytes_of "#three" ++ [13] ++ bytes_of "3 "] eq_refl)).
Defined.

Module BitStreamFacts.
Import PpmPlainDecoder DecoderFacts.

Lemma closed_block_inv block :
  closed_block block = true ->
  block <> [] /\ snd (outside_comments false block) = false.
Proof.
  unfold closed_block. destruct block as [|c block]; [discriminate|].
  intros H. apply negb_true_iff in H. split; [discriminate|exact H].
Qed.

Lemma closed_concat fd :
  forallb closed_block fd = true ->
  snd (outside_comments false (concat fd)) = false
  /\ digits_of (concat fd) = concat (map digits_of fd).
Proof.
  induction fd as [|block fd IH]; intros H; cbn [forallb concat map] in *.
  - split; reflexivity.
  - apply andb_prop in H. destruct H as [Hb H].
    apply closed_block_inv in Hb. destruct Hb as [_ Hclosed].
    destruct (IH H) as [IHclosed IHdigits].
    unfold digits_of in *. rewrite StreamFacts.outside_comments_app, Hclosed. cbn [fst snd].
    split; [exact IHclosed|]. rewrite filter_app, IHdigits. reflexivity.
Qed.

Lemma _decode_bitonal_body_closed total d block fd :
  length d <> total -> closed_block block = true ->
  _decode_bitonal_body total (mkbitonal d false (block :: fd))
  = match List.find (fun c => negb (is_bit c)) (digits_of block) with
    | Some c => Fail (InvalidToken [c])
    | None => Next (mkbitonal (firstn total (d ++ digits_of block)) false fd)
    end.
Proof.
  intros Hne Hblock. apply closed_block_inv in Hblock. destruct Hblock as [Hnonempty Hclosed].
  unfold _decode_bitonal_body.
  cbn [bt_decoded_data bt_comment_spans bt_fd _read_block].
  destruct (Nat.eqb_spec (length d) total); [contradiction|].
  destruct block as [|c block]; [contradiction|].
  replace (_ignore_comments (c :: block)) with (outside_comments false (c :: block))
    by (symmetry; apply StripFacts._ignore_comments_loop_outside; lia).
  unfold digits_of.
  destruct (outside_comments false (c :: block)) as [kept open]. cbn [fst snd] in *.
  subst open. rewrite join_split. reflexivity.
Qed.

Lemma find_bad_bits digits :
  forallb is_bit digits = true -> List.find (fun c => negb (is_bit c)) digits = None.
Proof.
  induction digits as [|c digits IH]; cbn [forallb List.find]; [reflexivity|].
  intros H. apply andb_prop in H. destruct H as [-> H]. cbn [negb]. apply IH. exact H.
Qed.

Lemma _decode_bitonal_loop_closed total fd : forall d fuel,
  (length fd < fuel)%nat -> (length d <= total)%nat ->
  forallb (fun block => closed_block block && forallb is_bit (digits_of block)) fd = true ->
  _decode_bitonal_loop fuel total (mkbitonal d false fd)
  = Some (Ok (map invert (firstn total (d ++ concat (map digits_of fd))))).
Proof.
  induction fd as [|block fd IH]; intros d fuel Hfuel Hd Hfd;
    (destruct fuel as [|fuel]; [cbn in Hfuel; lia|]); cbn [_decode_bitonal_loop].
  - unfold _decode_bitonal_body. cbn [bt_decoded_data bt_fd _read_block map concat].
    rewrite app_nil_r, firstn_all2 by exact Hd.
    destruct (length d =? total)%nat; reflexivity.
  - cbn [forallb] in Hfd. apply andb_prop in Hfd. destruct Hfd as [Hblock Hfd].
    apply andb_prop in Hblock. destruct Hblock as [Hclosed Hbits].
    destruct (Nat.eq_dec (length d) total) as [Hfull|Hne].
    + rewrite _decode_bitonal_body_full by exact Hfull. cbn [bt_decoded_data].
      rewrite firstn_full by exact Hfull. reflexivity.
    + rewrite _decode_bitonal_body_closed by assumption.
      rewrite find_bad_bits by exact Hbits.
      rewrite IH; [|cbn [length] in Hfuel; lia|rewrite length_firstn; lia|exact Hfd].
      rewrite firstn_firstn_app. cbn [map concat]. rewrite app_assoc. reflexivity.
Qed.

End BitStreamFacts.

(** X12: when every block of a bitmap closes the comments it opens and
    holds only 0s, 1s and whitespace outside them, [_decode_bitonal]
    returns the first [xsize * ysize] digits of the stream outside its
    comments, 0 as 0xFF and 1 as 0x00 (all of them when there are fewer),
    and the result is what the same bytes give as one block. *)
Theorem _decode_bitonal_closed_blocks :
  forall xsize ysize fd,
    forallb (fun block => closed_block block && forallb is_bit (digits_of block)) fd = true ->
    PpmPlainDecoder._decode_bitonal xsize ysize fd
    = Some (Ok (map PpmPlainDecoder.invert
                    (firstn (xsize * ysize) (digits_of (concat fd)))))
    /\ PpmPlainDecoder._decode_bitonal xsize ysize fd
       = PpmPlainDecoder._decode_bitonal xsize ysize [concat fd].
Proof.
  intros xsize ysize fd Hfd.
  assert (Hclosed : forallb closed_block fd = true).
  { rewrite forallb_forall in *. intros block Hin. specialize (Hfd block Hin).
    apply andb_prop in Hfd. apply Hfd. }
  destruct (BitStreamFacts.closed_concat fd Hclosed) as [Hopen Hdigits].
  assert (Hmany :
            PpmPlainDecoder._decode_bitonal xsize ysize fd
            = Some (Ok (map PpmPlainDecoder.invert
                            (firstn (xsize * ysize) (digits_of (concat fd)))))).
  { unfold PpmPlainDecoder._decode_bitonal.
    rewrite BitStreamFacts._decode_bitonal_loop_closed by (assumption || (cbn; lia)).
    rewrite Hdigits. reflexivity. }
  split; [exact Hmany|]. rewrite Hmany.
  destruct (concat fd) as [|c block] eqn:E.
  - unfold PpmPlainDecoder._decode_bitonal. cbn [length PpmPlainDecoder._decode_bitonal_loop].
    unfold PpmPlainDecoder._decode_bitonal_body.
    cbn [PpmPlainDecoder.bt_decoded_data PpmPlainDecoder.bt_fd PpmPlainDecoder._read_block length].
    destruct (0 =? xsize * ysize)%nat; cbn; rewrite firstn_nil; reflexivity.
  - assert (Hone : forallb (fun block => closed_block block && forallb is_bit (digits_of block))
                           [c :: block] = true).
    { cbn [forallb]. rewrite andb_true_r. apply andb_true_intro. split.
      - unfold closed_block. rewrite Hopen. reflexivity.
      - rewrite Hdigits. rewrite forallb_forall. intros x Hx.
        apply in_concat in Hx. destruct Hx as (digits & Hin & Hx).
        apply in_map_iff in Hin. destruct Hin as (b & <- & Hb).
        rewrite forallb_forall in Hfd. specialize (Hfd b Hb).
        apply andb_prop in Hfd. destruct Hfd as [_ Hbits].
        rewrite forallb_forall in Hbits. apply Hbits. exact Hx. }
    unfold PpmPlainDecoder._decode_bitonal.
    rewrite BitStreamFacts._decode_bitonal_loop_closed by (assumption || (cbn; lia)).
    cbn [map concat app]. rewrite app_nil_r. reflexivity.
Qed.

Lemma _decode_bitonal_closed_blocks_witness :
  PpmPlainDecoder._decode_bitonal 2 2
    [bytes_of "01 # first row" ++ [10]; bytes_of "1# 0 1" ++ [13] ++ bytes_of "0"]
  = Some (Ok [255; 0; 0; 255]).
Proof.
  apply (proj1 (_decode_bitonal_closed_blocks 2 2
                  [bytes_of "01 # first row" ++ [10]; bytes_of "1# 0 1" ++ [13] ++ bytes_of "0"]
                  eq_refl)).
Defined.

Module BitRun.
Import PpmPlainDecoder DecoderFacts.

(** One pass of [_decode_bitonal] on a block read outside a comment. *)
Lemma _decode_bitonal_body_block total d block fd :
  length d <> total -> block <> [] ->
  _decode_bitonal_body total (mkbitonal d false (block :: fd))
  = match first_other block with
    | Some c => Fail (InvalidToken [c])
    | None =>
        Next (mkbitonal (firstn total (d ++ digits_of block))
                        (snd (outside_comments false block)) fd)
    end.
Proof.
  intros Hne Hblock. unfold _decode_bitonal_body, first_other.
  cbn [bt_decoded_data bt_comment_spans bt_fd _read_block].
  destruct (Nat.eqb_spec (length d) total); [contradiction|].
  destruct block as [|c block]; [contradiction|].
  replace (_ignore_comments (c :: block)) with (outside_comments false (c :: block))
    by (symmetry; apply StripFacts._ignore_comments_loop_outside; lia).
  unfold digits_of.
  destruct (outside_comments false (c :: block)) as [kept open]. cbn [fst snd].
  rewrite join_split. reflexivity.
Qed.

Lemma _decode_bitonal_loop_other total fd : forall d fuel block more c,
  (length fd < fuel)%nat ->
  forallb (fun block => closed_block block && forallb is_bit (digits_of block)) fd = true ->
  (length (d ++ concat (map digits_of fd)) < total)%nat ->
  block <> [] -> first_other block = Some c ->
  _decode_bitonal_loop fuel total (mkbitonal d false (fd ++ block :: more))
  = Some (Raise (InvalidToken [c])).
Proof.
  induction fd as [|b fd IH]; intros d fuel block more c Hfuel Hfd Hshort Hblock Hc;
    (destruct fuel as [|fuel]; [cbn in Hfuel; lia|]); cbn [app _decode_bitonal_loop].
  - cbn [map concat] in Hshort. rewrite app_nil_r in Hshort.
    rewrite _decode_bitonal_body_block by (lia || assumption). rewrite Hc. reflexivity.
  - cbn [forallb] in Hfd. apply andb_prop in Hfd. destruct Hfd as [Hb Hfd].
    apply andb_prop in Hb. destruct Hb as [Hclosed Hbits].
    cbn [map concat] in Hshort. rewrite app_assoc in Hshort.
    assert (Hd : (length (d ++ digits_of b) < total)%nat)
      by (rewrite length_app in Hshort; lia).
    rewrite BitStreamFacts._decode_bitonal_body_closed;
      [|rewrite length_app in Hd; lia|exact Hclosed].
    rewrite BitStreamFacts.find_bad_bits by exact Hbits.
    rewrite firstn_all2 by lia.
    apply IH; [cbn [length] in Hfuel; lia|exact Hfd|exact Hshort|exact Hblock|exact Hc].
Qed.

Lemma digits_of_run digits ws :
  forallb is_bit digits = true -> Py.is_space ws = true ->
  closed_block (digits ++ [ws]) = true /\ digits_of (digits ++ [ws]) = digits.
Proof.
  intros Hbits Hws.
  assert (Hplain : ~ In 35 (digits ++ [ws])).
  { intros Hin. apply in_app_or in Hin. destruct Hin as [Hin|[E|[]]]; [|subst ws; discriminate Hws].
    rewrite forallb_forall in Hbits. specialize (Hbits 35 Hin). discriminate Hbits. }
  assert (Hout : outside_comments false (digits ++ [ws]) = (digits ++ [ws], false)).
  { rewrite <- (app_nil_r (digits ++ [ws])) at 1.
    rewrite StripFacts.outside_plain_app by exact Hplain.
    cbn [outside_comments fst snd]. rewrite app_nil_r. reflexivity. }
  split.
  - unfold closed_block. rewrite Hout.
    destruct (digits ++ [ws]) eqn:E; [destruct digits; discriminate E|reflexivity].
  - unfold digits_of. rewrite Hout. cbn [fst]. rewrite filter_app. cbn [filter].
    unfold not_space at 2. rewrite Hws. cbn [negb]. rewrite app_nil_r.
    clear Hplain Hout. induction digits as [|c digits IH]; [reflexivity|].
    cbn [forallb] in Hbits. apply andb_prop in Hbits. destruct Hbits as [Hc Hbits].
    cbn [filter].
    replace (not_space c) with true; [rewrite IH by exact Hbits; reflexivity|].
    unfold is_bit in Hc. apply orb_prop in Hc.
    destruct Hc as [Hc|Hc]; apply Z.eqb_eq in Hc; subst c; reflexivity.
Qed.

(** A run of digits of any length, ended by whitespace, is decoded. *)
Lemma _decode_bitonal_run xsize ysize digits ws :
  forallb is_bit digits = true -> Py.is_space ws = true ->
  _decode_bitonal xsize ysize [digits ++ [ws]]
  = Some (Ok (map invert (firstn (xsize * ysize) digits))).
Proof.
  intros Hbits Hws. destruct (digits_of_run digits ws Hbits Hws) as [Hclosed Hdigits].
  unfold _decode_bitonal.
  rewrite BitStreamFacts._decode_bitonal_loop_closed;
    [|cbn [length]; lia|cbn [length]; lia
     |cbn [forallb]; rewrite Hclosed, Hdigits, Hbits; reflexivity].
  cbn [map concat app]. rewrite app_nil_r, Hdigits. reflexivity.
Qed.

End BitRun.

(** X18: whatever [_decode_bitonal] returns holds only the bytes 0xFF
    and 0x00; and when the blocks read so far close the comments they
    open, hold only 0s, 1s and whitespace outside them and do not
    complete the image, the first byte of the next block that is outside
    comments and whitespace and is neither 0 nor 1 raises "Invalid token
    for this mode", and the error names that byte. *)
Theorem _decode_bitonal_other_byte :
  (forall xsize ysize fd out,
      PpmPlainDecoder._decode_bitonal xsize ysize fd = Some (Ok out) ->
      Forall (fun c => c = 255 \/ c = 0) out)
  /\ (forall xsize ysize fd block more c,
         forallb (fun b => closed_block b && forallb is_bit (digits_of b)) fd = true ->
         (length (digits_of (concat fd)) < xsize * ysize)%nat ->
         block <> [] -> first_other block = Some c ->
         PpmPlainDecoder._decode_bitonal xsize ysize (fd ++ block :: more)
         = Some (Raise (InvalidToken [c]))).
Proof.
  split.
  - intros xsize ysize fd out H. unfold PpmPlainDecoder._decode_bitonal in H.
    apply DecoderFacts._decode_bitonal_loop_bits in H; [|split; [reflexivity|cbn; lia]].
    destruct H as (d & -> & Hd & _). rewrite Forall_forall. intros c Hc.
    apply in_map_iff in Hc. destruct Hc as (b & <- & Hb).
    rewrite forallb_forall in Hd. specialize (Hd b Hb).
    unfold is_bit in Hd. apply orb_prop in Hd.
    destruct Hd as [Hd|Hd]; apply Z.eqb_eq in Hd; subst b; [left|right]; reflexivity.
  - intros xsize ysize fd block more c Hfd Hshort Hblock Hc.
    assert (Hclosed : forallb closed_block fd = true).
    { rewrite forallb_forall in *. intros b Hin. specialize (Hfd b Hin).
      apply andb_prop in Hfd. apply Hfd. }
    destruct (BitStreamFacts.closed_concat fd Hclosed) as [_ Hdigits].
    unfold PpmPlainDecoder._decode_bitonal.
    apply BitRun._decode_bitonal_loop_other; try assumption.
    + rewrite length_app. cbn [length]. lia.
    + cbn [app]. rewrite <- Hdigits. exact Hshort.
Qed.

Lemma _decode_bitonal_other_byte_witness :
  PpmPlainDecoder._decode_bitonal 2 2
    [bytes_of "01 # first row" ++ [10]; bytes_of "1# 0 1" ++ [13] ++ bytes_of "2"]
  = Some (Raise (InvalidToken [50])).
Proof.
  apply (proj2 _decode_bitonal_other_byte 2%nat 2%nat
           [bytes_of "01 # first row" ++ [10]]
           (bytes_of "1# 0 1" ++ [13] ++ bytes_of "2") [] 50);
    [reflexivity|vm_compute; lia|discriminate|reflexivity].
Defined.

(** ** Samples *)

Module SampleFacts.
Import PpmPlainDecoder DecoderFacts.

Lemma big_endian_fold n : forall v acc,
  fold_left (fun a c => a * 256 + c) (Py.big_endian n v) acc
  = acc * 256 ^ Z.of_nat n + v mod 256 ^ Z.of_nat n.
Proof.
  induction n as [|n IH]; intros v acc; cbn [Py.big_endian fold_left].
  - cbn. rewrite Z.mod_1_r. lia.
  - rewrite IH, Nat2Z.inj_succ, Z.pow_succ_r by lia.
    assert (Hp : 0 < 256 ^ Z.of_nat n) by (apply Z.pow_pos_nonneg; lia).
    rewrite (Z.mul_comm 256 (256 ^ Z.of_nat n)).
    rewrite (Z.rem_mul_r v (256 ^ Z.of_nat n) 256) by lia.
    lia.
Qed.

(** The bytes of a sample give back its value. *)
Lemma from_big_endian_big_endian n v :
  0 <= v < 256 ^ Z.of_nat n -> from_big_endian (Py.big_endian n v) = v.
Proof.
  intros Hv. unfold from_big_endian. rewrite big_endian_fold.
  rewrite Z.mod_small by exact Hv. lia.
Qed.

Lemma big_endian_range n : forall v, Forall (fun c => 0 <= c < 256) (Py.big_endian n v).
Proof.
  induction n as [|n IH]; intros v; cbn [Py.big_endian]; constructor; [|apply IH].
  apply Z.mod_pos_bound. lia.
Qed.

Lemma decode_token_inv maxval bps d token d' :
  decode_token maxval bps d token = Ok d' ->
  exists v,
    (length token <= 10)%nat /\ Py.int token = Ok v /\ 0 <= v <= maxval
    /\ v < 256 ^ Z.of_nat bps /\ d' = d ++ Py.big_endian bps v.
Proof.
  unfold decode_token. destruct (Nat.ltb_spec 10 (length token)); [discriminate|].
  destruct (Py.int token) as [v|e]; cbn [bind]; [|discriminate].
  destruct (Z.ltb_spec maxval v); [discriminate|].
  unfold Py.to_bytes.
  destruct (Z.ltb_spec v 0); cbn [orb bind]; [discriminate|].
  destruct (Z.leb_spec (256 ^ Z.of_nat bps) v); cbn [bind]; [discriminate|].
  intros E. injection E as <-. exists v. repeat split; try lia.
Qed.

Lemma decode_tokens_range maxval bps total tokens : forall d d',
  Forall (fun c => 0 <= c < 256) d ->
  decode_tokens maxval bps total d tokens = Ok d' ->
  Forall (fun c => 0 <= c < 256) d'.
Proof.
  induction tokens as [|token tokens IH]; intros d d' Hd H; cbn [decode_tokens] in H.
  - injection H as <-. exact Hd.
  - destruct (decode_token maxval bps d token) as [d1|e] eqn:E; cbn [bind] in H;
      [|discriminate].
    apply decode_token_inv in E. destruct E as (v & _ & _ & _ & _ & ->).
    assert (H1 : Forall (fun c => 0 <= c < 256) (d ++ Py.big_endian bps v))
      by (apply Forall_app; split; [exact Hd|apply big_endian_range]).
    destruct (_ =? _)%nat; [injection H as <-; exact H1|].
    eapply IH; eassumption.
Qed.

Lemma _decode_blocks_loop_range xsize ysize channels depth fuel : forall st out,
  Forall (fun c => 0 <= c < 256) (decoded_data st) ->
  _decode_blocks_loop fuel xsize ysize channels depth st = Some (Ok out) ->
  Forall (fun c => 0 <= c < 256) out.
Proof.
  induction fuel as [|fuel IH]; intros st out Hd H; cbn [_decode_blocks_loop] in H;
    [discriminate|].
  destruct (_decode_blocks_body xsize ysize channels depth st) as [st'|d|e] eqn:E.
  - eapply IH; [|exact H].
    apply _decode_blocks_body_next in E. destruct E as (_ & tokens & E).
    eapply decode_tokens_range; eassumption.
  - apply _decode_blocks_body_done in E. injection H as <-. subst d. exact Hd.
  - discriminate.
Qed.

End SampleFacts.

(** X13: when the [for] loop accepts a token, the token has at most ten
    bytes, its value lies between 0 and [maxval], and what is appended
    is that value in [bytes_per_sample] bytes, most significant first:
    bytes from 0 to 255 that give the value back. *)
Theorem decode_token_appends_value :
  forall maxval bytes_per_sample d token d',
    PpmPlainDecoder.decode_token maxval bytes_per_sample d token = Ok d' ->
    exists v packed,
      (length token <= 10)%nat /\ Py.int token = Ok v /\ 0 <= v <= maxval
      /\ d' = d ++ packed /\ length packed = bytes_per_sample
      /\ Forall (fun c => 0 <= c < 256) packed
      /\ from_big_endian packed = v.
Proof.
  intros maxval bytes_per_sample d token d' H.
  apply SampleFacts.decode_token_inv in H.
  destruct H as (v & Hlen & Hint & Hrange & Hfit & ->).
  exists v, (Py.big_endian bytes_per_sample v).
  repeat split; try assumption; try lia.
  - apply DecoderFacts.big_endian_length.
  - apply SampleFacts.big_endian_range.
  - apply SampleFacts.from_big_endian_big_endian. lia.
Qed.

Lemma decode_token_appends_value_witness :
  exists v packed,
    Py.int (bytes_of "0_513") = Ok v /\ [7; 7; 2; 1] = [7; 7] ++ packed
    /\ from_big_endian packed = v.
Proof.
  destruct (decode_token_appends_value 65535 2 [7; 7] (bytes_of "0_513") [7; 7; 2; 1] eq_refl)
    as (v & packed & _ & Hv & _ & Hd & _ & _ & Hp).
  exists v, packed. repeat split; assumption.
Defined.

(** X14: a sample written with a minus sign is not rejected by the check
    against [maxval]: it raises [OverflowError] from [int.to_bytes],
    whatever the depth. *)
Theorem decode_token_negative_sample :
  forall depth bytes_per_sample d token v,
    (length token <= 10)%nat -> Py.int token = Ok v -> v < 0 ->
    PpmPlainDecoder.decode_token (PpmPlainDecoder.maxval_of depth) bytes_per_sample d token
    = Raise OverflowError.
Proof.
  intros depth bytes_per_sample d token v Hlen Hv Hneg.
  unfold PpmPlainDecoder.decode_token.
  replace (10 <? length token)%nat with false by (symmetry; apply Nat.ltb_ge; lia).
  rewrite Hv. cbn [bind].
  assert (Hmax : 0 <= 2 ^ (if depth =? 32 then 31 else depth)) by (apply Z.pow_nonneg; lia).
  unfold PpmPlainDecoder.maxval_of.
  replace (2 ^ (if depth =? 32 then 31 else depth) - 1 <? v) with false
    by (symmetry; apply Z.ltb_ge; lia).
  unfold Py.to_bytes.
  replace (v <? 0) with true by (symmetry; apply Z.ltb_lt; lia).
  reflexivity.
Qed.

Lemma decode_token_negative_sample_witness :
  PpmPlainDecoder.decode_token (PpmPlainDecoder.maxval_of 8) 1 [] (bytes_of "-1")
  = Raise OverflowError.
Proof.
  apply (decode_token_negative_sample 8 1%nat [] (bytes_of "-1") (-1));
    [cbn; lia|reflexivity|lia].
Defined.

(** X15: what [_decode_blocks] returns is made of whole samples, no more of
    them than the image has, and of bytes from 0 to 255. *)
Theorem _decode_blocks_returns_whole_samples :
  forall xsize ysize channels depth fd out,
    PpmPlainDecoder._decode_blocks xsize ysize channels depth fd = Some (Ok out) ->
    Forall (fun c => 0 <= c < 256) out
    /\ exists samples,
        length out = (samples * PpmPlainDecoder.bytes_per_sample_of depth)%nat
        /\ (samples <= xsize * ysize * channels)%nat.
Proof.
  intros xsize ysize channels depth fd out H.
  unfold PpmPlainDecoder._decode_blocks in H. split.
  - eapply SampleFacts._decode_blocks_loop_range; [|exact H]. constructor.
  - eapply DecoderFacts._decode_blocks_loop_whole; [|exact H].
    apply DecoderFacts.whole_samples_nil.
Qed.

Lemma _decode_blocks_returns_whole_samples_witness :
  Forall (fun c => 0 <= c < 256) [1; 0; 255; 255]
  /\ exists samples, length [1; 0; 255; 255] = (samples * 2)%nat /\ (samples <= 3 * 1 * 1)%nat.
Proof.
  apply (_decode_blocks_returns_whole_samples 3 1 1 16
           [bytes_of "256 "; bytes_of "65535 "] [1; 0; 255; 255]).
  reflexivity.
Defined.

(** ** Decoding the decimal text of samples *)

Module PlainText.
Import PpmPlainDecoder DecoderFacts.

Lemma format_d_no_space v : 0 <= v -> no_space (Py.format_d v) = true.
Proof. intros Hv. apply is_plain_no_space. apply PyFacts.format_d_plain. exact Hv. Qed.

Lemma format_d_nonempty v : Py.format_d v <> [].
Proof.
  unfold Py.format_d. destruct (Z.to_int v) as [d|d] eqn:E; [|discriminate].
  apply PyFacts.uint_bytes_nonnil. eapply PyFacts.to_int_nonnil. left. exact E.
Qed.

Lemma plain_text_no_hash samples :
  Forall (fun v => 0 <= v) samples -> ~ In 35 (plain_text samples).
Proof.
  unfold plain_text. induction 1 as [|v samples Hv _ IH]; cbn [map concat]; [tauto|].
  intros Hin. apply in_app_or in Hin. destruct Hin as [Hin|Hin]; [|exact (IH Hin)].
  apply in_app_or in Hin. destruct Hin as [Hin|[Hin|[]]]; [|discriminate Hin].
  exact (is_plain_no_hash _ (PyFacts.format_d_plain v Hv) Hin).
Qed.

Lemma split_plain_text samples :
  Forall (fun v => 0 <= v) samples ->
  Py.split (plain_text samples) = map Py.format_d samples.
Proof.
  unfold Py.split, plain_text.
  induction 1 as [|v samples Hv _ IH]; cbn [map concat]; [reflexivity|].
  rewrite <- app_assoc. cbn [app].
  rewrite split_aux_run by (apply format_d_no_space; exact Hv).
  rewrite app_nil_r. cbn [Py.split_aux]. change (Py.is_space 32) with true. cbv iota.
  destruct (rev (Py.format_d v)) as [|c r] eqn:E.
  - apply (f_equal (@rev Z)) in E. rewrite rev_involutive in E.
    exfalso. exact (format_d_nonempty v E).
  - rewrite <- E, rev_involutive, IH. reflexivity.
Qed.

Lemma plain_text_aligned samples :
  Forall (fun v => 0 <= v) samples -> samples <> [] ->
  aligned_block (plain_text samples) = true
  /\ tokens_of (plain_text samples) = map Py.format_d samples.
Proof.
  intros Hs Hne.
  assert (Hout : outside_comments false (plain_text samples) = (plain_text samples, false)).
  { rewrite <- (app_nil_r (plain_text samples)) at 1.
    rewrite StripFacts.outside_plain_app by (apply plain_text_no_hash; exact Hs).
    cbn. rewrite app_nil_r. reflexivity. }
  split; [|unfold tokens_of; rewrite Hout; apply split_plain_text; exact Hs].
  assert (Hlast : exists pre, plain_text samples = pre ++ [32]).
  { unfold plain_text. clear Hs Hout.
    induction samples as [|v samples IH]; [contradiction|]. cbn [map concat].
    destruct samples as [|v' samples].
    - exists (Py.format_d v). cbn. rewrite app_nil_r. reflexivity.
    - destruct (IH ltac:(discriminate)) as (pre & ->).
      exists ((Py.format_d v ++ [32]) ++ pre). rewrite app_assoc. reflexivity. }
  destruct Hlast as (pre & Hpre).
  unfold aligned_block. rewrite Hout.
  destruct (plain_text samples) as [|c block]; [destruct pre; discriminate Hpre|].
  cbv beta iota zeta. cbn [negb andb]. rewrite Hpre. apply ends_with_space_token_space.
Qed.

Section Samples.

Variables (count : nat) (depth : Z).
Hypothesis Hdepth : In depth [8; 16; 32].
Let bps := bytes_per_sample_of depth.
Let maxval := maxval_of depth.

Lemma maxval_small : maxval < 10 ^ 10.
Proof. subst maxval. cbn [In] in Hdepth. destruct Hdepth as [<-|[<-|[<-|[]]]]; reflexivity. Qed.

Lemma bps_positive : (0 < bps)%nat.
Proof. subst bps. cbn [In] in Hdepth. destruct Hdepth as [<-|[<-|[<-|[]]]]; cbn; lia. Qed.

(** The [for] loop over printed samples appends them one by one until
    [count] samples are there. *)
Lemma decode_tokens_printed samples : forall d k,
  Forall (fun v => 0 <= v <= maxval) samples ->
  length d = (k * bps)%nat -> (k < count)%nat ->
  decode_tokens maxval bps (count * bps) d (map Py.format_d samples)
  = Ok (d ++ concat (map (Py.big_endian bps) (firstn (count - k) samples))).
Proof.
  induction samples as [|v samples IH]; intros d k Hs Hd Hk; cbn [map decode_tokens].
  - rewrite firstn_nil. cbn. rewrite app_nil_r. reflexivity.
  - inversion Hs as [|? ? Hv Hrest]. subst.
    pose proof maxval_small as Hsmall. pose proof bps_positive as Hbps.
    rewrite (decode_token_packed _ _ _ _ v);
      [|apply PyFacts.format_d_length; lia|apply PyFacts.int_format_d|exact Hv
       |apply depth_maximum_fits; exact Hdepth].
    cbn [bind].
    replace (count - k)%nat with (S (count - S k)) by lia. cbn [firstn map concat].
    rewrite length_app, big_endian_length, Hd.
    destruct (Nat.eqb_spec (k * bps + bps) (count * bps)) as [E|Hne].
    + assert (S k = count) by nia. replace (count - S k)%nat with 0%nat by lia.
      cbn. rewrite app_nil_r. reflexivity.
    + rewrite (IH _ (S k)); [rewrite <- app_assoc; reflexivity|exact Hrest| |].
      * rewrite length_app, big_endian_length, Hd. lia.
      * destruct (Nat.eq_dec (S k) count) as [<-|]; [exfalso; apply Hne; lia|lia].
Qed.

End Samples.

Lemma _decode_blocks_no_data xsize ysize channels depth :
  _decode_blocks xsize ysize channels depth [[]] = Some (Ok []).
Proof.
  unfold _decode_blocks. rewrite Nat.add_comm. cbn [Nat.add].
  unfold _decode_blocks_loop at 1. unfold _decode_blocks_body.
  cbn [decoded_data half_token PpmPlainDecoder.fd _read_block truthy length].
  destruct (0 =? _)%nat; reflexivity.
Qed.

End PlainText.

Module PlainTextDecode.

Lemma tokens_of_plain_text samples :
  Forall (fun v => 0 <= v) samples ->
  tokens_of (plain_text samples) = map Py.format_d samples.
Proof.
  intros Hs. unfold tokens_of.
  rewrite <- (app_nil_r (plain_text samples)) at 1.
  rewrite StripFacts.outside_plain_app by (apply PlainText.plain_text_no_hash; exact Hs).
  cbn [outside_comments fst]. rewrite app_nil_r.
  apply PlainText.split_plain_text. exact Hs.
Qed.

(** The decimal text of samples, read in blocks that end after the space
    of a sample. *)
Lemma _decode_blocks_of_plain_text xsize ysize channels depth samples fd :
  In depth [8; 16; 32] ->
  Forall (fun v => 0 <= v <= PpmPlainDecoder.maxval_of depth) samples ->
  forallb aligned_block fd = true -> concat fd = plain_text samples ->
  PpmPlainDecoder._decode_blocks xsize ysize channels depth fd
  = Some (Ok (concat (map (Py.big_endian (PpmPlainDecoder.bytes_per_sample_of depth))
                          (firstn (xsize * ysize * channels) samples)))).
Proof.
  intros Hdepth Hs Hfd Hconcat.
  assert (Hpos : Forall (fun v => 0 <= v) samples)
    by (eapply Forall_impl; [|exact Hs]; cbn; intros; lia).
  destruct (StreamFacts.aligned_concat fd Hfd) as (_ & _ & Htokens).
  unfold PpmPlainDecoder._decode_blocks.
  rewrite StreamFacts._decode_blocks_loop_aligned by (assumption || lia).
  rewrite <- Htokens, Hconcat, (tokens_of_plain_text samples Hpos). cbn [length].
  unfold PpmPlainDecoder.total_bytes_of.
  pose proof (PlainText.bps_positive depth Hdepth) as Hbps.
  destruct (xsize * ysize * channels)%nat as [|count].
  - reflexivity.
  - destruct (Nat.eqb_spec 0 (S count * PpmPlainDecoder.bytes_per_sample_of depth));
      [lia|].
    rewrite (PlainText.decode_tokens_printed (S count) depth Hdepth samples [] 0);
      [rewrite Nat.sub_0_r; reflexivity|exact Hs|reflexivity|lia].
Qed.

End PlainTextDecode.

(** X16: when the decimal text of samples, each followed by a space, is
    read in blocks that each end after the space of a sample (no read
    cuts a token), [_decode_blocks] returns the samples themselves, most
    significant byte first: as many of them as the image has, or all of
    them when there are fewer. *)
Theorem _decode_blocks_plain_text :
  forall xsize ysize channels depth samples fd,
    In depth [8; 16; 32] ->
    Forall (fun v => 0 <= v <= PpmPlainDecoder.maxval_of depth) samples ->
    forallb aligned_block fd = true -> concat fd = plain_text samples ->
    PpmPlainDecoder._decode_blocks xsize ysize channels depth fd
    = Some (Ok (concat (map (Py.big_endian (PpmPlainDecoder.bytes_per_sample_of depth))
                            (firstn (xsize * ysize * channels) samples)))).
Proof. exact PlainTextDecode._decode_blocks_of_plain_text. Qed.

Lemma _decode_blocks_plain_text_witness :
  PpmPlainDecoder._decode_blocks 2 1 1 16 [bytes_of "256 "; bytes_of "65535 7 "]
  = Some (Ok [1; 0; 255; 255]).
Proof.
  apply (_decode_blocks_plain_text 2 1 1 16 [256; 65535; 7]
           [bytes_of "256 "; bytes_of "65535 7 "]);
    [cbn; tauto|repeat constructor; cbn; lia|reflexivity|reflexivity].
Defined.



(** ** The plain-text decoder: the checks on a token *)

Module TokenRun.
Import PpmPlainDecoder DecoderFacts.

Lemma packed_app depth a b : packed depth (a ++ b) = packed depth a ++ packed depth b.
Proof. unfold packed. rewrite map_app, concat_app. reflexivity. Qed.

Lemma packed_one depth v :
  packed depth [v] = Py.big_endian (bytes_per_sample_of depth) v.
Proof. unfold packed. cbn [map concat]. apply app_nil_r. Qed.

Lemma packed_length depth values :
  length (packed depth values) = (length values * bytes_per_sample_of depth)%nat.
Proof.
  unfold packed. induction values as [|v values IH]; cbn [map concat length]; [reflexivity|].
  rewrite length_app, big_endian_length, IH. lia.
Qed.

Lemma aligned_or_empty_inv part :
  aligned_or_empty part = true ->
  snd (outside_comments false part) = false
  /\ ends_clean (fst (outside_comments false part)).
Proof.
  destruct part as [|c part]; cbn [aligned_or_empty].
  - intros _. split; [reflexivity|left; reflexivity].
  - intros H. apply StreamFacts.aligned_block_inv in H. tauto.
Qed.

Section Run.

Variables (xsize ysize channels : nat) (depth : Z).
Hypothesis Hdepth : In depth [8; 16; 32].
Let bps := bytes_per_sample_of depth.
Let total := total_bytes_of xsize ysize channels depth.
Let maxval := maxval_of depth.

(** The [for] loop appends accepted tokens one by one as long as the
    image is not complete. *)
Lemma decode_tokens_accepted tokens values :
  Forall2 (accepted depth) tokens values ->
  forall d more,
    (length d + length values * bps < total)%nat ->
    decode_tokens maxval bps total d (tokens ++ more)
    = decode_tokens maxval bps total (d ++ packed depth values) more.
Proof.
  induction 1 as [|token v tokens values (Hlen & Hint & Hrange) _ IH]; intros d more Hd.
  - cbn [app]. unfold packed. cbn [map concat]. rewrite app_nil_r. reflexivity.
  - cbn [app decode_tokens].
    rewrite (decode_token_packed maxval bps d token v Hlen Hint Hrange
               (depth_maximum_fits _ Hdepth)).
    cbn [bind]. cbn [length] in Hd.
    assert (Hne : (length (d ++ Py.big_endian bps v) =? total)%nat = false)
      by (apply Nat.eqb_neq; rewrite length_app, big_endian_length; lia).
    rewrite Hne, IH by (rewrite length_app, big_endian_length; lia).
    unfold packed. cbn [map concat]. rewrite <- app_assoc. reflexivity.
Qed.

(** The token that completes the image ends the loop. *)
Lemma decode_tokens_last token v d more :
  accepted depth token v -> (length d + bps = total)%nat ->
  decode_tokens maxval bps total d (token :: more) = Ok (d ++ Py.big_endian bps v).
Proof.
  intros (Hlen & Hint & Hrange) Hd. cbn [decode_tokens].
  rewrite (decode_token_packed maxval bps d token v Hlen Hint Hrange
             (depth_maximum_fits _ Hdepth)).
  cbn [bind]. rewrite length_app, big_endian_length, Hd, Nat.eqb_refl. reflexivity.
Qed.

Lemma total_samples : total = (xsize * ysize * channels * bps)%nat.
Proof. reflexivity. Qed.

(** On blocks cut outside comments and tokens [_decode_blocks] is its
    [for] loop over the tokens of the stream. *)
Lemma _decode_blocks_tokens fd :
  forallb aligned_block fd = true ->
  _decode_blocks xsize ysize channels depth fd
  = Some (if (total =? 0)%nat then Ok []
          else decode_tokens maxval bps total [] (tokens_of (concat fd))).
Proof.
  intros Hfd. destruct (StreamFacts.aligned_concat fd Hfd) as (_ & _ & Htokens).
  unfold _decode_blocks.
  rewrite StreamFacts._decode_blocks_loop_aligned by (assumption || lia).
  rewrite Htokens. cbn [length]. rewrite Nat.eqb_sym. reflexivity.
Qed.

(** The tokens before the one in question are accepted, and the image is
    not complete when it is reached. *)
Lemma _decode_blocks_run fd before more values :
  forallb aligned_block fd = true ->
  tokens_of (concat fd) = before ++ more ->
  Forall2 (accepted depth) before values ->
  (length values < xsize * ysize * channels)%nat ->
  _decode_blocks xsize ysize channels depth fd
  = Some (decode_tokens maxval bps total (packed depth values) more).
Proof.
  intros Hfd Htokens Hbefore Hroom.
  pose proof (PlainText.bps_positive depth Hdepth) as Hbps. fold bps in Hbps.
  rewrite _decode_blocks_tokens by exact Hfd. rewrite Htokens.
  destruct (Nat.eqb_spec total 0) as [E|_]; [rewrite total_samples in E; nia|].
  rewrite (decode_tokens_accepted before values Hbefore [] more);
    [reflexivity|cbn [length]; rewrite total_samples; nia].
Qed.

Lemma _decode_blocks_all fd values :
  forallb aligned_block fd = true ->
  Forall2 (accepted depth) (firstn (xsize * ysize * channels) (tokens_of (concat fd))) values ->
  _decode_blocks xsize ysize channels depth fd = Some (Ok (packed depth values)).
Proof.
  intros Hfd Hall.
  pose proof (PlainText.bps_positive depth Hdepth) as Hbps. fold bps in Hbps.
  pose proof (Forall2_length Hall) as Hlen. rewrite length_firstn in Hlen.
  destruct (Nat.eq_dec (xsize * ysize * channels) 0) as [Hzero|Hpos].
  - rewrite _decode_blocks_tokens by exact Hfd.
    replace (total =? 0)%nat with true
      by (symmetry; apply Nat.eqb_eq; rewrite total_samples, Hzero; reflexivity).
    rewrite Hzero in Hall. cbn [firstn] in Hall. inversion Hall. reflexivity.
  - destruct (Nat.lt_ge_cases (length values) (xsize * ysize * channels)) as [Hfew|Hmany].
    + rewrite (_decode_blocks_run fd (tokens_of (concat fd)) [] values);
        [reflexivity|exact Hfd|rewrite app_nil_r; reflexivity| |exact Hfew].
      rewrite firstn_all2 in Hall by lia. exact Hall.
    + assert (Hn : length values = (xsize * ysize * channels)%nat) by lia.
      destruct (@exists_last _ (firstn (xsize * ysize * channels) (tokens_of (concat fd))))
        as (ts & t & Efirst).
      { intros E. rewrite E in Hall. inversion Hall; subst. cbn [length] in Hn. lia. }
      rewrite Efirst in Hall.
      apply Forall2_app_inv_l in Hall.
      destruct Hall as (values1 & values2 & Hts & Hlast & ->).
      inversion Hlast as [|? v ? ? Ht Hnil]; subst. inversion Hnil; subst.
      rewrite length_app in Hn. cbn [length] in Hn.
      rewrite (_decode_blocks_run fd ts (t :: skipn (xsize * ysize * channels)
                                                   (tokens_of (concat fd))) values1);
        [|exact Hfd| |exact Hts|lia].
      * rewrite (decode_tokens_last t v); [|exact Ht|].
        -- rewrite packed_app, packed_one. reflexivity.
        -- rewrite packed_length. fold bps. rewrite total_samples. nia.
      * rewrite <- (firstn_skipn (xsize * ysize * channels) (tokens_of (concat fd))) at 1.
        rewrite Efirst, <- app_assoc. reflexivity.
Qed.

End Run.

End TokenRun.

Module CutToken.
Import PpmPlainDecoder DecoderFacts.

Lemma pop_last (tokens : list bytes) (t : bytes) : Py.pop (tokens ++ [t]) = Ok (t, tokens).
Proof. unfold Py.pop. rewrite rev_app_distr. cbn [rev app]. rewrite rev_involutive. reflexivity. Qed.

Lemma outside_plain t :
  forallb is_plain t = true -> outside_comments false t = (t, false).
Proof.
  intros Ht. rewrite <- (app_nil_r t) at 1.
  rewrite StripFacts.outside_plain_app by (apply is_plain_no_hash; exact Ht).
  cbn [outside_comments fst snd]. rewrite app_nil_r. reflexivity.
Qed.

Lemma forallb_is_plain_app a b :
  forallb is_plain (a ++ b) = true -> forallb is_plain a = true /\ forallb is_plain b = true.
Proof. rewrite forallb_app. apply andb_prop. Qed.

Section Cut.

Variables (xsize ysize channels : nat) (depth : Z).
Let bps := bytes_per_sample_of depth.
Let total := total_bytes_of xsize ysize channels depth.
Let maxval := maxval_of depth.
Let body := _decode_blocks_body xsize ysize channels depth.

(** A block that ends inside a token: the fragment is set aside, after
    the check of its length and before the [for] loop. *)
Lemma _decode_blocks_body_cut d part head fd :
  length d <> total -> aligned_or_empty part = true ->
  head <> [] -> forallb is_plain head = true ->
  body (mkblocks d false None ((part ++ head) :: fd))
  = if (10 <? length head)%nat then Fail (DataTokenTooLong (firstn 11 head))
    else match decode_tokens maxval bps total d (tokens_of part) with
         | Raise e => Fail e
         | Ok d1 => Next (mkblocks d1 false (Some head) fd)
         end.
Proof.
  intros Hne Hpart Hhead Hplain.
  apply TokenRun.aligned_or_empty_inv in Hpart. destruct Hpart as [Hclosed Hclean].
  assert (Hout : outside_comments false (part ++ head)
                 = (fst (outside_comments false part) ++ head, false)).
  { rewrite StreamFacts.outside_comments_app, Hclosed.
    rewrite (outside_plain head Hplain). reflexivity. }
  assert (Hsplit : Py.split (fst (outside_comments false part) ++ head)
                   = tokens_of part ++ [head]).
  { rewrite StreamFacts.split_app_clean by exact Hclean.
    rewrite (split_token head (is_plain_no_space head Hplain) Hhead). reflexivity. }
  assert (Hend : Py.ends_with_space (fst (outside_comments false part) ++ head) = false).
  { rewrite StreamFacts.ends_with_space_app by exact Hhead.
    apply ends_with_space_token, is_plain_no_space. exact Hplain. }
  subst body. unfold _decode_blocks_body. fold total bps maxval.
  cbn [decoded_data comment_spans half_token PpmPlainDecoder.fd _read_block truthy].
  destruct (Nat.eqb_spec (length d) total); [contradiction|].
  destruct (part ++ head) as [|c block] eqn:E;
    [apply app_eq_nil in E; destruct E; contradiction|].
  replace (_ignore_comments (c :: block)) with (outside_comments false (c :: block))
    by (symmetry; apply StripFacts._ignore_comments_loop_outside; lia).
  rewrite Hout. cbv beta iota zeta. rewrite Hsplit, Hend.
  destruct (fst (outside_comments false part) ++ head) as [|k kept] eqn:Ek;
    [apply app_eq_nil in Ek; destruct Ek; contradiction|].
  cbn [negb]. rewrite pop_last. cbn [bind].
  destruct (10 <? length head)%nat; reflexivity.
Qed.

(** The block after it: the fragment is put in front, and the [for] loop
    meets the whole token first; the fragment stays in [half_token]. *)
Lemma _decode_blocks_body_stitched d head tail ws rest fd :
  length d <> total -> head <> [] -> forallb is_plain (head ++ tail) = true ->
  Py.is_space ws = true -> aligned_or_empty rest = true ->
  body (mkblocks d false (Some head) ((tail ++ ws :: rest) :: fd))
  = match decode_tokens maxval bps total d ((head ++ tail) :: tokens_of rest) with
    | Raise e => Fail e
    | Ok d1 => Next (mkblocks d1 false (Some head) fd)
    end.
Proof.
  intros Hne Hhead Hplain Hws Hrest.
  apply TokenRun.aligned_or_empty_inv in Hrest. destruct Hrest as [Hclosed Hclean].
  destruct (forallb_is_plain_app _ _ Hplain) as [_ Htail].
  assert (Hout : outside_comments false (tail ++ ws :: rest)
                 = (tail ++ ws :: fst (outside_comments false rest), false)).
  { rewrite StripFacts.outside_plain_app by (apply is_plain_no_hash; exact Htail).
    cbn [outside_comments].
    replace (ws =? 35) with false
      by (symmetry; apply Z.eqb_neq; intros ->; discriminate Hws).
    destruct (outside_comments false rest) as [kept open]. cbn [fst snd] in *.
    subst open. reflexivity. }
  set (kept := fst (outside_comments false rest)) in *.
  assert (Hsplit : Py.split (head ++ tail ++ ws :: kept) = (head ++ tail) :: tokens_of rest).
  { unfold Py.split. rewrite app_assoc.
    rewrite split_aux_run by (apply is_plain_no_space; exact Hplain).
    cbn [Py.split_aux]. rewrite Hws, app_nil_r.
    destruct (rev (head ++ tail)) as [|x r] eqn:E.
    - apply (f_equal (@rev Z)) in E. rewrite rev_involutive in E. cbn in E.
      apply app_eq_nil in E. destruct E; contradiction.
    - rewrite <- E, rev_involutive. reflexivity. }
  assert (Hend : Py.ends_with_space (head ++ tail ++ ws :: kept) = true).
  { rewrite app_assoc. destruct Hclean as [E|Hk].
    - fold kept in E. rewrite E. unfold Py.ends_with_space.
      rewrite rev_app_distr. cbn [rev app]. exact Hws.
    - fold kept in Hk.
      change (ws :: kept) with ([ws] ++ kept). rewrite app_assoc.
      rewrite StreamFacts.ends_with_space_app; [exact Hk|].
      intros E. rewrite E in Hk. discriminate Hk. }
  subst body. unfold _decode_blocks_body. fold total bps maxval.
  cbn [decoded_data comment_spans half_token PpmPlainDecoder.fd _read_block].
  destruct (Nat.eqb_spec (length d) total); [contradiction|].
  destruct (tail ++ ws :: rest) as [|c block] eqn:E;
    [apply app_eq_nil in E; destruct E; discriminate|].
  replace (_ignore_comments (c :: block)) with (outside_comments false (c :: block))
    by (symmetry; apply StripFacts._ignore_comments_loop_outside; lia).
  rewrite Hout. cbv beta iota zeta.
  destruct head as [|h head]; [contradiction|]. cbn [truthy stitch].
  rewrite Hsplit, Hend. cbn [app negb]. reflexivity.
Qed.

Hypothesis Hdepth : In depth [8; 16; 32].

(** Blocks cut outside comments and tokens whose tokens are accepted, and
    do not complete the image, are passed one by one. *)
Lemma _decode_blocks_loop_prefix fd : forall d fuel rest values,
  forallb aligned_block fd = true ->
  Forall2 (accepted depth) (concat (map tokens_of fd)) values ->
  (length d + length values * bps < total)%nat ->
  _decode_blocks_loop (length fd + fuel) xsize ysize channels depth
    (mkblocks d false None (fd ++ rest))
  = _decode_blocks_loop fuel xsize ysize channels depth
      (mkblocks (d ++ packed depth values) false None rest).
Proof.
  induction fd as [|block fd IH]; intros d fuel rest values Hfd Hvalues Hroom.
  - cbn [concat map] in Hvalues. inversion Hvalues; subst.
    unfold packed. cbn [length Nat.add app map concat]. rewrite app_nil_r. reflexivity.
  - cbn [forallb] in Hfd. apply andb_prop in Hfd. destruct Hfd as [Hblock Hfd].
    cbn [concat map] in Hvalues. apply Forall2_app_inv_l in Hvalues.
    destruct Hvalues as (values1 & values2 & Hv1 & Hv2 & ->).
    rewrite length_app in Hroom.
    cbn [length Nat.add app _decode_blocks_loop].
    rewrite StreamFacts._decode_blocks_body_aligned; [|fold total; lia|exact Hblock].
    rewrite <- (app_nil_r (tokens_of block)).
    rewrite (TokenRun.decode_tokens_accepted xsize ysize channels depth Hdepth
               (tokens_of block) values1 Hv1 d []) by (fold bps total; lia).
    cbn [decode_tokens].
    rewrite (IH (d ++ packed depth values1) fuel rest values2);
      [|exact Hfd|exact Hv2|rewrite length_app, TokenRun.packed_length; fold bps; lia].
    rewrite TokenRun.packed_app, app_assoc. reflexivity.
Qed.

Lemma room_left values :
  (length values < xsize * ysize * channels)%nat ->
  (length (packed depth values) < total)%nat.
Proof.
  intros Hroom. pose proof (PlainText.bps_positive depth Hdepth) as Hbps.
  rewrite TokenRun.packed_length. subst total. unfold total_bytes_of. nia.
Qed.

(** [_decode_blocks] after blocks cut outside comments and tokens, with
    passes to spare. *)
Lemma _decode_blocks_after_prefix fd block rest values :
  forallb aligned_block fd = true ->
  Forall2 (accepted depth) (tokens_of (concat fd)) values ->
  (length values < xsize * ysize * channels)%nat ->
  exists k,
    _decode_blocks xsize ysize channels depth (fd ++ block :: rest)
    = _decode_blocks_loop (S (S (S k))) xsize ysize channels depth
        (mkblocks (packed depth values) false None (block :: rest)).
Proof.
  intros Hfd Hvalues Hroom. apply room_left in Hroom.
  destruct (StreamFacts.aligned_concat fd Hfd) as (_ & _ & Htokens).
  rewrite Htokens in Hvalues.
  exists (length fd + 2 * length rest + 2 * total_bytes_of xsize ysize channels depth + 1)%nat.
  unfold _decode_blocks.
  replace (2 * (length (fd ++ block :: rest) + total_bytes_of xsize ysize channels depth) + 2)%nat
    with (length fd
          + S (S (S (length fd + 2 * length rest
                     + 2 * total_bytes_of xsize ysize channels depth + 1))))%nat
    by (rewrite length_app; cbn [length]; lia).
  rewrite (_decode_blocks_loop_prefix fd [] _ (block :: rest) values Hfd Hvalues);
    [reflexivity|].
  rewrite TokenRun.packed_length in Hroom. cbn [length]. exact Hroom.
Qed.

(** A block that ends inside a token of eleven bytes or more raises, the
    tokens before it in the block undecoded. *)
Lemma _decode_blocks_fragment_too_long fd part head more values :
  forallb aligned_block fd = true -> aligned_or_empty part = true ->
  Forall2 (accepted depth) (tokens_of (concat fd)) values ->
  (length values < xsize * ysize * channels)%nat ->
  forallb is_plain head = true -> (11 <= length head)%nat ->
  _decode_blocks xsize ysize channels depth (fd ++ (part ++ head) :: more)
  = Some (Raise (DataTokenTooLong (firstn 11 head))).
Proof.
  intros Hfd Hpart Hvalues Hroom Hplain Hlong.
  destruct (_decode_blocks_after_prefix fd (part ++ head) more values Hfd Hvalues Hroom)
    as (k & Ek).
  etransitivity; [exact Ek|]. clear Ek.
  apply room_left in Hroom.
  cbn [_decode_blocks_loop]. fold body.
  rewrite _decode_blocks_body_cut;
    [|lia|exact Hpart|intros ->; cbn [length] in Hlong; lia|exact Hplain].
  replace (10 <? length head)%nat with true by (symmetry; apply Nat.ltb_lt; lia).
  reflexivity.
Qed.

Section Stitched.

Variables (fd : list bytes) (part head tail : bytes) (ws : Z) (rest : bytes)
          (more : list bytes) (values : list Z).
Hypothesis Hfd : forallb aligned_block fd = true.
Hypothesis Hpart : aligned_or_empty part = true.
Hypothesis Hvalues : Forall2 (accepted depth) (tokens_of (concat fd) ++ tokens_of part) values.
Hypothesis Hroom : (length values < xsize * ysize * channels)%nat.
Hypothesis Hhead : (1 <= length head <= 10)%nat.
Hypothesis Hplain : forallb is_plain (head ++ tail) = true.
Hypothesis Hws : Py.is_space ws = true.
Hypothesis Hrest : aligned_or_empty rest = true.

(** The first token that a read cuts in two reaches the [for] loop whole,
    after the tokens before it. *)
Lemma _decode_blocks_stitched :
  exists k,
    _decode_blocks xsize ysize channels depth
      (fd ++ (part ++ head) :: (tail ++ ws :: rest) :: more)
    = match decode_tokens maxval bps total (packed depth values)
              ((head ++ tail) :: tokens_of rest) with
      | Raise e => Some (Raise e)
      | Ok d1 =>
          _decode_blocks_loop (S k) xsize ysize channels depth
            (mkblocks d1 false (Some head) more)
      end.
Proof.
  apply Forall2_app_inv_l in Hvalues.
  destruct Hvalues as (values1 & values2 & Hv1 & Hv2 & E).
  assert (Hroom1 : (length values1 < xsize * ysize * channels)%nat)
    by (rewrite E, length_app in Hroom; lia).
  destruct (_decode_blocks_after_prefix fd (part ++ head) ((tail ++ ws :: rest) :: more)
              values1 Hfd Hv1 Hroom1) as (k & Ek).
  exists k. etransitivity; [exact Ek|]. clear Ek.
  pose proof (room_left values Hroom) as Hleft.
  pose proof (room_left values1 Hroom1) as Hleft1.
  assert (Hne : head <> []) by (intros ->; cbn [length] in Hhead; lia).
  destruct (forallb_is_plain_app _ _ Hplain) as [Hplain_head _].
  cbn [_decode_blocks_loop]. fold body.
  rewrite _decode_blocks_body_cut; [|lia|exact Hpart|exact Hne|exact Hplain_head].
  replace (10 <? length head)%nat with false by (symmetry; apply Nat.ltb_ge; lia).
  assert (Hpass : decode_tokens maxval bps total (packed depth values1) (tokens_of part)
                  = Ok (packed depth values)).
  { rewrite <- (app_nil_r (tokens_of part)). unfold maxval, bps, total.
    rewrite (TokenRun.decode_tokens_accepted xsize ysize channels depth Hdepth
               (tokens_of part) values2 Hv2 (packed depth values1) []).
    - cbn [decode_tokens]. rewrite <- TokenRun.packed_app, <- E. reflexivity.
    - rewrite E, TokenRun.packed_length, length_app in Hleft.
      rewrite TokenRun.packed_length. lia. }
  rewrite Hpass.
  rewrite _decode_blocks_body_stitched; [|lia|exact Hne|exact Hplain|exact Hws|exact Hrest].
  destruct (decode_tokens maxval bps total (packed depth values)
              ((head ++ tail) :: tokens_of rest)); reflexivity.
Qed.

Lemma _decode_blocks_stitched_raise e :
  decode_token maxval bps (packed depth values) (head ++ tail) = Raise e ->
  _decode_blocks xsize ysize channels depth
    (fd ++ (part ++ head) :: (tail ++ ws :: rest) :: more)
  = Some (Raise e).
Proof.
  intros He. destruct _decode_blocks_stitched as (k & Ek).
  etransitivity; [exact Ek|]. clear Ek.
  cbn [decode_tokens]. rewrite He. reflexivity.
Qed.

Lemma _decode_blocks_stitched_last v :
  accepted depth (head ++ tail) v ->
  S (length values) = (xsize * ysize * channels)%nat ->
  _decode_blocks xsize ysize channels depth
    (fd ++ (part ++ head) :: (tail ++ ws :: rest) :: more)
  = Some (Ok (packed depth (values ++ [v]))).
Proof.
  intros Hv Hlast. destruct _decode_blocks_stitched as (k & Ek).
  etransitivity; [exact Ek|]. clear Ek.
  rewrite (TokenRun.decode_tokens_last xsize ysize channels depth Hdepth (head ++ tail) v).
  - cbn [_decode_blocks_loop].
    rewrite _decode_blocks_body_full.
    + cbn [decoded_data]. rewrite TokenRun.packed_app, TokenRun.packed_one. reflexivity.
    + cbn [decoded_data]. rewrite length_app, big_endian_length, TokenRun.packed_length.
      unfold total_bytes_of. rewrite <- Hlast. lia.
  - exact Hv.
  - rewrite TokenRun.packed_length. unfold total_bytes_of. rewrite <- Hlast. lia.
Qed.

End Stitched.

End Cut.

End CutToken.

Module DepthFacts.
Import PpmPlainDecoder DecoderFacts.

(** For a mode other than "1", [decode] is [_decode_blocks] with the
    depth of the mode and raw mode. *)
Lemma decode_blocks_args mode rawmode channels depth xsize ysize fd :
  blocks_args mode rawmode = Some (channels, depth) ->
  In depth [8; 16; 32]
  /\ decode mode rawmode xsize ysize fd
     = option_map (fun r => d <- r ;; Ok (d, rawmode))
                  (_decode_blocks xsize ysize channels depth fd).
Proof.
  intros Hargs. unfold decode. rewrite Hargs.
  unfold blocks_args in Hargs.
  destruct (String.eqb_spec mode "1") as [->|_]; [discriminate Hargs|].
  split; [|reflexivity].
  destruct (String.eqb mode "L"); [injection Hargs as _ <-; cbn; tauto|].
  destruct (String.eqb mode "I").
  - destruct (String.eqb rawmode "I;16B"); [injection Hargs as _ <-; cbn; tauto|].
    destruct (String.eqb rawmode "I;32B"); [injection Hargs as _ <-; cbn; tauto|].
    discriminate Hargs.
  - destruct (String.eqb mode "RGB"); [injection Hargs as _ <-; cbn; tauto|].
    discriminate Hargs.
Qed.

End DepthFacts.

Ltac settle :=
  first [ reflexivity | cbn; lia | cbn; tauto | discriminate
        | repeat (constructor; [repeat split; first [reflexivity | cbn; lia]|]); constructor ].

(** C3, as the code has it: the depth comes from the mode and the raw
    mode (8 for L and RGB, 16 for I;16B, 32 for I;32B), and [decode]
    checks a sample against the largest value of that depth (255, 65535,
    2147483647); the max-value of the header is not among the arguments
    that [_open] hands to the decoder.  On data read in blocks that end
    outside tokens and comments, a token of at most ten bytes among the
    samples of the image, reached after accepted tokens, whose value is
    above that maximum raises "Channel value too large for this mode"
    and the error names the value; and when every
    token among the samples of the image has at most ten bytes and a
    value from 0 to that maximum, all are packed, most significant byte
    first, in [depth // 8] bytes each.  The first token that a read cuts
    in two, when whitespace follows its tail in the next block and that
    block ends outside tokens and comments, is checked against the same
    maximum, and is packed when it is the last sample of the image. *)
Theorem decode_checks_depth_maximum :
  ((forall rawmode, PpmPlainDecoder.blocks_args "L" rawmode = Some (1%nat, 8))
   /\ PpmPlainDecoder.blocks_args "I" "I;16B" = Some (1%nat, 16)
   /\ PpmPlainDecoder.blocks_args "I" "I;32B" = Some (1%nat, 32)
   /\ (forall rawmode, PpmPlainDecoder.blocks_args "RGB" rawmode = Some (3%nat, 8))
   /\ PpmPlainDecoder.maxval_of 8 = 255 /\ PpmPlainDecoder.maxval_of 16 = 65535
   /\ PpmPlainDecoder.maxval_of 32 = 2147483647)
  /\ (forall mode rawmode channels depth xsize ysize fd before token after values v,
         PpmPlainDecoder.blocks_args mode rawmode = Some (channels, depth) ->
         forallb aligned_block fd = true ->
         tokens_of (concat fd) = before ++ token :: after ->
         Forall2 (accepted depth) before values ->
         (length values < xsize * ysize * channels)%nat ->
         (length token <= 10)%nat -> Py.int token = Ok v ->
         PpmPlainDecoder.maxval_of depth < v ->
         PpmPlainDecoder.decode mode rawmode xsize ysize fd
         = Some (Raise (ChannelValueTooLarge v)))
  /\ (forall mode rawmode channels depth xsize ysize fd values,
         PpmPlainDecoder.blocks_args mode rawmode = Some (channels, depth) ->
         forallb aligned_block fd = true ->
         Forall2 (accepted depth)
                 (firstn (xsize * ysize * channels) (tokens_of (concat fd))) values ->
         PpmPlainDecoder.decode mode rawmode xsize ysize fd
         = Some (Ok (packed depth values, rawmode))
         /\ length (packed depth values) = (length values * Z.to_nat (depth / 8))%nat)
  /\ (forall mode rawmode channels depth xsize ysize fd part head tail ws rest more values v,
         PpmPlainDecoder.blocks_args mode rawmode = Some (channels, depth) ->
         forallb aligned_block fd = true -> aligned_or_empty part = true ->
         Forall2 (accepted depth) (tokens_of (concat fd) ++ tokens_of part) values ->
         (length values < xsize * ysize * channels)%nat ->
         (1 <= length head)%nat -> forallb is_plain (head ++ tail) = true ->
         Py.is_space ws = true -> aligned_or_empty rest = true ->
         (length (head ++ tail) <= 10)%nat -> Py.int (head ++ tail) = Ok v ->
         (PpmPlainDecoder.maxval_of depth < v ->
          PpmPlainDecoder.decode mode rawmode xsize ysize
            (fd ++ (part ++ head) :: (tail ++ ws :: rest) :: more)
          = Some (Raise (ChannelValueTooLarge v)))
         /\ (0 <= v <= PpmPlainDecoder.maxval_of depth ->
             S (length values) = (xsize * ysize * channels)%nat ->
             PpmPlainDecoder.decode mode rawmode xsize ysize
               (fd ++ (part ++ head) :: (tail ++ ws :: rest) :: more)
             = Some (Ok (packed depth (values ++ [v]), rawmode)))).
Proof.
  split; [repeat split|]. split; [|split].
  - intros mode rawmode channels depth xsize ysize fd before token after values v
           Hargs Hfd Htokens Hbefore Hroom Hlen Hv Hlarge.
    destruct (DepthFacts.decode_blocks_args mode rawmode channels depth xsize ysize fd Hargs)
      as [Hdepth ->].
    rewrite (TokenRun._decode_blocks_run xsize ysize channels depth Hdepth fd before
               (token :: after) values Hfd Htokens Hbefore Hroom).
    cbn [PpmPlainDecoder.decode_tokens].
    rewrite (DecoderFacts.decode_token_too_large _ _ _ _ v Hlen Hv Hlarge). reflexivity.
  - intros mode rawmode channels depth xsize ysize fd values Hargs Hfd Hall.
    destruct (DepthFacts.decode_blocks_args mode rawmode channels depth xsize ysize fd Hargs)
      as [Hdepth ->].
    rewrite (TokenRun._decode_blocks_all xsize ysize channels depth Hdepth fd values Hfd Hall).
    split; [reflexivity|apply TokenRun.packed_length].
  - intros mode rawmode channels depth xsize ysize fd part head tail ws rest more values v
           Hargs Hfd Hpart Hvalues Hroom Hhead Hplain Hws Hrest Hlen Hv.
    destruct (DepthFacts.decode_blocks_args mode rawmode channels depth xsize ysize
                (fd ++ (part ++ head) :: (tail ++ ws :: rest) :: more) Hargs)
      as [Hdepth ->].
    assert (Hhead' : (1 <= length head <= 10)%nat)
      by (rewrite length_app in Hlen; lia).
    split.
    + intros Hlarge.
      rewrite (CutToken._decode_blocks_stitched_raise xsize ysize channels depth Hdepth
                 fd part head tail ws rest more values Hfd Hpart Hvalues Hroom Hhead'
                 Hplain Hws Hrest (ChannelValueTooLarge v));
        [reflexivity|].
      apply DecoderFacts.decode_token_too_large; assumption.
    + intros Hrange Hlast.
      rewrite (CutToken._decode_blocks_stitched_last xsize ysize channels depth Hdepth
                 fd part head tail ws rest more values Hfd Hpart Hvalues Hroom Hhead'
                 Hplain Hws Hrest v); [reflexivity| |exact Hlast].
      repeat split; try assumption; lia.
Qed.

Lemma decode_checks_depth_maximum_witness :
  PpmPlainDecoder.decode "I" "I;16B" 2 1 [bytes_of "258 "; bytes_of "65536 "]
  = Some (Raise (ChannelValueTooLarge 65536))
  /\ PpmPlainDecoder.decode "L" "L" 2 1 [bytes_of "7 "; bytes_of "200 9 "]
     = Some (Ok ([7; 200], "L"%string))
  /\ PpmPlainDecoder.decode "L" "L" 2 1 [bytes_of "7 "; bytes_of "25"; bytes_of "6 "]
     = Some (Raise (ChannelValueTooLarge 256)).
Proof.
  split; [|split].
  - apply (proj1 (proj2 decode_checks_depth_maximum)
             "I"%string "I;16B"%string 1%nat 16 2%nat 1%nat
             [bytes_of "258 "; bytes_of "65536 "]
             [bytes_of "258"] (bytes_of "65536") [] [258] 65536); settle.
  - apply (proj1 (proj2 (proj2 decode_checks_depth_maximum))
             "L"%string "L"%string 1%nat 8 2%nat 1%nat
             [bytes_of "7 "; bytes_of "200 9 "] [7; 200]); settle.
  - apply (proj1 (proj2 (proj2 (proj2 decode_checks_depth_maximum))
                   "L"%string "L"%string 1%nat 8 2%nat 1%nat
                   [bytes_of "7 "] [] (bytes_of "25") (bytes_of "6") 32 [] [] [7] 256
                   eq_refl eq_refl eq_refl ltac:(settle) ltac:(settle) ltac:(settle)
                   eq_refl eq_refl eq_refl ltac:(settle) eq_refl)).
    settle.
Defined.

(** C7, as the spec has it, fails: in a bitmap a token of eleven bytes,
    the only token of the pixel data, is decoded without error. *)
Lemma bitmap_token_of_eleven_bytes_decoded :
  let contents :=
    bytes_of "P1" ++ [10] ++ bytes_of "11 1" ++ [10] ++ bytes_of "01010101010" ++ [10] in
  exists o,
    PpmImageFile._open (mkfile 0 contents) = Ok o
    /\ PpmImageFile.decoder_name o = "ppm_plain"%string
    /\ Py.split (skipn (PpmImageFile.offset o) contents) = [bytes_of "01010101010"]
    /\ length (bytes_of "01010101010") = 11%nat
    /\ PpmPlainDecoder.decode
         (PpmImageFile.mode o) (PpmImageFile.rawmode o)
         (Z.to_nat (PpmImageFile.xsize o)) (Z.to_nat (PpmImageFile.ysize o))
         [skipn (PpmImageFile.offset o) contents]
       = Some (Ok ([255; 0; 255; 0; 255; 0; 255; 0; 255; 0; 255], "1;8"%string)).
Proof.
  cbv zeta.
  exists (PpmImageFile.mkopened "1" 11 1 (Some "image/x-portable-bitmap"%string)
                                "ppm_plain" 8 "1;I").
  repeat split; reflexivity.
Qed.

(** What C7, as the code has it, leaves out: after a token that a read
    cut in two, [half_token] is put in front of every later block too,
    so that a later token of ten bytes is read as one of eleven. *)
Lemma ten_byte_token_after_cut_token :
  PpmPlainDecoder._decode_blocks 2 1 1 32
    [bytes_of "1"; bytes_of "2 "; bytes_of "1234567890 "]
  = Some (Raise (DataTokenTooLong (bytes_of "11234567890")))
  /\ PpmPlainDecoder._decode_blocks 2 1 1 32 [bytes_of "12 1234567890 "]
     = Some (Ok [0; 0; 0; 12; 73; 150; 2; 210]).
Proof. split; reflexivity. Qed.

(** C7, as the code has it: a token of ten bytes is returned by
    [_read_token] and accepted by [_decode_blocks], and a token of eleven
    bytes or more raises "Token too long" in both, with its first eleven
    bytes in the message and nothing returned for it.  In
    [_decode_blocks] this holds of a token among the samples of the image
    that is reached after accepted tokens, on data read in blocks that
    end outside tokens and comments; and of the first token that a read
    cuts in two: a fragment of eleven bytes or more raises before the
    tokens of its block are decoded; and when whitespace follows the tail
    of the token in the next block and that block ends outside tokens and
    comments, the whole token of eleven bytes or more raises, and a whole
    token of ten bytes is packed when it is the last sample of the image.
    [_decode_bitonal] has no limit: a run of 0s and 1s of any length is
    decoded. *)
Theorem token_length_limit :
  (forall token ws p r,
      forallb is_plain token = true -> length token = 10%nat ->
      Py.mem ws b_whitespace = true ->
      PpmImageFile._read_token (mkfile p (token ++ ws :: r))
      = Ok (token, mkfile (p + 10 + 1) r))
  /\ (forall token p r,
         forallb is_plain token = true -> (11 <= length token)%nat ->
         PpmImageFile._read_token (mkfile p (token ++ r))
         = Raise (HeaderTokenTooLong (firstn 11 token)))
  /\ (forall xsize ysize channels depth fd before token after values,
         In depth [8; 16; 32] -> forallb aligned_block fd = true ->
         tokens_of (concat fd) = before ++ token :: after ->
         Forall2 (accepted depth) before values ->
         (length values < xsize * ysize * channels)%nat ->
         ((11 <= length token)%nat ->
          PpmPlainDecoder._decode_blocks xsize ysize channels depth fd
          = Some (Raise (DataTokenTooLong (firstn 11 token))))
         /\ (forall v,
                length token = 10%nat -> accepted depth token v ->
                PpmPlainDecoder._decode_blocks xsize ysize channels depth fd
                = Some (if (S (length values) =? xsize * ysize * channels)%nat
                        then Ok (packed depth (values ++ [v]))
                        else PpmPlainDecoder.decode_tokens
                               (PpmPlainDecoder.maxval_of depth)
                               (PpmPlainDecoder.bytes_per_sample_of depth)
                               (PpmPlainDecoder.total_bytes_of xsize ysize channels depth)
                               (packed depth (values ++ [v])) after)))
  /\ (forall xsize ysize channels depth fd part head more values,
         In depth [8; 16; 32] ->
         forallb aligned_block fd = true -> aligned_or_empty part = true ->
         Forall2 (accepted depth) (tokens_of (concat fd)) values ->
         (length values < xsize * ysize * channels)%nat ->
         forallb is_plain head = true -> (11 <= length head)%nat ->
         PpmPlainDecoder._decode_blocks xsize ysize channels depth
           (fd ++ (part ++ head) :: more)
         = Some (Raise (DataTokenTooLong (firstn 11 head))))
  /\ (forall xsize ysize channels depth fd part head tail ws rest more values,
         In depth [8; 16; 32] ->
         forallb aligned_block fd = true -> aligned_or_empty part = true ->
         Forall2 (accepted depth) (tokens_of (concat fd) ++ tokens_of part) values ->
         (length values < xsize * ysize * channels)%nat ->
         (1 <= length head <= 10)%nat -> forallb is_plain (head ++ tail) = true ->
         Py.is_space ws = true -> aligned_or_empty rest = true ->
         ((11 <= length (head ++ tail))%nat ->
          PpmPlainDecoder._decode_blocks xsize ysize channels depth
            (fd ++ (part ++ head) :: (tail ++ ws :: rest) :: more)
          = Some (Raise (DataTokenTooLong (firstn 11 (head ++ tail)))))
         /\ (forall v,
                length (head ++ tail) = 10%nat -> accepted depth (head ++ tail) v ->
                S (length values) = (xsize * ysize * channels)%nat ->
                PpmPlainDecoder._decode_blocks xsize ysize channels depth
                  (fd ++ (part ++ head) :: (tail ++ ws :: rest) :: more)
                = Some (Ok (packed depth (values ++ [v])))))
  /\ (forall xsize ysize digits ws,
         forallb is_bit digits = true -> Py.is_space ws = true ->
         PpmPlainDecoder._decode_bitonal xsize ysize [digits ++ [ws]]
         = Some (Ok (map PpmPlainDecoder.invert (firstn (xsize * ysize) digits)))).
Proof.
  split; [|split; [|split; [|split; [|split]]]].
  - intros token ws p r Hplain Hlen Hws. rewrite <- Hlen.
    apply HeaderFacts._read_token_ok; [assumption|lia|assumption].
  - intros token p r. apply HeaderFacts._read_token_too_long.
  - intros xsize ysize channels depth fd before token after values
           Hdepth Hfd Htokens Hbefore Hroom.
    pose proof (TokenRun._decode_blocks_run xsize ysize channels depth Hdepth fd before
                  (token :: after) values Hfd Htokens Hbefore Hroom) as Hrun.
    split.
    + intros Hlong. rewrite Hrun. cbn [PpmPlainDecoder.decode_tokens].
      rewrite DecoderFacts.decode_token_too_long by exact Hlong. reflexivity.
    + intros v _ (Hlen & Hv & Hrange). rewrite Hrun. cbn [PpmPlainDecoder.decode_tokens].
      rewrite (DecoderFacts.decode_token_packed _ _ _ _ v Hlen Hv Hrange
                 (DecoderFacts.depth_maximum_fits _ Hdepth)).
      cbn [bind]. rewrite TokenRun.packed_app, TokenRun.packed_one.
      replace (length (packed depth values
                       ++ Py.big_endian (PpmPlainDecoder.bytes_per_sample_of depth) v)
               =? PpmPlainDecoder.total_bytes_of xsize ysize channels depth)%nat
        with (S (length values) =? xsize * ysize * channels)%nat; [reflexivity|].
      pose proof (PlainText.bps_positive depth Hdepth) as Hbps.
      rewrite length_app, DecoderFacts.big_endian_length, TokenRun.packed_length.
      unfold PpmPlainDecoder.total_bytes_of.
      destruct (Nat.eqb_spec (S (length values)) (xsize * ysize * channels)) as [E|Hne];
        symmetry; [apply Nat.eqb_eq; rewrite <- E; lia|apply Nat.eqb_neq; nia].
  - intros xsize ysize channels depth fd part head more values Hdepth.
    apply CutToken._decode_blocks_fragment_too_long. exact Hdepth.
  - intros xsize ysize channels depth fd part head tail ws rest more values
           Hdepth Hfd Hpart Hvalues Hroom Hhead Hplain Hws Hrest.
    split.
    + intros Hlong.
      apply (CutToken._decode_blocks_stitched_raise xsize ysize channels depth Hdepth
               fd part head tail ws rest more values); try assumption.
      apply DecoderFacts.decode_token_too_long. exact Hlong.
    + intros v _ Hv Hlast.
      apply (CutToken._decode_blocks_stitched_last xsize ysize channels depth Hdepth
               fd part head tail ws rest more values); assumption.
  - intros xsize ysize digits ws. apply BitRun._decode_bitonal_run.
Qed.

Lemma token_length_limit_witness :
  PpmImageFile._read_token (mkfile 0 (bytes_of "1234567890" ++ 10 :: bytes_of "7"))
  = Ok (bytes_of "1234567890", mkfile 11 (bytes_of "7"))
  /\ PpmImageFile._read_token (mkfile 0 (bytes_of "12345678901" ++ [10]))
     = Raise (HeaderTokenTooLong (bytes_of "12345678901"))
  /\ PpmPlainDecoder._decode_blocks 2 1 1 8 [bytes_of "7 "; bytes_of "12345678901 "]
     = Some (Raise (DataTokenTooLong (bytes_of "12345678901")))
  /\ PpmPlainDecoder._decode_blocks 2 1 1 32 [bytes_of "7 "; bytes_of "1234567890 8 "]
     = Some (Ok [0; 0; 0; 7; 73; 150; 2; 210])
  /\ PpmPlainDecoder._decode_blocks 2 1 1 8 [bytes_of "7 "; bytes_of "8 12345678901"]
     = Some (Raise (DataTokenTooLong (bytes_of "12345678901")))
  /\ PpmPlainDecoder._decode_blocks 2 1 1 8 [bytes_of "7 "; bytes_of "123456"; bytes_of "78901 "]
     = Some (Raise (DataTokenTooLong (bytes_of "12345678901")))
  /\ PpmPlainDecoder._decode_blocks 2 1 1 32 [bytes_of "7 "; bytes_of "12345"; bytes_of "67890 "]
     = Some (Ok [0; 0; 0; 7; 73; 150; 2; 210])
  /\ PpmPlainDecoder._decode_bitonal 11 1 [bytes_of "01010101010" ++ [10]]
     = Some (Ok [255; 0; 255; 0; 255; 0; 255; 0; 255; 0; 255]).
Proof.
  split; [|split; [|split; [|split; [|split; [|split; [|split]]]]]].
  - apply (proj1 token_length_limit (bytes_of "1234567890") 10 0%nat (bytes_of "7"));
      settle.
  - apply (proj1 (proj2 token_length_limit) (bytes_of "12345678901") 0%nat [10]); settle.
  - apply (proj1 (proj1 (proj2 (proj2 token_length_limit))
                   2%nat 1%nat 1%nat 8 [bytes_of "7 "; bytes_of "12345678901 "]
                   [bytes_of "7"] (bytes_of "12345678901") [] [7]
                   ltac:(settle) eq_refl eq_refl ltac:(settle) ltac:(settle))).
    settle.
  - apply (proj2 (proj1 (proj2 (proj2 token_length_limit))
                   2%nat 1%nat 1%nat 32 [bytes_of "7 "; bytes_of "1234567890 8 "]
                   [bytes_of "7"] (bytes_of "1234567890") [bytes_of "8"] [7]
                   ltac:(settle) eq_refl eq_refl ltac:(settle) ltac:(settle))
             1234567890 eq_refl).
    repeat split; settle.
  - apply (proj1 (proj2 (proj2 (proj2 token_length_limit)))
             2%nat 1%nat 1%nat 8 [bytes_of "7 "] (bytes_of "8 ") (bytes_of "12345678901")
             [] [7]); settle.
  - apply (proj1 (proj1 (proj2 (proj2 (proj2 (proj2 token_length_limit))))
                   2%nat 1%nat 1%nat 8 [bytes_of "7 "] [] (bytes_of "123456")
                   (bytes_of "78901") 32 [] [] [7]
                   ltac:(settle) eq_refl eq_refl ltac:(settle) ltac:(settle)
                   ltac:(settle) eq_refl eq_refl eq_refl)).
    settle.
  - apply (proj2 (proj1 (proj2 (proj2 (proj2 (proj2 token_length_limit))))
                   2%nat 1%nat 1%nat 32 [bytes_of "7 "] [] (bytes_of "12345")
                   (bytes_of "67890") 32 [] [] [7]
                   ltac:(settle) eq_refl eq_refl ltac:(settle) ltac:(settle)
                   ltac:(settle) eq_refl eq_refl eq_refl)
             1234567890 eq_refl); [repeat split; settle|settle].
  - apply (proj2 (proj2 (proj2 (proj2 (proj2 token_length_limit))))
             11%nat 1%nat (bytes_of "01010101010") 10); settle.
Defined.
